(** * LDAP authentication backend of Airflow
      (airflow/contrib/auth/backends/ldap_auth.py)

    A shallow embedding of the backend's functions, followed by the
    properties of its natural-language specification.

    Conventions of the embedding.
    - Python [str] values are [string]s: the UTF-8 encoding of the
      sequence of code points.  [str.lower] is the one of Python 3.11
      (Unicode 14.0); the letters of the pattern of the backend are ASCII,
      and [re.IGNORECASE] is modelled for them.
    - The configuration object [conf] is a finite map from section names to
      finite maps from option names to values; [conf.get] raises
      [AirflowConfigException] for an option that is not there.
    - The directory server reached through the ldap3 client is an
      environment: a record [Directory] that answers bind and search
      requests.  What a function asks of it, and what it logs, is recorded
      in a trace of [Event]s, in program order.  The calls of ldap3 are
      taken to return, with one exception: [conn.search] raises for the
      empty conjunction [(&())], the filter that [group_contains_user]
      builds from an empty group filter and that ldap3 refuses.
    - A function that can raise returns an [Outcome]; the exception classes
      are the constructors of [Exn].
    - The decorators [cache.memoize] and [measure] are not part of the
      embedding: the definitions are the decorated bodies, that is, what is
      run when the cache has no entry for the arguments. *)

From Stdlib Require Import String Ascii List Bool NArith ZArith Lia.
From stdpp Require Import base option gmap strings.
Import ListNotations.
Local Open Scope string_scope.
Local Open Scope list_scope.

(** ** Python strings *)

Module PyStr.

(** The lower-case form of an ASCII character: the capitals move down by
    32.  This is all that [re.IGNORECASE] needs for the letters of the
    pattern of the backend. *)
Definition lower_char (a : ascii) : ascii :=
  let n := N_of_ascii a in
  if (65 <=? n)%N && (n <=? 90)%N then ascii_of_N (n + 32) else a.

(** *** Code points

    A [str] is a sequence of code points and a [string] of the embedding
    is its UTF-8 encoding.  A byte that belongs to no well-formed sequence
    stands for itself: it is decoded to the code point U+DC00 + byte, which
    is encoded as that byte again (the surrogateescape convention of
    Python). *)

(** is [b] a continuation byte of a UTF-8 sequence? *)
Definition continuation (b : N) : bool := ((128 <=? b) && (b <=? 191))%N.

Definition escaped (b : N) : N := (56320 + b)%N.

Fixpoint decode (s : string) : list N :=
  match s with
  | EmptyString => []
  | String a0 s1 =>
      let b0 := N_of_ascii a0 in
      if (b0 <? 128)%N then b0 :: decode s1
      else
        match s1 with
        | String a1 s2 =>
            let b1 := N_of_ascii a1 in
            if ((194 <=? b0) && (b0 <=? 223))%N && continuation b1
            then ((b0 - 192) * 64 + (b1 - 128))%N :: decode s2
            else
              match s2 with
              | String a2 s3 =>
                  let b2 := N_of_ascii a2 in
                  let c3 := ((b0 - 224) * 4096 + (b1 - 128) * 64 + (b2 - 128))%N in
                  if ((224 <=? b0) && (b0 <=? 239))%N
                     && continuation b1 && continuation b2
                     && (2048 <=? c3)%N
                     && negb ((55296 <=? c3) && (c3 <=? 57343))%N
                  then c3 :: decode s3
                  else
                    match s3 with
                    | String a3 s4 =>
                        let b3 := N_of_ascii a3 in
                        let c4 := ((b0 - 240) * 262144 + (b1 - 128) * 4096
                                   + (b2 - 128) * 64 + (b3 - 128))%N in
                        if ((240 <=? b0) && (b0 <=? 244))%N
                           && continuation b1 && continuation b2 && continuation b3
                           && ((65536 <=? c4) && (c4 <=? 1114111))%N
                        then c4 :: decode s4
                        else escaped b0 :: decode s1
                    | EmptyString => escaped b0 :: decode s1
                    end
              | EmptyString => escaped b0 :: decode s1
              end
        | EmptyString => [escaped b0]
        end
  end.

Definition encode_code_point (c : N) : string :=
  if (c <? 128)%N then String (ascii_of_N c) EmptyString
  else if (c <? 2048)%N then
    String (ascii_of_N (192 + c / 64))
      (String (ascii_of_N (128 + c mod 64)) EmptyString)
  else if ((56448 <=? c) && (c <=? 56575))%N then
    String (ascii_of_N (c - 56320)) EmptyString
  else if (c <? 65536)%N then
    String (ascii_of_N (224 + c / 4096))
      (String (ascii_of_N (128 + (c / 64) mod 64))
         (String (ascii_of_N (128 + c mod 64)) EmptyString))
  else
    String (ascii_of_N (240 + c / 262144))
      (String (ascii_of_N (128 + (c / 4096) mod 64))
         (String (ascii_of_N (128 + (c / 64) mod 64))
            (String (ascii_of_N (128 + c mod 64)) EmptyString))).

Fixpoint encode (l : list N) : string :=
  match l with
  | [] => EmptyString
  | c :: l' => encode_code_point c +:+ encode l'
  end.

(** *** [str.lower] *)

(** The simple lower-case mapping of Unicode 14.0, the version of the
    character database of Python 3.11: [(first, last, step, lower)] maps
    the code points [first], [first + step], ..., [last] to [lower],
    [lower + step], ... *)
Definition lower_ranges : list (N * N * N * N) :=
  [ (65, 90, 1, 97); (192, 214, 1, 224); (216, 222, 1, 248); (256, 302, 2, 257);
    (306, 310, 2, 307); (313, 327, 2, 314); (330, 374, 2, 331); (376, 376, 1, 255);
    (377, 381, 2, 378); (385, 385, 1, 595); (386, 388, 2, 387); (390, 390, 1, 596);
    (391, 391, 1, 392); (393, 394, 1, 598); (395, 395, 1, 396); (398, 398, 1, 477);
    (399, 399, 1, 601); (400, 400, 1, 603); (401, 401, 1, 402); (403, 403, 1, 608);
    (404, 404, 1, 611); (406, 406, 1, 617); (407, 407, 1, 616); (408, 408, 1, 409);
    (412, 412, 1, 623); (413, 413, 1, 626); (415, 415, 1, 629); (416, 420, 2, 417);
    (422, 422, 1, 640); (423, 423, 1, 424); (425, 425, 1, 643); (428, 428, 1, 429);
    (430, 430, 1, 648); (431, 431, 1, 432); (433, 434, 1, 650); (435, 437, 2, 436);
    (439, 439, 1, 658); (440, 440, 1, 441); (444, 444, 1, 445); (452, 452, 1, 454);
    (453, 453, 1, 454); (455, 455, 1, 457); (456, 456, 1, 457); (458, 458, 1, 460);
    (459, 475, 2, 460); (478, 494, 2, 479); (497, 497, 1, 499); (498, 500, 2, 499);
    (502, 502, 1, 405); (503, 503, 1, 447); (504, 542, 2, 505); (544, 544, 1, 414);
    (546, 562, 2, 547); (570, 570, 1, 11365); (571, 571, 1, 572); (573, 573, 1, 410);
    (574, 574, 1, 11366); (577, 577, 1, 578); (579, 579, 1, 384); (580, 580, 1, 649);
    (581, 581, 1, 652); (582, 590, 2, 583); (880, 882, 2, 881); (886, 886, 1, 887);
    (895, 895, 1, 1011); (902, 902, 1, 940); (904, 906, 1, 941); (908, 908, 1, 972);
    (910, 911, 1, 973); (913, 929, 1, 945); (932, 939, 1, 964); (975, 975, 1, 983);
    (984, 1006, 2, 985); (1012, 1012, 1, 952); (1015, 1015, 1, 1016); (1017, 1017, 1, 1010);
    (1018, 1018, 1, 1019); (1021, 1023, 1, 891); (1024, 1039, 1, 1104); (1040, 1071, 1, 1072);
    (1120, 1152, 2, 1121); (1162, 1214, 2, 1163); (1216, 1216, 1, 1231); (1217, 1229, 2, 1218);
    (1232, 1326, 2, 1233); (1329, 1366, 1, 1377); (4256, 4293, 1, 11520); (4295, 4295, 1, 11559);
    (4301, 4301, 1, 11565); (5024, 5103, 1, 43888); (5104, 5109, 1, 5112); (7312, 7354, 1, 4304);
    (7357, 7359, 1, 4349); (7680, 7828, 2, 7681); (7838, 7838, 1, 223); (7840, 7934, 2, 7841);
    (7944, 7951, 1, 7936); (7960, 7965, 1, 7952); (7976, 7983, 1, 7968); (7992, 7999, 1, 7984);
    (8008, 8013, 1, 8000); (8025, 8031, 2, 8017); (8040, 8047, 1, 8032); (8072, 8079, 1, 8064);
    (8088, 8095, 1, 8080); (8104, 8111, 1, 8096); (8120, 8121, 1, 8112); (8122, 8123, 1, 8048);
    (8124, 8124, 1, 8115); (8136, 8139, 1, 8050); (8140, 8140, 1, 8131); (8152, 8153, 1, 8144);
    (8154, 8155, 1, 8054); (8168, 8169, 1, 8160); (8170, 8171, 1, 8058); (8172, 8172, 1, 8165);
    (8184, 8185, 1, 8056); (8186, 8187, 1, 8060); (8188, 8188, 1, 8179); (8486, 8486, 1, 969);
    (8490, 8490, 1, 107); (8491, 8491, 1, 229); (8498, 8498, 1, 8526); (8544, 8559, 1, 8560);
    (8579, 8579, 1, 8580); (9398, 9423, 1, 9424); (11264, 11311, 1, 11312); (11360, 11360, 1, 11361);
    (11362, 11362, 1, 619); (11363, 11363, 1, 7549); (11364, 11364, 1, 637); (11367, 11371, 2, 11368);
    (11373, 11373, 1, 593); (11374, 11374, 1, 625); (11375, 11375, 1, 592); (11376, 11376, 1, 594);
    (11378, 11378, 1, 11379); (11381, 11381, 1, 11382); (11390, 11391, 1, 575); (11392, 11490, 2, 11393);
    (11499, 11501, 2, 11500); (11506, 11506, 1, 11507); (42560, 42604, 2, 42561); (42624, 42650, 2, 42625);
    (42786, 42798, 2, 42787); (42802, 42862, 2, 42803); (42873, 42875, 2, 42874); (42877, 42877, 1, 7545);
    (42878, 42886, 2, 42879); (42891, 42891, 1, 42892); (42893, 42893, 1, 613); (42896, 42898, 2, 42897);
    (42902, 42920, 2, 42903); (42922, 42922, 1, 614); (42923, 42923, 1, 604); (42924, 42924, 1, 609);
    (42925, 42925, 1, 620); (42926, 42926, 1, 618); (42928, 42928, 1, 670); (42929, 42929, 1, 647);
    (42930, 42930, 1, 669); (42931, 42931, 1, 43859); (42932, 42946, 2, 42933); (42948, 42948, 1, 42900);
    (42949, 42949, 1, 642); (42950, 42950, 1, 7566); (42951, 42953, 2, 42952); (42960, 42960, 1, 42961);
    (42966, 42968, 2, 42967); (42997, 42997, 1, 42998); (65313, 65338, 1, 65345); (66560, 66599, 1, 66600);
    (66736, 66771, 1, 66776); (66928, 66938, 1, 66967); (66940, 66954, 1, 66979); (66956, 66962, 1, 66995);
    (66964, 66965, 1, 67003); (68736, 68786, 1, 68800); (71840, 71871, 1, 71872); (93760, 93791, 1, 93792);
    (125184, 125217, 1, 125218) ]%N.

(** The code points with the property Cased, as ranges [(first, last)]. *)
Definition cased_ranges : list (N * N) :=
  [ (65, 90); (97, 122); (170, 170); (181, 181); (186, 186); (192, 214);
    (216, 246); (248, 442); (444, 447); (452, 659); (661, 696); (704, 705);
    (736, 740); (837, 837); (880, 883); (886, 887); (890, 893); (895, 895);
    (902, 902); (904, 906); (908, 908); (910, 929); (931, 1013); (1015, 1153);
    (1162, 1327); (1329, 1366); (1376, 1416); (4256, 4293); (4295, 4295); (4301, 4301);
    (4304, 4346); (4349, 4351); (5024, 5109); (5112, 5117); (7296, 7304); (7312, 7354);
    (7357, 7359); (7424, 7615); (7680, 7957); (7960, 7965); (7968, 8005); (8008, 8013);
    (8016, 8023); (8025, 8025); (8027, 8027); (8029, 8029); (8031, 8061); (8064, 8116);
    (8118, 8124); (8126, 8126); (8130, 8132); (8134, 8140); (8144, 8147); (8150, 8155);
    (8160, 8172); (8178, 8180); (8182, 8188); (8305, 8305); (8319, 8319); (8336, 8348);
    (8450, 8450); (8455, 8455); (8458, 8467); (8469, 8469); (8473, 8477); (8484, 8484);
    (8486, 8486); (8488, 8488); (8490, 8493); (8495, 8500); (8505, 8505); (8508, 8511);
    (8517, 8521); (8526, 8526); (8544, 8575); (8579, 8580); (9398, 9449); (11264, 11492);
    (11499, 11502); (11506, 11507); (11520, 11557); (11559, 11559); (11565, 11565); (42560, 42605);
    (42624, 42653); (42786, 42887); (42891, 42894); (42896, 42954); (42960, 42961); (42963, 42963);
    (42965, 42969); (42997, 42998); (43000, 43002); (43824, 43866); (43868, 43880); (43888, 43967);
    (64256, 64262); (64275, 64279); (65313, 65338); (65345, 65370); (66560, 66639); (66736, 66771);
    (66776, 66811); (66928, 66938); (66940, 66954); (66956, 66962); (66964, 66965); (66967, 66977);
    (66979, 66993); (66995, 67001); (67003, 67004); (67456, 67456); (67459, 67461); (67463, 67504);
    (67506, 67514); (68736, 68786); (68800, 68850); (71840, 71903); (93760, 93823); (119808, 119892);
    (119894, 119964); (119966, 119967); (119970, 119970); (119973, 119974); (119977, 119980); (119982, 119993);
    (119995, 119995); (119997, 120003); (120005, 120069); (120071, 120074); (120077, 120084); (120086, 120092);
    (120094, 120121); (120123, 120126); (120128, 120132); (120134, 120134); (120138, 120144); (120146, 120485);
    (120488, 120512); (120514, 120538); (120540, 120570); (120572, 120596); (120598, 120628); (120630, 120654);
    (120656, 120686); (120688, 120712); (120714, 120744); (120746, 120770); (120772, 120779); (122624, 122633);
    (122635, 122654); (125184, 125251); (127280, 127305); (127312, 127337); (127344, 127369) ]%N.

(** The code points with the property Case_Ignorable. *)
Definition case_ignorable_ranges : list (N * N) :=
  [ (39, 39); (46, 46); (58, 58); (94, 94); (96, 96); (168, 168);
    (173, 173); (175, 175); (180, 180); (183, 184); (688, 879); (884, 885);
    (890, 890); (900, 901); (903, 903); (1155, 1161); (1369, 1369); (1375, 1375);
    (1425, 1469); (1471, 1471); (1473, 1474); (1476, 1477); (1479, 1479); (1524, 1524);
    (1536, 1541); (1552, 1562); (1564, 1564); (1600, 1600); (1611, 1631); (1648, 1648);
    (1750, 1757); (1759, 1768); (1770, 1773); (1807, 1807); (1809, 1809); (1840, 1866);
    (1958, 1968); (2027, 2037); (2042, 2042); (2045, 2045); (2070, 2093); (2137, 2139);
    (2184, 2184); (2192, 2193); (2200, 2207); (2249, 2306); (2362, 2362); (2364, 2364);
    (2369, 2376); (2381, 2381); (2385, 2391); (2402, 2403); (2417, 2417); (2433, 2433);
    (2492, 2492); (2497, 2500); (2509, 2509); (2530, 2531); (2558, 2558); (2561, 2562);
    (2620, 2620); (2625, 2626); (2631, 2632); (2635, 2637); (2641, 2641); (2672, 2673);
    (2677, 2677); (2689, 2690); (2748, 2748); (2753, 2757); (2759, 2760); (2765, 2765);
    (2786, 2787); (2810, 2815); (2817, 2817); (2876, 2876); (2879, 2879); (2881, 2884);
    (2893, 2893); (2901, 2902); (2914, 2915); (2946, 2946); (3008, 3008); (3021, 3021);
    (3072, 3072); (3076, 3076); (3132, 3132); (3134, 3136); (3142, 3144); (3146, 3149);
    (3157, 3158); (3170, 3171); (3201, 3201); (3260, 3260); (3263, 3263); (3270, 3270);
    (3276, 3277); (3298, 3299); (3328, 3329); (3387, 3388); (3393, 3396); (3405, 3405);
    (3426, 3427); (3457, 3457); (3530, 3530); (3538, 3540); (3542, 3542); (3633, 3633);
    (3636, 3642); (3654, 3662); (3761, 3761); (3764, 3772); (3782, 3782); (3784, 3789);
    (3864, 3865); (3893, 3893); (3895, 3895); (3897, 3897); (3953, 3966); (3968, 3972);
    (3974, 3975); (3981, 3991); (3993, 4028); (4038, 4038); (4141, 4144); (4146, 4151);
    (4153, 4154); (4157, 4158); (4184, 4185); (4190, 4192); (4209, 4212); (4226, 4226);
    (4229, 4230); (4237, 4237); (4253, 4253); (4348, 4348); (4957, 4959); (5906, 5908);
    (5938, 5939); (5970, 5971); (6002, 6003); (6068, 6069); (6071, 6077); (6086, 6086);
    (6089, 6099); (6103, 6103); (6109, 6109); (6155, 6159); (6211, 6211); (6277, 6278);
    (6313, 6313); (6432, 6434); (6439, 6440); (6450, 6450); (6457, 6459); (6679, 6680);
    (6683, 6683); (6742, 6742); (6744, 6750); (6752, 6752); (6754, 6754); (6757, 6764);
    (6771, 6780); (6783, 6783); (6823, 6823); (6832, 6862); (6912, 6915); (6964, 6964);
    (6966, 6970); (6972, 6972); (6978, 6978); (7019, 7027); (7040, 7041); (7074, 7077);
    (7080, 7081); (7083, 7085); (7142, 7142); (7144, 7145); (7149, 7149); (7151, 7153);
    (7212, 7219); (7222, 7223); (7288, 7293); (7376, 7378); (7380, 7392); (7394, 7400);
    (7405, 7405); (7412, 7412); (7416, 7417); (7468, 7530); (7544, 7544); (7579, 7679);
    (8125, 8125); (8127, 8129); (8141, 8143); (8157, 8159); (8173, 8175); (8189, 8190);
    (8203, 8207); (8216, 8217); (8228, 8228); (8231, 8231); (8234, 8238); (8288, 8292);
    (8294, 8303); (8305, 8305); (8319, 8319); (8336, 8348); (8400, 8432); (11388, 11389);
    (11503, 11505); (11631, 11631); (11647, 11647); (11744, 11775); (11823, 11823); (12293, 12293);
    (12330, 12333); (12337, 12341); (12347, 12347); (12441, 12446); (12540, 12542); (40981, 40981);
    (42232, 42237); (42508, 42508); (42607, 42610); (42612, 42621); (42623, 42623); (42652, 42655);
    (42736, 42737); (42752, 42785); (42864, 42864); (42888, 42890); (42994, 42996); (43000, 43001);
    (43010, 43010); (43014, 43014); (43019, 43019); (43045, 43046); (43052, 43052); (43204, 43205);
    (43232, 43249); (43263, 43263); (43302, 43309); (43335, 43345); (43392, 43394); (43443, 43443);
    (43446, 43449); (43452, 43453); (43471, 43471); (43493, 43494); (43561, 43566); (43569, 43570);
    (43573, 43574); (43587, 43587); (43596, 43596); (43632, 43632); (43644, 43644); (43696, 43696);
    (43698, 43700); (43703, 43704); (43710, 43711); (43713, 43713); (43741, 43741); (43756, 43757);
    (43763, 43764); (43766, 43766); (43867, 43871); (43881, 43883); (44005, 44005); (44008, 44008);
    (44013, 44013); (64286, 64286); (64434, 64450); (65024, 65039); (65043, 65043); (65056, 65071);
    (65106, 65106); (65109, 65109); (65279, 65279); (65287, 65287); (65294, 65294); (65306, 65306);
    (65342, 65342); (65344, 65344); (65392, 65392); (65438, 65439); (65507, 65507); (65529, 65531);
    (66045, 66045); (66272, 66272); (66422, 66426); (67456, 67461); (67463, 67504); (67506, 67514);
    (68097, 68099); (68101, 68102); (68108, 68111); (68152, 68154); (68159, 68159); (68325, 68326);
    (68900, 68903); (69291, 69292); (69446, 69456); (69506, 69509); (69633, 69633); (69688, 69702);
    (69744, 69744); (69747, 69748); (69759, 69761); (69811, 69814); (69817, 69818); (69821, 69821);
    (69826, 69826); (69837, 69837); (69888, 69890); (69927, 69931); (69933, 69940); (70003, 70003);
    (70016, 70017); (70070, 70078); (70089, 70092); (70095, 70095); (70191, 70193); (70196, 70196);
    (70198, 70199); (70206, 70206); (70367, 70367); (70371, 70378); (70400, 70401); (70459, 70460);
    (70464, 70464); (70502, 70508); (70512, 70516); (70712, 70719); (70722, 70724); (70726, 70726);
    (70750, 70750); (70835, 70840); (70842, 70842); (70847, 70848); (70850, 70851); (71090, 71093);
    (71100, 71101); (71103, 71104); (71132, 71133); (71219, 71226); (71229, 71229); (71231, 71232);
    (71339, 71339); (71341, 71341); (71344, 71349); (71351, 71351); (71453, 71455); (71458, 71461);
    (71463, 71467); (71727, 71735); (71737, 71738); (71995, 71996); (71998, 71998); (72003, 72003);
    (72148, 72151); (72154, 72155); (72160, 72160); (72193, 72202); (72243, 72248); (72251, 72254);
    (72263, 72263); (72273, 72278); (72281, 72283); (72330, 72342); (72344, 72345); (72752, 72758);
    (72760, 72765); (72767, 72767); (72850, 72871); (72874, 72880); (72882, 72883); (72885, 72886);
    (73009, 73014); (73018, 73018); (73020, 73021); (73023, 73029); (73031, 73031); (73104, 73105);
    (73109, 73109); (73111, 73111); (73459, 73460); (78896, 78904); (92912, 92916); (92976, 92982);
    (92992, 92995); (94031, 94031); (94095, 94111); (94176, 94177); (94179, 94180); (110576, 110579);
    (110581, 110587); (110589, 110590); (113821, 113822); (113824, 113827); (118528, 118573); (118576, 118598);
    (119143, 119145); (119155, 119170); (119173, 119179); (119210, 119213); (119362, 119364); (121344, 121398);
    (121403, 121452); (121461, 121461); (121476, 121476); (121499, 121503); (121505, 121519); (122880, 122886);
    (122888, 122904); (122907, 122913); (122915, 122916); (122918, 122922); (123184, 123197); (123566, 123566);
    (123628, 123631); (125136, 125142); (125252, 125259); (127995, 127999); (917505, 917505); (917536, 917631);
    (917760, 917999) ]%N.

Fixpoint in_ranges (c : N) (ranges : list (N * N)) : bool :=
  match ranges with
  | [] => false
  | (first, last) :: ranges' =>
      if ((first <=? c) && (c <=? last))%N then true else in_ranges c ranges'
  end.

Definition is_cased (c : N) : bool := in_ranges c cased_ranges.
Definition is_case_ignorable (c : N) : bool := in_ranges c case_ignorable_ranges.

Fixpoint lower_simple (c : N) (ranges : list (N * N * N * N)) : N :=
  match ranges with
  | [] => c
  | (first, last, step, lower) :: ranges' =>
      if ((first <=? c) && (c <=? last) && ((c - first) mod step =? 0))%N
      then (lower + (c - first))%N
      else lower_simple c ranges'
  end.

(** the lower-case form of a code point other than the capital sigma:
    one code point, or two for the capital I with a dot above *)
Definition lower_code_point (c : N) : list N :=
  if (c =? 304)%N then [105; 775]%N else [lower_simple c lower_ranges].

(** the code points from the first that is not case-ignorable *)
Fixpoint skip_case_ignorable (l : list N) : list N :=
  match l with
  | [] => []
  | c :: l' => if is_case_ignorable c then skip_case_ignorable l' else l
  end.

(** A capital sigma (U+03A3) is final when a cased letter comes before it
    and none comes after it, case-ignorable code points set aside;
    [before] holds the code points that precede it, the nearest first. *)
Definition final_sigma (before after : list N) : bool :=
  match skip_case_ignorable before with
  | c :: _ =>
      is_cased c
      && match skip_case_ignorable after with
         | [] => true
         | c' :: _ => negb (is_cased c')
         end
  | [] => false
  end.

Fixpoint lower_code_points (before l : list N) : list N :=
  match l with
  | [] => []
  | c :: l' =>
      (if (c =? 931)%N
       then [if final_sigma before l' then 962%N else 963%N]
       else lower_code_point c)
      ++ lower_code_points (c :: before) l'
  end.

(** [s.lower()] *)
Definition lower (s : string) : string :=
  encode (lower_code_points [] (decode s)).

(** truth value of a string: [bool(s)] *)
Definition truthy (s : string) : bool :=
  match s with
  | EmptyString => false
  | String _ _ => true
  end.

(** [x in xs] for a sequence of strings *)
Fixpoint contains (x : string) (xs : list string) : bool :=
  match xs with
  | [] => false
  | y :: ys => if String.eqb x y then true else contains x ys
  end.

Definition comma : ascii := ","%char.

Fixpoint has_comma (s : string) : bool :=
  match s with
  | EmptyString => false
  | String a s' => if Ascii.eqb a comma then true else has_comma s'
  end.

End PyStr.

(** ** Exceptions, events and the monad of the embedding *)

(** The exception classes the backend raises or lets through.
    [AuthenticationError] and [LdapException] are declared by the module
    itself, [AirflowConfigException] by [airflow.configuration],
    [LDAPInvalidFilterError] by ldap3; the others are Python's own. *)
Inductive Exn : Type :=
| AirflowConfigException (section key : string)
| AuthenticationError (msg : string)
| LdapException (msg : string)
| UnboundLocalError (name : string)
| AttributeError (msg : string)
| IndexError (msg : string)
| KeyError (key : string)
| LDAPInvalidFilterError.

Inductive Level : Type := DEBUG | INFO | WARNING | ERROR.

(** ldap3 search scopes ([LEVEL], [SUBTREE]; [BASE] is never chosen by the
    backend). *)
Inductive Scope : Type := BASE | LEVEL | SUBTREE.

Record Tls : Type := mkTls {
  validate_cert_required : bool;
  ca_certs_file : string
}.

Record Server : Type := mkServer {
  host : string;
  use_ssl : bool;
  tls : Tls;
  get_info : string
}.

(** [Connection(server, user, password)] *)
Record Connection : Type := mkConnection {
  server : Server;
  conn_user : string;
  conn_password : string
}.

(** One element of [conn.response]: a dictionary that may or may not hold
    the keys ['dn'] and ['attributes'] (a search-result reference holds
    neither).  The attributes are an association from names to value
    lists. *)
Record ResponseItem : Type := mkResponseItem {
  r_dn : option string;
  r_attributes : option (list (string * list string))
}.

(** One element of [conn.entries]: an object with one field per attribute
    that the server sent, each with its list of values. *)
Record Entry : Type := mkEntry {
  entry_dn : string;
  entry_attributes : list (string * list string)
}.

(** What [conn.search] leaves behind: its boolean result, [conn.response]
    and [conn.entries]. *)
Record SearchResult : Type := mkSearchResult {
  sr_ok : bool;
  sr_response : list ResponseItem;
  sr_entries : list Entry
}.

(** The directory server as the client sees it. *)
Record Directory : Type := mkDirectory {
  ldap_bind : Server -> string -> string -> bool;
  ldap_last_error : Server -> string -> string -> string;
  ldap_search :
    Connection -> string -> string -> Scope -> option (list string) -> SearchResult
}.

Inductive Event : Type :=
| SetConfigParameter (name value : string)
| Bind (conn : Connection) (ok : bool)
| Search (conn : Connection) (search_base search_filter : string)
         (scope : Scope) (attributes : option (list string))
| Unbind (conn : Connection)
| Log (level : Level) (msg : string).

Inductive Outcome (A : Type) : Type :=
| Return (a : A)
| Raise (e : Exn).
Arguments Return {A} a.
Arguments Raise {A} e.

(** A computation: the events it performed, in order, and how it ended. *)
Definition M (A : Type) : Type := list Event * Outcome A.

Definition trace {A} (m : M A) : list Event := fst m.
Definition outcome {A} (m : M A) : Outcome A := snd m.

Definition ret {A} (a : A) : M A := ([], Return a).
Definition raise {A} (e : Exn) : M A := ([], Raise e).
Definition emit (ev : Event) : M unit := ([ev], Return tt).

(** [m], run after the events [t] *)
Definition after {A} (t : list Event) (m : M A) : M A :=
  (t ++ trace m, outcome m).

Definition bind {A B} (m : M A) (k : A -> M B) : M B :=
  match outcome m with
  | Return a => after (trace m) (k a)
  | Raise e => (trace m, Raise e)
  end.

Notation "x <- m ;; k" := (bind m (fun x => k))
  (at level 100, m at next level, right associativity).
Notation "m ;;; k" := (bind m (fun _ => k))
  (at level 100, right associativity).

(** [try: body except <classes>: handler]: only the exceptions selected by
    [handles] are caught, the others go through. *)
Definition try_except {A} (body : M A) (handles : Exn -> bool)
    (handler : Exn -> M A) : M A :=
  match outcome body with
  | Return a => body
  | Raise e =>
      if handles e then after (trace body) (handler e) else body
  end.

Definition is_AirflowConfigException (e : Exn) : bool :=
  match e with AirflowConfigException _ _ => true | _ => false end.
Definition is_IndexError (e : Exn) : bool :=
  match e with IndexError _ => true | _ => false end.
Definition is_KeyError (e : Exn) : bool :=
  match e with KeyError _ => true | _ => false end.
(** [except Exception] *)
Definition is_Exception (e : Exn) : bool := true.

Definition log (lvl : Level) (msg : string) : M unit := emit (Log lvl msg).

(** A local variable of a Python function: not yet assigned, or holding a
    value.  Reading an unassigned local raises [UnboundLocalError]. *)
Inductive Local (A : Type) : Type :=
| Unbound
| Bound (a : A).
Arguments Unbound {A}.
Arguments Bound {A} a.

Definition read_local {A} (name : string) (v : Local A) : M A :=
  match v with
  | Bound a => ret a
  | Unbound => raise (UnboundLocalError name)
  end.

(** ** Configuration *)

(** [conf.get(section, key)] *)
Definition conf_get (conf : gmap string (gmap string string))
    (section key : string) : M string :=
  match conf !! section with
  | Some options =>
      match options !! key with
      | Some v => ret v
      | None => raise (AirflowConfigException section key)
      end
  | None => raise (AirflowConfigException section key)
  end.

(** [conf.has_option(section, key)] *)
Definition conf_has_option (conf : gmap string (gmap string string))
    (section key : string) : bool :=
  match outcome (conf_get conf section key) with
  | Return _ => true
  | Raise _ => false
  end.

(** ** The regular expression of [groups_user]

    The pattern compiled with [re.IGNORECASE] is: the three characters
    c, n, = (the letters in either case), then group 1, [[^,]*], the
    longest run of characters other than a comma, then [.*], which can
    match nothing.  So the pattern matches at a position exactly when the
    three characters are there, and [search] takes the leftmost such
    position. *)
Module Regex.

Definition is_cn_eq (a b c : ascii) : bool :=
  Ascii.eqb (PyStr.lower_char a) "c"%char
  && Ascii.eqb (PyStr.lower_char b) "n"%char
  && Ascii.eqb c "="%char.

(** [[^,]*], greedy *)
Fixpoint not_comma_run (s : string) : string :=
  match s with
  | EmptyString => EmptyString
  | String a s' =>
      if Ascii.eqb a PyStr.comma then EmptyString
      else String a (not_comma_run s')
  end.

(** the pattern tried at the start of [s]; the result is group 1 *)
Definition match_here (s : string) : option string :=
  match s with
  | String a (String b (String c rest)) =>
      if is_cn_eq a b c then Some (not_comma_run rest) else None
  | _ => None
  end.

(** [regex.search(s)]: [None], or the match (kept as its group 1) *)
Fixpoint search (s : string) : option string :=
  match s with
  | EmptyString => None
  | String _ s' =>
      match match_here s with
      | Some g => Some g
      | None => search s'
      end
  end.

(** [m.group(1)], where [m] is the result of [search]: a failed search
    gave [None], which has no attribute [group]. *)
Definition group_1 (m : option string) : M string :=
  match m with
  | Some g => ret g
  | None => raise (AttributeError "'NoneType' object has no attribute 'group'")
  end.

End Regex.

(** ** Dictionaries and sequences of the ldap3 results *)

(** lookup in an association list: the first pair with the key *)
Fixpoint assoc {A} (key : string) (l : list (string * A)) : option A :=
  match l with
  | [] => None
  | (k, v) :: l' => if String.eqb key k then Some v else assoc key l'
  end.

Definition is_Some_bool {A} (o : option A) : bool :=
  match o with Some _ => true | None => false end.

Definition is_nil_bool {A} (l : list A) : bool :=
  match l with [] => true | _ => false end.

(** [conn.response[0]] *)
Definition response_0 (response : list ResponseItem) : M ResponseItem :=
  match response with
  | item :: _ => ret item
  | [] => raise (IndexError "list index out of range")
  end.

(** [item["attributes"]] *)
Definition item_attributes (item : ResponseItem) : M (list (string * list string)) :=
  match r_attributes item with
  | Some attrs => ret attrs
  | None => raise (KeyError "attributes")
  end.

(** [attrs[name]] *)
Definition attrs_get (attrs : list (string * list string)) (name : string)
    : M (list string) :=
  match assoc name attrs with
  | Some vs => ret vs
  | None => raise (KeyError name)
  end.

(** the values of the first attribute whose name is [name], the case of
    letters set aside *)
Fixpoint assoc_ignoring_case {A} (name : string) (l : list (string * A)) : option A :=
  match l with
  | [] => None
  | (k, v) :: l' =>
      if String.eqb (PyStr.lower k) (PyStr.lower name) then Some v
      else assoc_ignoring_case name l'
  end.

(** The values of attribute [name] in an entry of a search that asked for
    it.  ldap3 finds an attribute whatever the case of the letters of its
    name, and the connection is created with the default
    [return_empty_attributes]: an attribute that was asked for and that
    the server did not send is there, with no value. *)
Definition attribute_values (entry : Entry) (name : string) : list string :=
  match assoc_ignoring_case name (entry_attributes entry) with
  | Some vs => vs
  | None => []
  end.

(** [getattr(entry, name).values], for such an entry *)
Definition getattr_values (entry : Entry) (name : string) : M (list string) :=
  ret (attribute_values entry name).

(** The truth value of a [Connection] object: the class defines neither
    [__bool__] nor [__len__], so every instance is true. *)
Definition conn_truthy (conn : Connection) : bool := true.

(** The truth value of [None] or a string. *)
Definition opt_truthy (o : option string) : bool :=
  match o with
  | None => false
  | Some s => PyStr.truthy s
  end.

(** ** The user record of [airflow.models] and the backend's user object *)

Record User : Type := mkUser {
  user_id : string;
  username : string
}.

Record LdapUser : Type := mkLdapUser {
  user : User;
  ldap_groups : list string;
  superuser : bool;
  data_profiler : bool
}.

(** Whether a filter that is built from configured text is well formed
    depends on that text, and the embedding takes it to be.  The empty
    conjunction, which [group_contains_user] builds from an empty group
    filter, is malformed: ldap3 raises [LDAPInvalidFilterError] for it. *)
Definition malformed_filter (search_filter : string) : bool :=
  String.eqb search_filter "(&())".

(** ** The backend *)

Section Backend.

Variable conf : gmap string (gmap string string).
Variable directory : Directory.

(** [conn.search(search_base, search_filter, search_scope=..., attributes=...)];
    ldap3's default scope is [SUBTREE], its default attribute list is
    [None].  The filter is parsed before anything is sent, and an empty
    conjunction is refused. *)
Definition conn_search (conn : Connection) (search_base search_filter : string)
    (scope : Scope) (attributes : option (list string)) : M SearchResult :=
  emit (Search conn search_base search_filter scope attributes) ;;;
  if malformed_filter search_filter then raise LDAPInvalidFilterError
  else ret (ldap_search directory conn search_base search_filter scope attributes).

Definition get_ldap_connection (dn password : string) : M Connection :=
  cacert <-
    try_except (v <- conf_get conf "ldap" "cacert" ;; ret (Bound v))
      is_AirflowConfigException (fun _ => ret Unbound) ;;
  ignore_malformed_schema <-
    try_except (v <- conf_get conf "ldap" "ignore_malformed_schema" ;; ret (Bound v))
      is_AirflowConfigException (fun _ => ret Unbound) ;;
  ims <- read_local "ignore_malformed_schema" ignore_malformed_schema ;;
  (if PyStr.truthy ims
   then emit (SetConfigParameter "IGNORE_MALFORMED_SCHEMA" ims)
   else ret tt) ;;;
  ca_certs <- read_local "cacert" cacert ;;
  let tls_configuration := mkTls true ca_certs in
  search_scope <- conf_get conf "ldap" "search_scope" ;;
  uri <- conf_get conf "ldap" "uri" ;;
  let server := mkServer uri true tls_configuration search_scope in
  let conn := mkConnection server dn password in
  let bound := ldap_bind directory server dn password in
  emit (Bind conn bound) ;;;
  if negb bound then
    log ERROR ("Cannot bind to ldap server: "
               +:+ ldap_last_error directory server dn password +:+ " ") ;;;
    raise (AuthenticationError "Cannot bind to ldap server")
  else ret conn.

(** the [for entry in conn.entries] loop of [group_contains_user],
    with the [return False] that follows it *)
Fixpoint group_contains_user_loop (entries : list Entry)
    (user_name_attr username : string) : M bool :=
  match entries with
  | [] => ret false
  | entry :: entries' =>
      values <- getattr_values entry user_name_attr ;;
      if PyStr.contains (PyStr.lower username) (map PyStr.lower values)
      then ret true
      else group_contains_user_loop entries' user_name_attr username
  end.

Definition group_contains_user (conn : Connection)
    (search_base group_filter user_name_attr username : string) : M bool :=
  let search_filter := "(&(" +:+ group_filter +:+ "))" in
  res <- conn_search conn search_base search_filter SUBTREE (Some [user_name_attr]) ;;
  if negb (sr_ok res) then
    log WARNING ("Unable to find group for " +:+ search_base +:+ " " +:+ search_filter) ;;;
    ret false
  else group_contains_user_loop (sr_entries res) user_name_attr username.

(** [[regex.search(i).group(1) for i in user_groups]] *)
Fixpoint groups_comprehension (user_groups : list string) : M (list string) :=
  match user_groups with
  | [] => ret []
  | i :: rest =>
      g <- Regex.group_1 (Regex.search i) ;;
      gs <- groups_comprehension rest ;;
      ret (g :: gs)
  end.

(** [groups_user(conn, search_base, user_filter, user_name_att, username)];
    the texts of the two warnings are shortened to their first sentence. *)
Definition groups_user (conn : Connection)
    (search_base user_filter user_name_att username : string) : M (list string) :=
  let search_filter :=
    "(&(" +:+ user_filter +:+ ")(" +:+ user_name_att +:+ "=" +:+ username +:+ "))" in
  memberof_attr <-
    try_except (conf_get conf "ldap" "group_member_attr")
      is_Exception (fun _ => ret "memberOf") ;;
  res <- conn_search conn search_base search_filter SUBTREE (Some [memberof_attr]) ;;
  if negb (sr_ok res) then
    log INFO ("Cannot find user " +:+ username) ;;;
    raise (AuthenticationError "Invalid username or password")
  else
    missing <-
      match sr_response res with
      | [] => ret false
      | item :: _ =>
          attrs <- item_attributes item ;;
          ret (negb (is_Some_bool (assoc memberof_attr attrs)))
      end ;;
    if missing then
      log WARNING ("Missing attribute " +:+ memberof_attr
                   +:+ " when looked-up in Ldap database.") ;;;
      ret []
    else
      item <- response_0 (sr_response res) ;;
      attrs <- item_attributes item ;;
      user_groups <- attrs_get attrs memberof_attr ;;
      try_except (groups_comprehension user_groups)
        is_IndexError
        (fun _ =>
           log WARNING "Parsing error when retrieving the user's group(s)." ;;;
           ret []).

(** [LdapUser.__init__(self, user)] *)
Definition LdapUser_init (user : User) : M LdapUser :=
  let ldap_groups : list string := [] in
  bind_user <- conf_get conf "ldap" "bind_user" ;;
  bind_password <- conf_get conf "ldap" "bind_password" ;;
  conn <- get_ldap_connection bind_user bind_password ;;
  superuser_filter <-
    try_except (v <- conf_get conf "ldap" "superuser_filter" ;; ret (Some v))
      is_AirflowConfigException (fun _ => ret None) ;;
  superuser <-
    match superuser_filter with
    | Some filter =>
        if negb (PyStr.truthy filter) then
          log DEBUG "Missing configuration for superuser settings or empty. Skipping." ;;;
          ret true
        else
          basedn <- conf_get conf "ldap" "basedn" ;;
          user_name_attr <- conf_get conf "ldap" "user_name_attr" ;;
          group_contains_user conn basedn filter user_name_attr (username user)
    | None =>
        log DEBUG "Missing configuration for superuser settings or empty. Skipping." ;;;
        ret true
    end ;;
  data_profiler_filter <-
    try_except (v <- conf_get conf "ldap" "data_profiler_filter" ;; ret (Some v))
      is_AirflowConfigException (fun _ => ret None) ;;
  data_profiler <-
    match data_profiler_filter with
    | Some filter =>
        if negb (PyStr.truthy filter) then
          log DEBUG "Missing configuration for data profiler settings or empty. Skipping." ;;;
          ret true
        else
          basedn <- conf_get conf "ldap" "basedn" ;;
          user_name_attr <- conf_get conf "ldap" "user_name_attr" ;;
          group_contains_user conn basedn filter user_name_attr (username user)
    | None =>
        log DEBUG "Missing configuration for data profiler settings or empty. Skipping." ;;;
        ret true
    end ;;
  ldap_groups <-
    try_except
      (basedn <- conf_get conf "ldap" "basedn" ;;
       user_filter <- conf_get conf "ldap" "user_filter" ;;
       user_name_attr <- conf_get conf "ldap" "user_name_attr" ;;
       groups_user conn basedn user_filter user_name_attr (username user))
      is_AirflowConfigException
      (fun _ =>
         log DEBUG "Missing configuration for ldap settings. Skipping" ;;;
         ret ldap_groups) ;;
  ret (mkLdapUser user ldap_groups superuser data_profiler).

(** [LdapUser.try_login(username, password)]; it returns [None] when the
    login is accepted. *)
Definition try_login (username password : string) : M unit :=
  bind_user <- conf_get conf "ldap" "bind_user" ;;
  bind_password <- conf_get conf "ldap" "bind_password" ;;
  conn <- get_ldap_connection bind_user bind_password ;;
  user_filter <- conf_get conf "ldap" "user_filter" ;;
  user_name_attr <- conf_get conf "ldap" "user_name_attr" ;;
  let search_filter :=
    "(&(" +:+ user_filter +:+ ")(" +:+ user_name_attr +:+ "=" +:+ username +:+ "))" in
  search_scope <-
    (if conf_has_option conf "ldap" "search_scope" then
       v <- conf_get conf "ldap" "search_scope" ;;
       if String.eqb v "SUBTREE" then ret SUBTREE else ret LEVEL
     else ret LEVEL) ;;
  basedn <- conf_get conf "ldap" "basedn" ;;
  res <- conn_search conn basedn search_filter search_scope None ;;
  if negb (sr_ok res) then
    log INFO ("Cannot find user " +:+ username) ;;;
    raise (AuthenticationError "Invalid username or password")
  else
    entry <- response_0 (sr_response res) ;;
    emit (Unbind conn) ;;;
    match r_dn entry with
    | None => raise (AuthenticationError "Invalid username or password")
    | Some entry_dn =>
        conn <-
          try_except (get_ldap_connection entry_dn password)
            is_KeyError
            (fun _ =>
               log ERROR "Unable to parse LDAP structure." ;;;
               raise (LdapException
                 ("Could not parse LDAP structure. "
                  +:+ "Try setting search_scope in airflow.cfg, or check logs"))) ;;
        if negb (conn_truthy conn) then
          log INFO ("Password incorrect for user " +:+ username) ;;;
          raise (AuthenticationError "Invalid username or password")
        else ret tt
    end.

End Backend.

(** The capability queries of [LdapUser]. *)
Definition is_active (u : LdapUser) : bool := true.
Definition is_authenticated (u : LdapUser) : bool := true.
Definition is_anonymous (u : LdapUser) : bool := false.
Definition get_id (u : LdapUser) : string := user_id (user u).
Definition data_profiling (u : LdapUser) : bool := data_profiler u.
Definition is_superuser (u : LdapUser) : bool := superuser u.

(** ** A small directory, used to run the backend on concrete inputs *)

Module Example.

Definition ldap_section : list (string * string) :=
  [ ("uri", "ldaps://ldap.example.com:636");
    ("user_filter", "objectClass=person");
    ("user_name_attr", "uid");
    ("group_member_attr", "memberOf");
    ("superuser_filter", "cn=admins");
    ("data_profiler_filter", "");
    ("bind_user", "cn=Manager,dc=example,dc=com");
    ("bind_password", "insecure");
    ("basedn", "dc=example,dc=com");
    ("cacert", "/etc/ca/ldap_ca.crt");
    ("search_scope", "LEVEL");
    ("ignore_malformed_schema", "") ].

Definition conf_of (options : list (string * string))
    : gmap string (gmap string string) :=
  {[ "ldap" := list_to_map options ]}.

Definition conf : gmap string (gmap string string) := conf_of ldap_section.

(** the same file without one option *)
Definition without (key : string) : gmap string (gmap string string) :=
  conf_of (filter (fun kv => negb (String.eqb (fst kv) key)) ldap_section).

(** the same file with one option set to another value *)
Definition with_option (key value : string) : gmap string (gmap string string) :=
  conf_of ((key, value) :: ldap_section).

Definition bob_dn : string := "uid=bob,dc=example,dc=com".

(** who may bind: the manager with its password, bob with "correct" *)
Definition bind_ok (srv : Server) (dn password : string) : bool :=
  (String.eqb dn "cn=Manager,dc=example,dc=com" && String.eqb password "insecure")
  || (String.eqb dn bob_dn && String.eqb password "correct").

Definition last_error (srv : Server) (dn password : string) : string :=
  "invalidCredentials".

(** The searches of the backend differ in the attribute list they ask
    for: none for the search of the user's entry, the user-name
    attribute for a group search, the membership attribute otherwise.
    The directory knows the user bob, member of the groups [memberof];
    the groups matched by a group filter have the members [members];
    a search for carol is answered by a reference to another server. *)
Definition search (memberof : option (list string)) (members : list Entry)
    (conn : Connection) (search_base search_filter : string)
    (scope : Scope) (attributes : option (list string)) : SearchResult :=
  match attributes with
  | None =>
      if String.eqb search_filter "(&(objectClass=person)(uid=bob))"
      then mkSearchResult true [mkResponseItem (Some bob_dn) (Some [])]
                          [mkEntry bob_dn []]
      else if String.eqb search_filter "(&(objectClass=person)(uid=carol))"
      then mkSearchResult true [mkResponseItem None None] []
      else mkSearchResult false [] []
  | Some ["uid"] =>
      mkSearchResult (negb (is_nil_bool members)) [] members
  | Some _ =>
      if String.eqb search_filter "(&(objectClass=person)(uid=bob))"
      then mkSearchResult true
             [mkResponseItem (Some bob_dn)
                (Some match memberof with
                      | Some gs => [("memberOf", gs)]
                      | None => []
                      end)]
             []
      else mkSearchResult false [] []
  end.

Definition directory (memberof : option (list string)) (members : list Entry)
    : Directory :=
  mkDirectory bind_ok last_error (search memberof members).

Definition bob : User := mkUser "7" "bob".

End Example.

(** * The login view ([login] of ldap_auth.py)

    The web framework is an environment: the request, the user that
    flask_login holds, and the table of users behind the database session
    are inputs; what the view asks of the framework and of the session is
    recorded, with the events of the backend, in a trace of [WebEvent]s.
    The embedding is the body of the view.  How flask_login finds the
    current user comes before it (for a visitor who has a session it calls
    [load_user], which reads the table and constructs an [LdapUser]);
    [provide_session] supplies the session. *)

(** where [redirect] sends the browser: the [next] argument of the request,
    or [url_for(endpoint)] *)
Inductive Target : Type :=
| NextUrl (url : string)
| UrlFor (endpoint : string).

Inductive Response : Type :=
| Redirect (target : Target)
| Render (template : string).

(** the request: its method, whether [form.validate()] accepts the posted
    form, [request.form.get] of the two fields, [request.args.get("next")] *)
Record Request : Type := mkRequest {
  method : string;
  form_validates : bool;
  form_username : option string;
  form_password : option string;
  args_next : option string
}.

(** [current_user.is_authenticated], the rows of [models.User] by user
    name, and the id the database gives to the row of a new user *)
Record Site : Type := mkSite {
  current_user_is_authenticated : bool;
  user_by_username : string -> option User;
  new_user_id : string -> string
}.

Inductive WebEvent : Type :=
| OfBackend (ev : Event)
| Flash (message category : string)
| SessionAdd (u : User)
| SessionCommit
| SessionMerge (u : User)
| LoginUser (u : LdapUser).

(** a computation of the view *)
Definition W (A : Type) : Type := list WebEvent * Outcome A.

Definition wret {A} (a : A) : W A := ([], Return a).
Definition wemit (ev : WebEvent) : W unit := ([ev], Return tt).

Definition wbind {A B} (m : W A) (k : A -> W B) : W B :=
  match snd m with
  | Return a => (fst m ++ fst (k a), snd (k a))
  | Raise e => (fst m, Raise e)
  end.

(** a computation of the backend, run by the view *)
Definition lift {A} (m : M A) : W A := (map OfBackend (trace m), outcome m).

Definition wtry_except {A} (body : W A) (handles : Exn -> bool)
    (handler : Exn -> W A) : W A :=
  match snd body with
  | Return a => body
  | Raise e =>
      if handles e
      then (fst body ++ fst (handler e), snd (handler e))
      else body
  end.

Notation "x <-- m ;; k" := (wbind m (fun x => k))
  (at level 100, m at next level, right associativity).
Notation "m ;;;; k" := (wbind m (fun _ => k))
  (at level 100, right associativity).

(** [except (LdapException, AuthenticationError)] *)
Definition is_login_failure (e : Exn) : bool :=
  match e with
  | LdapException _ | AuthenticationError _ => true
  | _ => false
  end.

(** [login(self, request)]; a new row is shown with the id it has once the
    session is committed, which is before the view reads it *)
Definition login (conf : gmap string (gmap string string)) (d : Directory)
    (site : Site) (request : Request) : W Response :=
  if current_user_is_authenticated site then
    wemit (Flash "You are already logged in" "message") ;;;;
    wret (Redirect (UrlFor "admin.index"))
  else
    let posted := String.eqb (method request) "POST" && form_validates request in
    let username := if posted then form_username request else None in
    let password := if posted then form_password request else None in
    match username, password with
    | Some username, Some password =>
        if negb (PyStr.truthy username) || negb (PyStr.truthy password) then
          wret (Render "airflow/login.html")
        else
          wtry_except
            (lift (try_login conf d username password) ;;;;
             lift (log INFO ("User " +:+ username +:+ " successfully authenticated")) ;;;;
             user <--
               match user_by_username site username with
               | Some user => wret user
               | None =>
                   let user := mkUser (new_user_id site username) username in
                   wemit (SessionAdd user) ;;;; wret user
               end ;;
             wemit SessionCommit ;;;;
             wemit (SessionMerge user) ;;;;
             ldap_user <-- lift (LdapUser_init conf d user) ;;
             wemit (LoginUser ldap_user) ;;;;
             wemit SessionCommit ;;;;
             wret (Redirect
                     (match args_next request with
                      | Some next =>
                          if PyStr.truthy next then NextUrl next
                          else UrlFor "admin.index"
                      | None => UrlFor "admin.index"
                      end)))
            is_login_failure
            (fun e =>
               match e with
               | LdapException msg => wemit (Flash msg "error")
               | _ => wemit (Flash "Incorrect login details" "message")
               end ;;;;
               wret (Render "airflow/login.html"))
    | _, _ => wret (Render "airflow/login.html")
    end.

(** * The metrics helpers (airflow/models/stats_helper.py) *)

Module StatsHelper.

(** [s.split('.')]: the pieces of [s] between its dots; never empty *)
Fixpoint split (s : string) : list string :=
  match s with
  | EmptyString => [EmptyString]
  | String a s' =>
      if Ascii.eqb a "."%char then EmptyString :: split s'
      else match split s' with
           | piece :: pieces => String a piece :: pieces
           | [] => [String a EmptyString]
           end
  end.

(** ['.'.join(pieces)] *)
Fixpoint join (pieces : list string) : string :=
  match pieces with
  | [] => EmptyString
  | [piece] => piece
  | piece :: pieces' => piece +:+ "." +:+ join pieces'
  end.

(** [l[:-1]] *)
Definition but_last {A} (l : list A) : list A := removelast l.

(** [l[-1:]] *)
Fixpoint last_only {A} (l : list A) : list A :=
  match l with
  | [] => []
  | [x] => [x]
  | _ :: l' => last_only l'
  end.

(** ['.'.join(task_id.split('.')[:-1])] *)
Definition task_id_entity (task_id : string) : string :=
  join (but_last (split task_id)).

(** ['.'.join(task_id.split('.')[-1:])] *)
Definition task_id_action (task_id : string) : string :=
  join (last_only (split task_id)).

(** a call of the metrics client [Stats] *)
Inductive StatsCall : Type :=
| Incr (stat : string) (count rate : Z) (tags : list string)
| Gauge (stat : string) (value rate : Z) (tags : list string).

(** [stats_incr_helper(stat, value, dag_id, task_id)]: the calls it makes,
    in order *)
Definition stats_incr_helper (stat : string) (value : Z) (dag_id task_id : string)
    : list StatsCall :=
  [ Incr stat value 1 ["dag_id:" +:+ dag_id];
    Incr (stat +:+ ".by_task") value 1
      [ "dag_id:" +:+ dag_id;
        "task_id_prefix:" +:+ task_id_entity task_id;
        "task_id_suffix:" +:+ task_id_action task_id ] ].

(** [stats_gauge_helper(stat, value, dag_id, task_id)] *)
Definition stats_gauge_helper (stat : string) (value : Z) (dag_id task_id : string)
    : list StatsCall :=
  [ Gauge stat value 1 ["dag_id:" +:+ dag_id];
    Gauge (stat +:+ ".by_task") value 1
      [ "dag_id:" +:+ dag_id;
        "task_id_prefix:" +:+ task_id_entity task_id;
        "task_id_suffix:" +:+ task_id_action task_id ] ].

End StatsHelper.

(** * Vocabulary of the properties *)

(** the value of an option of the section "ldap", if it is there *)
Definition ldap_option (conf : gmap string (gmap string string))
    (key : string) : option string :=
  match conf !! "ldap" with
  | Some options => options !! key
  | None => None
  end.

(** The options that every call of the backend reads. *)
Record Settings : Type := mkSettings {
  uri : string;
  bind_user : string;
  bind_password : string;
  basedn : string;
  user_filter : string;
  user_name_attr : string;
  cacert : string;
  search_scope : string;
  ignore_malformed_schema : string
}.

Definition configured (conf : gmap string (gmap string string))
    (s : Settings) : Prop :=
  ldap_option conf "uri" = Some (uri s)
  /\ ldap_option conf "bind_user" = Some (bind_user s)
  /\ ldap_option conf "bind_password" = Some (bind_password s)
  /\ ldap_option conf "basedn" = Some (basedn s)
  /\ ldap_option conf "user_filter" = Some (user_filter s)
  /\ ldap_option conf "user_name_attr" = Some (user_name_attr s)
  /\ ldap_option conf "cacert" = Some (cacert s)
  /\ ldap_option conf "search_scope" = Some (search_scope s)
  /\ ldap_option conf "ignore_malformed_schema" = Some (ignore_malformed_schema s).

(** the server object built by [get_ldap_connection] from the settings *)
Definition server_of (s : Settings) : Server :=
  mkServer (uri s) true (mkTls true (cacert s)) (search_scope s).

(** the connection of the service account *)
Definition service_conn (s : Settings) : Connection :=
  mkConnection (server_of s) (bind_user s) (bind_password s).

(** the scope [try_login] searches with *)
Definition scope_of (s : Settings) : Scope :=
  if String.eqb (search_scope s) "SUBTREE" then SUBTREE else LEVEL.

(** the filter [try_login] and [groups_user] search with *)
Definition user_search_filter (s : Settings) (username : string) : string :=
  "(&(" +:+ user_filter s +:+ ")(" +:+ user_name_attr s +:+ "=" +:+ username +:+ "))".

(** the events of [get_ldap_connection] before its bind *)
Definition schema_events (s : Settings) : list Event :=
  if PyStr.truthy (ignore_malformed_schema s)
  then [SetConfigParameter "IGNORE_MALFORMED_SCHEMA" (ignore_malformed_schema s)]
  else [].

(** the outcome of [get_ldap_connection] under complete settings *)
Definition connection_attempt (d : Directory) (s : Settings)
    (dn password : string) : M Connection :=
  let conn := mkConnection (server_of s) dn password in
  if ldap_bind d (server_of s) dn password
  then ((schema_events s ++ [Bind conn true])%list, Return conn)
  else ((schema_events s
         ++ [Bind conn false;
             Log ERROR ("Cannot bind to ldap server: "
                        +:+ ldap_last_error d (server_of s) dn password +:+ " ")])%list,
        Raise (AuthenticationError "Cannot bind to ldap server")).

(** what [try_login] does with the result of its search *)
Definition login_with_result (d : Directory) (s : Settings)
    (conn : Connection) (res : SearchResult)
    (username password : string) : M unit :=
  if negb (sr_ok res) then
    log INFO ("Cannot find user " +:+ username) ;;;
    raise (AuthenticationError "Invalid username or password")
  else
    entry <- response_0 (sr_response res) ;;
    emit (Unbind conn) ;;;
    match r_dn entry with
    | None => raise (AuthenticationError "Invalid username or password")
    | Some entry_dn =>
        connection_attempt d s entry_dn password ;;; ret tt
    end.

(** [try_login] with every option it reads resolved from the settings *)
Definition login_attempt (d : Directory) (s : Settings)
    (username password : string) : M unit :=
  conn <- connection_attempt d s (bind_user s) (bind_password s) ;;
  res <- conn_search d conn (basedn s) (user_search_filter s username)
           (scope_of s) None ;;
  login_with_result d s conn res username password.

(** the settings held by [Example.conf] *)
Definition example_settings : Settings :=
  mkSettings "ldaps://ldap.example.com:636" "cn=Manager,dc=example,dc=com"
    "insecure" "dc=example,dc=com" "objectClass=person" "uid"
    "/etc/ca/ldap_ca.crt" "LEVEL" "".

(** the results of the binds performed, in order *)
Fixpoint bind_results (t : list Event) : list bool :=
  match t with
  | [] => []
  | Bind _ ok :: t' => ok :: bind_results t'
  | _ :: t' => bind_results t'
  end.

(** the service account's password in the configuration is out of date *)
Definition stale_conf : gmap string (gmap string string) :=
  Example.with_option "bind_password" "stale".

(** the log line of the last branch of [try_login] *)
Definition password_incorrect_log (username : string) : Event :=
  Log INFO ("Password incorrect for user " +:+ username).

(** a bind that was refused *)
Definition refused (ev : Event) : bool :=
  match ev with
  | Bind _ false => true
  | _ => false
  end.

(** a refused bind is reported by the exception of [get_ldap_connection] *)
Definition refusal_surfaces {A} (m : M A) : Prop :=
  existsb refused (trace m) = true ->
  outcome m = Raise (AuthenticationError "Cannot bind to ldap server").

(** the options [get_ldap_connection] reads *)
Definition connection_configured (conf : gmap string (gmap string string))
    (s : Settings) : Prop :=
  ldap_option conf "uri" = Some (uri s)
  /\ ldap_option conf "cacert" = Some (cacert s)
  /\ ldap_option conf "search_scope" = Some (search_scope s)
  /\ ldap_option conf "ignore_malformed_schema" = Some (ignore_malformed_schema s).

(** is the event a bind? *)
Definition is_bind (ev : Event) : bool :=
  match ev with
  | Bind _ _ => true
  | _ => false
  end.

(** the connection of the service account of the example *)
Definition example_conn : Connection := service_conn example_settings.

(** the entry has, in the value list of the attribute, a value equal to
    the user name, the case of letters set aside: the two have the same
    lower-case form *)
Definition entry_matches (attr username : string) (e : Entry) : Prop :=
  exists v,
    In v (attribute_values e attr) /\ PyStr.lower v = PyStr.lower username.

(** Equality up to case, spelled out for ASCII text without [str.lower]:
    two characters are the same letter when they are equal or when one is
    a capital A-Z and the other is 32 above it. *)
Definition same_letter (x y : ascii) : bool :=
  let nx := N_of_ascii x in
  let ny := N_of_ascii y in
  ((nx =? ny)
   || ((65 <=? nx) && (nx <=? 90) && (ny =? nx + 32))
   || ((65 <=? ny) && (ny <=? 90) && (nx =? ny + 32)))%N.

Fixpoint equal_ignoring_case (a b : string) : bool :=
  match a, b with
  | EmptyString, EmptyString => true
  | String x a', String y b' => same_letter x y && equal_ignoring_case a' b'
  | _, _ => false
  end.

(** [PyStr.lower_char] on every character of a string *)
Fixpoint lower_ascii (s : string) : string :=
  match s with
  | EmptyString => EmptyString
  | String a s' => String (PyStr.lower_char a) (lower_ascii s')
  end.

(** the string holds ASCII characters only *)
Fixpoint ascii_only (s : string) : bool :=
  match s with
  | EmptyString => true
  | String a s' => (N_of_ascii a <? 128)%N && ascii_only s'
  end.

(** the UTF-8 encodings of the name ELODIE in capitals and in small
    letters, the first E with an acute accent: U+00C9 is the bytes 195 137
    and U+00E9 the bytes 195 169 *)
Definition elodie_upper : string :=
  String (ascii_of_N 195) (String (ascii_of_N 137) "LODIE").
Definition elodie_lower : string :=
  String (ascii_of_N 195) (String (ascii_of_N 169) "lodie").

(** the name of the membership attribute: the option [group_member_attr],
    or "memberOf" *)
Definition group_member_attr_of (conf : gmap string (gmap string string)) : string :=
  match ldap_option conf "group_member_attr" with
  | Some v => v
  | None => "memberOf"
  end.

(** the filter of [groups_user] *)
Definition groups_filter (user_filter user_name_att username : string) : string :=
  "(&(" +:+ user_filter +:+ ")(" +:+ user_name_att +:+ "=" +:+ username +:+ "))".

(** the search of [groups_user] and its result *)
Definition groups_search_event (conf : gmap string (gmap string string))
    (conn : Connection) (search_base user_filter user_name_att username : string)
    : Event :=
  Search conn search_base (groups_filter user_filter user_name_att username)
    SUBTREE (Some [group_member_attr_of conf]).

Definition groups_search_result (conf : gmap string (gmap string string))
    (d : Directory) (conn : Connection)
    (search_base user_filter user_name_att username : string) : SearchResult :=
  ldap_search d conn search_base (groups_filter user_filter user_name_att username)
    SUBTREE (Some [group_member_attr_of conf]).

(** what [groups_user] does with the result of its search *)
Definition groups_of_result (memberof_attr username : string)
    (res : SearchResult) : M (list string) :=
  if negb (sr_ok res) then
    log INFO ("Cannot find user " +:+ username) ;;;
    raise (AuthenticationError "Invalid username or password")
  else
    missing <-
      match sr_response res with
      | [] => ret false
      | item :: _ =>
          attrs <- item_attributes item ;;
          ret (negb (is_Some_bool (assoc memberof_attr attrs)))
      end ;;
    if missing then
      log WARNING ("Missing attribute " +:+ memberof_attr
                   +:+ " when looked-up in Ldap database.") ;;;
      ret []
    else
      item <- response_0 (sr_response res) ;;
      attrs <- item_attributes item ;;
      user_groups <- attrs_get attrs memberof_attr ;;
      try_except (groups_comprehension user_groups)
        is_IndexError
        (fun _ =>
           log WARNING "Parsing error when retrieving the user's group(s)." ;;;
           ret []).

(** how [LdapUser.__init__] resolves one of its two flags from the value
    of the filter option ([None] when the option is missing) *)
Definition resolve_flag (conf : gmap string (gmap string string)) (d : Directory)
    (conn : Connection) (skipping : string) (filter_option : option string)
    (user : User) : M bool :=
  match filter_option with
  | Some filter =>
      if negb (PyStr.truthy filter) then
        log DEBUG skipping ;;; ret true
      else
        basedn <- conf_get conf "ldap" "basedn" ;;
        user_name_attr <- conf_get conf "ldap" "user_name_attr" ;;
        group_contains_user d conn basedn filter user_name_attr (username user)
  | None => log DEBUG skipping ;;; ret true
  end.

(** the body of the [try] statement that loads the groups *)
Definition groups_lookup (conf : gmap string (gmap string string)) (d : Directory)
    (conn : Connection) (user : User) : M (list string) :=
  basedn <- conf_get conf "ldap" "basedn" ;;
  user_filter <- conf_get conf "ldap" "user_filter" ;;
  user_name_attr <- conf_get conf "ldap" "user_name_attr" ;;
  groups_user conf d conn basedn user_filter user_name_attr (username user).

(** [LdapUser.__init__] from the point where it holds the connection *)
Definition init_with_connection (conf : gmap string (gmap string string))
    (d : Directory) (conn : Connection) (user : User) : M LdapUser :=
  superuser <-
    resolve_flag conf d conn
      "Missing configuration for superuser settings or empty. Skipping."
      (ldap_option conf "superuser_filter") user ;;
  data_profiler <-
    resolve_flag conf d conn
      "Missing configuration for data profiler settings or empty. Skipping."
      (ldap_option conf "data_profiler_filter") user ;;
  ldap_groups <-
    try_except (groups_lookup conf d conn user) is_AirflowConfigException
      (fun _ =>
         log DEBUG "Missing configuration for ldap settings. Skipping" ;;;
         ret []) ;;
  ret (mkLdapUser user ldap_groups superuser data_profiler).

(** an empty superuser filter, as in the configuration template *)
Definition empty_filter_conf : gmap string (gmap string string) :=
  Example.with_option "superuser_filter" "".

(** the directory of the example after the entry of bob was removed: no
    search finds anything *)
Definition directory_after_removal : Directory :=
  mkDirectory Example.bind_ok Example.last_error
    (fun _ _ _ _ _ => mkSearchResult false [] []).

(** the exceptions of [get_ldap_connection] *)
Definition connection_error (e : Exn) : Prop :=
  (exists name, e = UnboundLocalError name)
  \/ (exists key, e = AirflowConfigException "ldap" key)
  \/ e = AuthenticationError "Cannot bind to ldap server".

(** the number of events of a trace selected by [p] *)
Definition count_events (p : Event -> bool) (t : list Event) : nat :=
  length (List.filter p t).

Definition is_search (ev : Event) : bool :=
  match ev with
  | Search _ _ _ _ _ => true
  | _ => false
  end.

Definition is_unbind (ev : Event) : bool :=
  match ev with
  | Unbind _ => true
  | _ => false
  end.

(** a directory that answers every search with a reference to another
    server *)
Definition referring_directory : Directory :=
  mkDirectory Example.bind_ok Example.last_error
    (fun _ _ _ _ _ => mkSearchResult true [mkResponseItem None None] []).

(** the warning of the [except IndexError] handler of [groups_user] *)
Definition parsing_error_log : Event :=
  Log WARNING "Parsing error when retrieving the user's group(s).".

(** the profilers of the example are the members of a group *)
Definition profilers_conf : gmap string (gmap string string) :=
  Example.with_option "data_profiler_filter" "cn=profilers".

(** a configuration with the options of the connection and of the service
    account only *)
Definition connection_only_conf : gmap string (gmap string string) :=
  Example.conf_of
    [ ("uri", "ldaps://ldap.example.com:636");
      ("bind_user", "cn=Manager,dc=example,dc=com");
      ("bind_password", "insecure");
      ("cacert", "/etc/ca/ldap_ca.crt");
      ("search_scope", "LEVEL");
      ("ignore_malformed_schema", "") ].

(** does the string hold a dot? *)
Fixpoint has_dot (s : string) : bool :=
  match s with
  | EmptyString => false
  | String a s' => if Ascii.eqb a "."%char then true else has_dot s'
  end.

(** the request is a post of a valid form with both fields filled in *)
Definition credentials_posted (request : Request) (username password : string) : Prop :=
  method request = "POST" /\ form_validates request = true
  /\ form_username request = Some username /\ form_password request = Some password
  /\ PyStr.truthy username = true /\ PyStr.truthy password = true.

(** the view, for an anonymous visitor who posted credentials *)
Definition login_posted (conf : gmap string (gmap string string)) (d : Directory)
    (site : Site) (request : Request) (username password : string) : W Response :=
  wtry_except
    (lift (try_login conf d username password) ;;;;
     lift (log INFO ("User " +:+ username +:+ " successfully authenticated")) ;;;;
     user <--
       match user_by_username site username with
       | Some user => wret user
       | None =>
           let user := mkUser (new_user_id site username) username in
           wemit (SessionAdd user) ;;;; wret user
       end ;;
     wemit SessionCommit ;;;;
     wemit (SessionMerge user) ;;;;
     ldap_user <-- lift (LdapUser_init conf d user) ;;
     wemit (LoginUser ldap_user) ;;;;
     wemit SessionCommit ;;;;
     wret (Redirect
             (match args_next request with
              | Some next =>
                  if PyStr.truthy next then NextUrl next
                  else UrlFor "admin.index"
              | None => UrlFor "admin.index"
              end)))
    is_login_failure
    (fun e =>
       match e with
       | LdapException msg => wemit (Flash msg "error")
       | _ => wemit (Flash "Incorrect login details" "message")
       end ;;;;
       wret (Render "airflow/login.html")).

Definition anonymous_site : Site :=
  mkSite false (fun _ => None) (fun _ => "1").

Definition bob_request (password : string) : Request :=
  mkRequest "POST" true (Some "bob") (Some password) None.

(** the flash of the handler of the view *)
Definition failure_flash (e : Exn) : WebEvent :=
  match e with
  | LdapException msg => Flash msg "error"
  | _ => Flash "Incorrect login details" "message"
  end.

(** the row of the user who logs in, and what the session is asked before
    the user object is constructed *)
Definition session_user (site : Site) (username : string) : User :=
  match user_by_username site username with
  | Some user => user
  | None => mkUser (new_user_id site username) username
  end.

Definition session_events (site : Site) (username : string) : list WebEvent :=
  match user_by_username site username with
  | Some user => [SessionCommit; SessionMerge user]
  | None =>
      let user := mkUser (new_user_id site username) username in
      [SessionAdd user; SessionCommit; SessionMerge user]
  end.

(** the trace of the view up to the construction of the user object *)
Definition authenticated_prefix (conf : gmap string (gmap string string))
    (d : Directory) (site : Site) (username password : string) : list WebEvent :=
  (map OfBackend (trace (try_login conf d username password))
   ++ OfBackend (Log INFO ("User " +:+ username +:+ " successfully authenticated"))
      :: session_events site username
   ++ map OfBackend (trace (LdapUser_init conf d (session_user site username))))%list.

(** is the event a flash with the category "error"? *)
Definition is_error_flash (ev : WebEvent) : bool :=
  match ev with
  | Flash _ category => String.eqb category "error"
  | _ => false
  end.

(** the directory of the example when the search for the groups of a user
    finds nothing: the entry of bob is found and the password is checked, but
    a search that asks for attributes fails *)
Definition groups_unavailable_directory : Directory :=
  mkDirectory Example.bind_ok Example.last_error
    (fun conn search_base search_filter scope attributes =>
       match attributes with
       | None => Example.search None [] conn search_base search_filter scope None
       | Some _ => mkSearchResult false [] []
       end).

(** where the view sends a visitor who logged in *)
Definition login_target (request : Request) : Target :=
  match args_next request with
  | Some next => if PyStr.truthy next then NextUrl next else UrlFor "admin.index"
  | None => UrlFor "admin.index"
  end.

Definition staff_directory : Directory :=
  Example.directory (Some ["cn=staff,ou=groups,dc=example,dc=com"]) [].

(** a site whose table of users has the row of bob *)
Definition site_with_bob : Site :=
  mkSite false
    (fun username => if String.eqb username "bob" then Some Example.bob else None)
    (fun _ => "8").

(** * Properties *)

(** ** Laws of the monad *)

Lemma after_nil {A} (m : M A) : after [] m = m.
Proof. now destruct m. Qed.

Lemma bind_ret_l {A B} (a : A) (k : A -> M B) : bind (ret a) k = k a.
Proof. unfold bind; simpl. apply after_nil. Qed.

Lemma bind_raise_l {A B} (e : Exn) (k : A -> M B) : bind (raise e) k = raise e.
Proof. reflexivity. Qed.

Lemma bind_return {A B} (t : list Event) (a : A) (k : A -> M B) :
  bind (t, Return a) k = after t (k a).
Proof. reflexivity. Qed.

Lemma bind_raised {A B} (t : list Event) (e : Exn) (k : A -> M B) :
  bind (t, Raise e) k = (t, Raise e).
Proof. reflexivity. Qed.

Lemma bind_emit {B} (ev : Event) (k : unit -> M B) :
  bind (emit ev) k = after [ev] (k tt).
Proof. reflexivity. Qed.

Lemma trace_after {A} (t : list Event) (m : M A) :
  trace (after t m) = (t ++ trace m)%list.
Proof. reflexivity. Qed.

Lemma outcome_after {A} (t : list Event) (m : M A) :
  outcome (after t m) = outcome m.
Proof. reflexivity. Qed.

Lemma conn_search_cases d conn search_base search_filter scope attributes :
  conn_search d conn search_base search_filter scope attributes
  = ([Search conn search_base search_filter scope attributes],
     if malformed_filter search_filter then Raise LDAPInvalidFilterError
     else Return (ldap_search d conn search_base search_filter scope attributes)).
Proof. unfold conn_search. now destruct (malformed_filter search_filter). Qed.

Lemma conn_search_eq d conn search_base search_filter scope attributes :
  malformed_filter search_filter = false ->
  conn_search d conn search_base search_filter scope attributes
  = ([Search conn search_base search_filter scope attributes],
     Return (ldap_search d conn search_base search_filter scope attributes)).
Proof. intros H. now rewrite conn_search_cases, H. Qed.

Lemma trace_conn_search d conn search_base search_filter scope attributes :
  trace (conn_search d conn search_base search_filter scope attributes)
  = [Search conn search_base search_filter scope attributes].
Proof. now rewrite conn_search_cases. Qed.

(** a conjunction of two filters is not the empty conjunction *)
Lemma malformed_filter_conjunction a rest :
  malformed_filter ("(&(" +:+ a +:+ ")(" +:+ rest) = false.
Proof.
  unfold malformed_filter. simpl.
  destruct a as [|c [|c' a']]; simpl.
  - reflexivity.
  - now destruct (Ascii.eqb c ")").
  - destruct (Ascii.eqb c ")"); [|reflexivity].
    destruct (Ascii.eqb c' ")"); [|reflexivity].
    now destruct a'.
Qed.

(** the filter of [group_contains_user] is the empty conjunction exactly
    when the group filter is empty *)
Lemma malformed_filter_group group_filter :
  malformed_filter ("(&(" +:+ group_filter +:+ "))") = negb (PyStr.truthy group_filter).
Proof.
  unfold malformed_filter. simpl.
  destruct group_filter as [|c [|c' f]]; simpl.
  - reflexivity.
  - now destruct (Ascii.eqb c ")").
  - destruct (Ascii.eqb c ")"); [|reflexivity].
    destruct (Ascii.eqb c' ")"); [|reflexivity].
    now destruct f.
Qed.

Lemma trace_bind {A B} (m : M A) (k : A -> M B) :
  trace (bind m k) =
  (trace m ++ match outcome m with Return a => trace (k a) | Raise _ => [] end)%list.
Proof.
  unfold bind. destruct (outcome m); simpl; [reflexivity|].
  now rewrite app_nil_r.
Qed.

Lemma outcome_bind {A B} (m : M A) (k : A -> M B) :
  outcome (bind m k) =
  match outcome m with Return a => outcome (k a) | Raise e => Raise e end.
Proof. unfold bind. now destruct (outcome m). Qed.

Lemma bind_ext {A B} (m : M A) (k k' : A -> M B) :
  (forall a, k a = k' a) -> bind m k = bind m k'.
Proof. intros H. unfold bind. destruct (outcome m); [now rewrite H | reflexivity]. Qed.

Lemma try_except_ret {A} (a : A) handles (handler : Exn -> M A) :
  try_except (ret a) handles handler = ret a.
Proof. reflexivity. Qed.

(** ** Reading the configuration *)

Lemma conf_get_ldap conf key :
  conf_get conf "ldap" key =
  match ldap_option conf key with
  | Some v => ret v
  | None => raise (AirflowConfigException "ldap" key)
  end.
Proof.
  unfold conf_get, ldap_option.
  destruct (conf !! "ldap"); reflexivity.
Qed.

Lemma conf_has_option_ldap conf key :
  conf_has_option conf "ldap" key = is_Some_bool (ldap_option conf key).
Proof.
  unfold conf_has_option. rewrite conf_get_ldap.
  now destruct (ldap_option conf key).
Qed.

Lemma get_ldap_connection_settings conf d s dn password :
  connection_configured conf s ->
  get_ldap_connection conf d dn password = connection_attempt d s dn password.
Proof.
  intros (Huri & Hca & Hscope & Hims).
  unfold get_ldap_connection, connection_attempt, schema_events.
  rewrite !conf_get_ldap, Huri, Hca, Hscope, Hims.
  rewrite !bind_ret_l, !try_except_ret, !bind_ret_l. simpl read_local.
  rewrite !bind_ret_l.
  destruct (PyStr.truthy (ignore_malformed_schema s));
    destruct (ldap_bind d _ dn password) eqn:Hb; unfold server_of; simpl; rewrite ?Hb; reflexivity.
Qed.

Lemma configured_connection conf s :
  configured conf s -> connection_configured conf s.
Proof.
  intros (Huri & _ & _ & _ & _ & _ & Hca & Hscope & Hims). repeat split; assumption.
Qed.

Lemma get_ldap_connection_configured conf d s dn password :
  configured conf s ->
  get_ldap_connection conf d dn password = connection_attempt d s dn password.
Proof.
  intros Hc. apply get_ldap_connection_settings. now apply configured_connection.
Qed.

(** ** [try_login] under complete settings *)

Lemma try_except_not_handled {A} (m : M A) handles handler :
  (forall e, outcome m = Raise e -> handles e = false) ->
  try_except m handles handler = m.
Proof.
  intros H. unfold try_except. destruct (outcome m) eqn:E; [reflexivity|].
  now rewrite (H e eq_refl).
Qed.

Lemma connection_attempt_raises d s dn password e :
  outcome (connection_attempt d s dn password) = Raise e ->
  e = AuthenticationError "Cannot bind to ldap server".
Proof.
  unfold connection_attempt. destruct (ldap_bind d _ dn password); simpl; congruence.
Qed.

Lemma try_login_configured conf d s username password :
  configured conf s ->
  try_login conf d username password = login_attempt d s username password.
Proof.
  intros Hc. pose proof Hc as (_ & Hbu & Hbp & Hbase & Hfilter & Hattr & _ & Hscope & _).
  unfold try_login, login_attempt.
  rewrite conf_has_option_ldap, !conf_get_ldap, Hbu, Hbp, Hbase, Hfilter, Hattr, Hscope.
  simpl is_Some_bool. cbv iota.
  rewrite !bind_ret_l, !(get_ldap_connection_configured _ _ _ _ _ Hc).
  apply bind_ext; intros conn. rewrite !bind_ret_l.
  replace (if String.eqb (search_scope s) "SUBTREE" then ret SUBTREE else ret LEVEL)
    with (ret (A:=Scope) (scope_of s))
    by (unfold scope_of; now destruct (String.eqb (search_scope s) "SUBTREE")).
  rewrite !bind_ret_l.
  apply bind_ext; intros res. unfold login_with_result.
  destruct (negb (sr_ok res)); [reflexivity|].
  apply bind_ext; intros entry. apply bind_ext; intros _.
  destruct (r_dn entry) as [entry_dn|]; [|reflexivity].
  rewrite (get_ldap_connection_configured _ _ _ _ _ Hc).
  rewrite try_except_not_handled.
  - now apply bind_ext.
  - intros e He. now rewrite (connection_attempt_raises _ _ _ _ _ He).
Qed.

Lemma login_attempt_service_bound d s username password :
  ldap_bind d (server_of s) (bind_user s) (bind_password s) = true ->
  login_attempt d s username password
  = after (schema_events s ++ [Bind (service_conn s) true])
      (after [Search (service_conn s) (basedn s) (user_search_filter s username)
                (scope_of s) None]
         (login_with_result d s (service_conn s)
            (ldap_search d (service_conn s) (basedn s)
               (user_search_filter s username) (scope_of s) None)
            username password)).
Proof.
  intros Hsvc. unfold login_attempt, connection_attempt.
  rewrite Hsvc, bind_return, conn_search_eq, bind_return; [reflexivity|].
  apply malformed_filter_conjunction.
Qed.

Lemma login_attempt_service_refused d s username password :
  ldap_bind d (server_of s) (bind_user s) (bind_password s) = false ->
  outcome (login_attempt d s username password)
  = Raise (AuthenticationError "Cannot bind to ldap server").
Proof.
  intros Hsvc. unfold login_attempt, connection_attempt.
  now rewrite Hsvc, bind_raised.
Qed.

Lemma example_configured : configured Example.conf example_settings.
Proof. repeat split; vm_compute; reflexivity. Qed.

(** ** The step from the service binding to the user's DN *)

(** C5. In the step SERVICE_BOUND -> USER_DN_FOUND of a login attempt
    (complete settings, service account bound): when the search for the
    user reports failure, and when the first result entry has no
    distinguished name, [try_login] raises the same
    [AuthenticationError("Invalid username or password")]; and when the
    entry has a distinguished name, the service connection is unbound
    before the bind with that name and the supplied password is attempted. *)
Theorem try_login_user_dn_step conf d s username password :
  configured conf s ->
  ldap_bind d (server_of s) (bind_user s) (bind_password s) = true ->
  let conn := service_conn s in
  let res := ldap_search d conn (basedn s) (user_search_filter s username)
               (scope_of s) None in
  let searched := Search conn (basedn s) (user_search_filter s username)
                    (scope_of s) None in
  (sr_ok res = false ->
   outcome (try_login conf d username password)
   = Raise (AuthenticationError "Invalid username or password"))
  /\ (forall entry rest,
        sr_ok res = true -> sr_response res = entry :: rest ->
        r_dn entry = None ->
        outcome (try_login conf d username password)
        = Raise (AuthenticationError "Invalid username or password"))
  /\ (forall entry rest entry_dn,
        sr_ok res = true -> sr_response res = entry :: rest ->
        r_dn entry = Some entry_dn ->
        exists tail,
          trace (try_login conf d username password)
          = (schema_events s ++ [Bind conn true; searched; Unbind conn]
             ++ schema_events s
             ++ Bind (mkConnection (server_of s) entry_dn password)
                     (ldap_bind d (server_of s) entry_dn password)
                :: tail)%list).
Proof.
  intros Hc Hsvc conn res searched.
  rewrite (try_login_configured _ _ _ _ _ Hc).
  rewrite (login_attempt_service_bound _ _ _ _ Hsvc).
  fold conn. fold res. fold searched.
  rewrite !outcome_after, !trace_after. unfold login_with_result.
  repeat split.
  - intros Hok. rewrite Hok. reflexivity.
  - intros entry rest Hok Hresp Hdn. rewrite Hok, Hresp. simpl. now rewrite Hdn.
  - intros entry rest entry_dn Hok Hresp Hdn. rewrite Hok, Hresp. simpl.
    rewrite Hdn. rewrite trace_bind. unfold connection_attempt.
    destruct (ldap_bind d (server_of s) entry_dn password); simpl.
    + exists []. now rewrite app_nil_r, <- !app_assoc.
    + eexists. rewrite app_nil_r, <- !app_assoc. simpl. reflexivity.
Qed.

Lemma try_login_user_dn_step_witness :
  outcome (try_login Example.conf (Example.directory None []) "alice" "secret")
  = Raise (AuthenticationError "Invalid username or password")
  /\ outcome (try_login Example.conf (Example.directory None []) "carol" "secret")
     = Raise (AuthenticationError "Invalid username or password")
  /\ exists tail,
       trace (try_login Example.conf (Example.directory None []) "bob" "correct")
       = (schema_events example_settings
          ++ [Bind (service_conn example_settings) true;
              Search (service_conn example_settings) "dc=example,dc=com"
                "(&(objectClass=person)(uid=bob))" LEVEL None;
              Unbind (service_conn example_settings)]
          ++ schema_events example_settings
          ++ Bind (mkConnection (server_of example_settings) Example.bob_dn "correct")
                  true
             :: tail)%list.
Proof.
  split; [|split].
  - apply (try_login_user_dn_step Example.conf (Example.directory None [])
             example_settings "alice" "secret");
      [repeat split; vm_compute; reflexivity | reflexivity | reflexivity].
  - apply (try_login_user_dn_step Example.conf (Example.directory None [])
             example_settings "carol" "secret")
      with (entry := mkResponseItem None None) (rest := []);
      [repeat split; vm_compute; reflexivity | reflexivity ..].
  - apply (try_login_user_dn_step Example.conf (Example.directory None [])
             example_settings "bob" "correct")
      with (entry := mkResponseItem (Some Example.bob_dn) (Some [])) (rest := []);
      [repeat split; vm_compute; reflexivity | reflexivity ..].
Defined.

(** ** The two binds of a login attempt *)

(** Under complete settings, a refused bind of the service account and a
    refused bind with the discovered DN and the supplied password both end
    [try_login] with [AuthenticationError("Cannot bind to ldap server")],
    the exception of [get_ldap_connection]. *)
Lemma try_login_bind_failures conf d s username password :
  configured conf s ->
  let conn := service_conn s in
  let res := ldap_search d conn (basedn s) (user_search_filter s username)
               (scope_of s) None in
  (ldap_bind d (server_of s) (bind_user s) (bind_password s) = false ->
   outcome (try_login conf d username password)
   = Raise (AuthenticationError "Cannot bind to ldap server"))
  /\ (forall entry rest entry_dn,
        ldap_bind d (server_of s) (bind_user s) (bind_password s) = true ->
        sr_ok res = true -> sr_response res = entry :: rest ->
        r_dn entry = Some entry_dn ->
        ldap_bind d (server_of s) entry_dn password = false ->
        outcome (try_login conf d username password)
        = Raise (AuthenticationError "Cannot bind to ldap server")).
Proof.
  intros Hc conn res.
  rewrite (try_login_configured _ _ _ _ _ Hc). split.
  - apply login_attempt_service_refused.
  - intros entry rest entry_dn Hsvc Hok Hresp Hdn Huser.
    rewrite (login_attempt_service_bound _ _ _ _ Hsvc), !outcome_after.
    fold conn. fold res. unfold login_with_result.
    rewrite Hok, Hresp. simpl. rewrite Hdn.
    rewrite outcome_bind. unfold connection_attempt. now rewrite Huser.
Qed.

(** C2. The claim asks that a refused bind of the service account and a
    refused bind of the user surface as two errors that the caller of
    [try_login] can tell apart.  The last lines of [try_login] are written
    for the second case: they log "Password incorrect for user ..." and
    raise [AuthenticationError("Invalid username or password")] when the
    connection is false.  But [get_ldap_connection] never returns a false
    connection: it raises when the bind is refused.  So for bob with a
    wrong password the service account binds, the user's bind is refused,
    and [try_login] ends with
    [AuthenticationError("Cannot bind to ldap server")], the very
    exception of a login in which the service account is refused; the
    log line of the last branch is not written. *)
Theorem try_login_bind_failures_coincide :
  bind_results
    (trace (try_login stale_conf (Example.directory None []) "bob" "correct"))
  = [false]
  /\ outcome (try_login stale_conf (Example.directory None []) "bob" "correct")
     = Raise (AuthenticationError "Cannot bind to ldap server")
  /\ bind_results
       (trace (try_login Example.conf (Example.directory None []) "bob" "wrong"))
     = [true; false]
  /\ outcome (try_login Example.conf (Example.directory None []) "bob" "wrong")
     = Raise (AuthenticationError "Cannot bind to ldap server")
  /\ ~ In (password_incorrect_log "bob")
         (trace (try_login Example.conf (Example.directory None []) "bob" "wrong")).
Proof.
  split; [vm_compute; reflexivity|].
  split; [vm_compute; reflexivity|].
  split; [vm_compute; reflexivity|].
  split; [vm_compute; reflexivity|].
  vm_compute. intros H.
  repeat (destruct H as [H|H]; [discriminate H|]). exact H.
Qed.

(** ** Trace invariants *)

Lemma Forall_trace_bind {A B} (P : Event -> Prop) (m : M A) (k : A -> M B) :
  Forall P (trace m) -> (forall a, Forall P (trace (k a))) ->
  Forall P (trace (bind m k)).
Proof.
  intros Hm Hk. rewrite trace_bind. apply Forall_app. split; [assumption|].
  destruct (outcome m); [apply Hk | constructor].
Qed.

Lemma Forall_trace_try_except {A} (P : Event -> Prop) (m : M A) handles handler :
  Forall P (trace m) -> (forall e, Forall P (trace (handler e))) ->
  Forall P (trace (try_except m handles handler)).
Proof.
  intros Hm Hh. unfold try_except. destruct (outcome m); [assumption|].
  destruct (handles e); [|assumption].
  rewrite trace_after. apply Forall_app. split; [assumption | apply Hh].
Qed.

Lemma trace_conf_get conf section key : trace (conf_get conf section key) = [].
Proof.
  unfold conf_get. destruct (conf !! section) as [options|]; [|reflexivity].
  now destruct (options !! key).
Qed.

Lemma Forall_trace_conf_get (P : Event -> Prop) conf section key :
  Forall P (trace (conf_get conf section key)).
Proof. rewrite trace_conf_get. constructor. Qed.

Lemma Forall_trace_read_local {A} (P : Event -> Prop) name (v : Local A) :
  Forall P (trace (read_local name v)).
Proof. destruct v; constructor. Qed.

Lemma Forall_trace_ret {A} (P : Event -> Prop) (a : A) : Forall P (trace (ret a)).
Proof. constructor. Qed.

Lemma Forall_trace_raise {A} (P : Event -> Prop) e : Forall P (trace (@raise A e)).
Proof. constructor. Qed.

Lemma Forall_trace_emit (P : Event -> Prop) ev : P ev -> Forall P (trace (emit ev)).
Proof. intros H. repeat constructor. exact H. Qed.

Lemma Forall_trace_log (P : Event -> Prop) lvl msg :
  P (Log lvl msg) -> Forall P (trace (log lvl msg)).
Proof. apply Forall_trace_emit. Qed.

(** proves [Forall P (trace m)] along the structure of [m], leaving the
    events to be checked *)
Ltac trace_steps :=
  repeat first
    [ apply Forall_trace_conf_get
    | apply Forall_trace_read_local
    | apply Forall_trace_bind; [|intros]
    | apply Forall_trace_try_except; [|intros]
    | apply Forall_trace_ret
    | apply Forall_trace_raise
    | apply Forall_trace_log
    | apply Forall_trace_emit
    | progress unfold response_0, item_attributes, attrs_get, getattr_values,
        Regex.group_1, conn_search
    | match goal with
      | |- Forall _ (trace (if ?b then _ else _)) => destruct b
      | |- Forall _ (trace (match ?o with _ => _ end)) => destruct o
      end ].

Lemma get_ldap_connection_trace_no_info conf d dn password :
  Forall (fun ev => forall msg, ev <> Log INFO msg)
    (trace (get_ldap_connection conf d dn password)).
Proof.
  unfold get_ldap_connection. trace_steps; intros; discriminate.
Qed.

Lemma try_login_never_reports_password conf d username password :
  Forall (fun ev => ev <> password_incorrect_log username)
    (trace (try_login conf d username password)).
Proof.
  assert (Hconn : forall dn pw,
    Forall (fun ev => ev <> password_incorrect_log username)
      (trace (get_ldap_connection conf d dn pw))).
  { intros dn pw.
    apply (List.Forall_impl _ (P := fun ev => forall msg, ev <> Log INFO msg));
      [|apply get_ldap_connection_trace_no_info].
    intros ev H. apply H. }
  unfold try_login. trace_steps; try apply Hconn; discriminate.
Qed.

Lemma refusal_surfaces_quiet {A} (m : M A) :
  existsb refused (trace m) = false -> refusal_surfaces m.
Proof. unfold refusal_surfaces. congruence. Qed.

Lemma refusal_surfaces_bind {A B} (m : M A) (k : A -> M B) :
  refusal_surfaces m -> (forall a, refusal_surfaces (k a)) ->
  refusal_surfaces (bind m k).
Proof.
  unfold refusal_surfaces. intros Hm Hk.
  rewrite trace_bind, outcome_bind, existsb_app.
  destruct (outcome m) as [a|e] eqn:E.
  - intros H. apply orb_true_iff in H as [H|H]; [|now apply Hk].
    specialize (Hm H). discriminate.
  - simpl. rewrite orb_false_r. intros H. specialize (Hm H). congruence.
Qed.

Lemma refusal_surfaces_try_except {A} (m : M A) handles handler :
  handles (AuthenticationError "Cannot bind to ldap server") = false ->
  refusal_surfaces m -> (forall e, refusal_surfaces (handler e)) ->
  refusal_surfaces (try_except m handles handler).
Proof.
  unfold refusal_surfaces, try_except. intros Hh Hm Hk.
  destruct (outcome m) as [a|e] eqn:E; [now rewrite E|].
  destruct (handles e) eqn:He; [|now rewrite E].
  rewrite trace_after, outcome_after, existsb_app.
  intros H. apply orb_true_iff in H as [H|H]; [|now apply Hk].
  specialize (Hm H). congruence.
Qed.

(** [get_ldap_connection] either stops before it binds, with an exception,
    or has the four options it reads and attempts the connection. *)
Lemma get_ldap_connection_cases conf d dn password :
  (exists t e, get_ldap_connection conf d dn password = (t, Raise e)
               /\ existsb is_bind t = false)
  \/ (exists s, connection_configured conf s
                /\ get_ldap_connection conf d dn password
                   = connection_attempt d s dn password).
Proof.
  destruct (ldap_option conf "cacert") as [ca|] eqn:Hca;
  destruct (ldap_option conf "ignore_malformed_schema") as [ims|] eqn:Hims;
  destruct (ldap_option conf "search_scope") as [scope|] eqn:Hscope;
  destruct (ldap_option conf "uri") as [u|] eqn:Huri.
  1: { right. exists (mkSettings u "" "" "" "" "" ca scope ims).
       assert (Hs : connection_configured conf (mkSettings u "" "" "" "" "" ca scope ims))
         by (repeat split; assumption).
       split; [exact Hs | now apply get_ldap_connection_settings]. }
  all: left; unfold get_ldap_connection;
    rewrite !conf_get_ldap, ?Hca, ?Hims, ?Hscope, ?Huri;
    unfold bind, try_except; simpl;
    try (destruct (PyStr.truthy ims); simpl); do 2 eexists; split; reflexivity.
Qed.

Lemma schema_events_no_bind s : existsb is_bind (schema_events s) = false.
Proof. unfold schema_events. now destruct (PyStr.truthy _). Qed.

Lemma schema_events_not_refused s : existsb refused (schema_events s) = false.
Proof. unfold schema_events. now destruct (PyStr.truthy _). Qed.

Lemma existsb_refused_no_bind t :
  existsb is_bind t = false -> existsb refused t = false.
Proof.
  induction t as [|ev t IH]; [reflexivity|]. simpl.
  destruct ev as [| conn [|] | | |]; simpl; try discriminate; exact IH.
Qed.

Lemma refusal_surfaces_connection_attempt d s dn password :
  refusal_surfaces (connection_attempt d s dn password).
Proof.
  unfold refusal_surfaces, connection_attempt.
  destruct (ldap_bind d (server_of s) dn password); simpl; [|reflexivity].
  now rewrite existsb_app, schema_events_not_refused.
Qed.

Lemma refusal_surfaces_get_ldap_connection conf d dn password :
  refusal_surfaces (get_ldap_connection conf d dn password).
Proof.
  destruct (get_ldap_connection_cases conf d dn password)
    as [(t & e & -> & Ht) | (s & _ & ->)].
  - apply refusal_surfaces_quiet. now apply existsb_refused_no_bind.
  - apply refusal_surfaces_connection_attempt.
Qed.

(** proves [refusal_surfaces m] along the structure of [m] *)
Ltac refusal_steps :=
  repeat first
    [ apply refusal_surfaces_get_ldap_connection
    | apply refusal_surfaces_bind; [|intros]
    | apply refusal_surfaces_try_except; [reflexivity| |intros]
    | apply refusal_surfaces_quiet; rewrite ?trace_conf_get; reflexivity
    | match goal with
      | |- refusal_surfaces (if ?b then _ else _) => destruct b
      | |- refusal_surfaces (match ?o with _ => _ end) => destruct o
      end
    | progress unfold response_0, item_attributes, attrs_get, getattr_values,
        Regex.group_1 ].

Lemma refusal_surfaces_try_login conf d username password :
  refusal_surfaces (try_login conf d username password).
Proof. unfold try_login. refusal_steps. Qed.

Lemma get_ldap_connection_returns conf d dn password t conn :
  get_ldap_connection conf d dn password = (t, Return conn) ->
  conn_user conn = dn /\ conn_password conn = password
  /\ ldap_bind d (server conn) dn password = true
  /\ In (Bind conn true) t.
Proof.
  intros H.
  destruct (get_ldap_connection_cases conf d dn password)
    as [(t' & e & E & _) | (s & _ & E)]; rewrite E in H; [discriminate|].
  unfold connection_attempt in H.
  destruct (ldap_bind d (server_of s) dn password) eqn:Hb; [|discriminate].
  injection H as <- <-. simpl. repeat split; try reflexivity; try exact Hb.
  apply in_or_app. right. now left.
Qed.

(** ** The branch after the user bind *)

(** C9. [get_ldap_connection] never returns a false value: what it
    returns is a connection whose bind succeeded.  So the last branch of
    [try_login], taken when the connection is false, is never run (its log
    line is in no trace), and a refused bind, a wrong password among them,
    always ends [try_login] with the exception raised inside
    [get_ldap_connection]. *)
Theorem get_ldap_connection_never_falsy conf d :
  (forall dn password t conn,
     get_ldap_connection conf d dn password = (t, Return conn) ->
     conn_truthy conn = true
     /\ conn_user conn = dn /\ conn_password conn = password
     /\ ldap_bind d (server conn) dn password = true
     /\ In (Bind conn true) t)
  /\ (forall username password,
        ~ In (password_incorrect_log username)
             (trace (try_login conf d username password)))
  /\ (forall username password conn,
        In (Bind conn false) (trace (try_login conf d username password)) ->
        outcome (try_login conf d username password)
        = Raise (AuthenticationError "Cannot bind to ldap server")).
Proof.
  split; [|split].
  - intros dn password t conn H. split; [reflexivity|].
    now apply (get_ldap_connection_returns conf).
  - intros username password Hin.
    pose proof (try_login_never_reports_password conf d username password) as HF.
    rewrite List.Forall_forall in HF. now apply (HF _ Hin).
  - intros username password conn Hin.
    apply (refusal_surfaces_try_login conf d username password).
    apply existsb_exists. exists (Bind conn false). split; [exact Hin | reflexivity].
Qed.

Lemma get_ldap_connection_never_falsy_witness :
  (conn_truthy (mkConnection (server_of example_settings) Example.bob_dn "correct") = true
   /\ ldap_bind (Example.directory None []) (server_of example_settings)
        Example.bob_dn "correct" = true)
  /\ outcome (try_login Example.conf (Example.directory None []) "bob" "wrong")
     = Raise (AuthenticationError "Cannot bind to ldap server").
Proof.
  pose proof (get_ldap_connection_never_falsy Example.conf (Example.directory None []))
    as (Hret & _ & Hrefused).
  split.
  - destruct (Hret Example.bob_dn "correct"
                ([Bind (mkConnection (server_of example_settings)
                          Example.bob_dn "correct") true])
                (mkConnection (server_of example_settings) Example.bob_dn "correct"))
      as (Ht & _ & _ & Hb & _); [vm_compute; reflexivity|].
    split; [exact Ht | exact Hb].
  - apply (Hrefused "bob" "wrong"
             (mkConnection (server_of example_settings) Example.bob_dn "wrong")).
    vm_compute. tauto.
Defined.

(** ** Optional keys of [get_ldap_connection] *)

(** without the option [cacert], no connection is attempted *)
Lemma get_ldap_connection_cacert_absent conf d dn password :
  ldap_option conf "cacert" = None ->
  exists t name,
    get_ldap_connection conf d dn password = (t, Raise (UnboundLocalError name))
    /\ existsb is_bind t = false.
Proof.
  intros Hca. unfold get_ldap_connection. rewrite !conf_get_ldap, Hca.
  destruct (ldap_option conf "ignore_malformed_schema") as [ims|];
    unfold bind, try_except; simpl;
    try (destruct (PyStr.truthy ims); simpl); do 2 eexists; split; reflexivity.
Qed.

(** C1. The claim asks that a missing optional key gives the default
    behaviour and no error.  [get_ldap_connection] catches the exception
    of [conf.get] for [cacert] and [ignore_malformed_schema] but leaves the
    local variable unassigned, and reads [search_scope] unguarded: with any
    of the three keys missing, and whatever the directory, it raises before
    any bind is attempted. *)
Theorem get_ldap_connection_missing_optional_key d dn password :
  get_ldap_connection (Example.without "cacert") d dn password
  = ([], Raise (UnboundLocalError "cacert"))
  /\ get_ldap_connection (Example.without "ignore_malformed_schema") d dn password
     = ([], Raise (UnboundLocalError "ignore_malformed_schema"))
  /\ get_ldap_connection (Example.without "search_scope") d dn password
     = ([], Raise (AirflowConfigException "ldap" "search_scope"))
  /\ exists t conn,
       get_ldap_connection (Example.with_option "cacert" "") (Example.directory None [])
         "cn=Manager,dc=example,dc=com" "insecure" = (t, Return conn).
Proof.
  repeat split; try (vm_compute; reflexivity).
  do 2 eexists. vm_compute. reflexivity.
Qed.

(** ** The regular expression *)

Lemma not_comma_run_app g rest :
  PyStr.has_comma g = false ->
  rest = "" \/ (exists rest', rest = String PyStr.comma rest') ->
  Regex.not_comma_run (g +:+ rest) = g.
Proof.
  intros Hg Hrest. induction g as [|a g IH]; simpl in *.
  - destruct Hrest as [-> | (rest' & ->)]; reflexivity.
  - destruct (Ascii.eqb a PyStr.comma); [discriminate|].
    now rewrite IH.
Qed.

Lemma is_cn_eq_third a b c : Regex.is_cn_eq a b c = true -> c = "="%char.
Proof.
  unfold Regex.is_cn_eq. intros H.
  apply andb_true_iff in H as [_ H]. now apply Ascii.eqb_eq.
Qed.

Lemma is_cn_eq_first a b c :
  Regex.is_cn_eq a b c = true -> a <> "="%char /\ b <> "="%char.
Proof.
  unfold Regex.is_cn_eq. intros H.
  apply andb_true_iff in H as [H _]. apply andb_true_iff in H as [Ha Hb].
  split; intros ->; discriminate.
Qed.

(** a match cannot begin in [pre] and end in the [cn=] that follows it *)
Lemma match_here_app a pre c n tail :
  Regex.match_here (String a pre) = None ->
  Regex.is_cn_eq c n "=" = true ->
  Regex.match_here (String a (pre +:+ String c (String n (String "=" tail)))) = None.
Proof.
  intros Hpre Hcn. destruct (is_cn_eq_first _ _ _ Hcn) as [Hc Hn].
  destruct pre as [|b [|b' pre]]; simpl in *.
  - destruct (Regex.is_cn_eq a c n) eqn:E; [|reflexivity].
    now apply is_cn_eq_third in E.
  - destruct (Regex.is_cn_eq a b c) eqn:E; [|reflexivity].
    now apply is_cn_eq_third in E.
  - destruct (Regex.is_cn_eq a b b'); [discriminate | reflexivity].
Qed.

Lemma search_first_cn pre c n g rest :
  Regex.search pre = None ->
  Regex.is_cn_eq c n "=" = true ->
  PyStr.has_comma g = false ->
  rest = "" \/ (exists rest', rest = String PyStr.comma rest') ->
  Regex.search (pre +:+ String c (String n (String "=" (g +:+ rest)))) = Some g.
Proof.
  intros Hpre Hcn Hg Hrest. induction pre as [|a pre IH].
  - simpl. rewrite Hcn. now rewrite not_comma_run_app.
  - change (String a pre +:+ ?x) with (String a (pre +:+ x)).
    change (Regex.search (String a ?x))
      with (match Regex.match_here (String a x) with
            | Some m => Some m
            | None => Regex.search x
            end).
    change (Regex.search (String a pre))
      with (match Regex.match_here (String a pre) with
            | Some m => Some m
            | None => Regex.search pre
            end) in Hpre.
    destruct (Regex.match_here (String a pre)) eqn:E; [discriminate|].
    rewrite (match_here_app _ _ _ _ _ E Hcn). now apply IH.
Qed.

(** C8. The group name taken from a value of the membership attribute is
    the text that follows the first [cn=] (letters in either case) up to
    the first comma; for "cn=Admins,ou=Groups,dc=example,dc=com" it is
    "Admins", and this is what [groups_user] returns for a user with that
    one value. *)
Theorem groups_user_cn_extraction :
  (forall pre c n g rest,
     Regex.search pre = None ->
     Regex.is_cn_eq c n "=" = true ->
     PyStr.has_comma g = false ->
     rest = "" \/ (exists rest', rest = String PyStr.comma rest') ->
     Regex.search (pre +:+ String c (String n (String "=" (g +:+ rest)))) = Some g)
  /\ Regex.search "cn=Admins,ou=Groups,dc=example,dc=com" = Some "Admins"
  /\ outcome
       (groups_user Example.conf
          (Example.directory (Some ["cn=Admins,ou=Groups,dc=example,dc=com"]) [])
          example_conn "dc=example,dc=com" "objectClass=person" "uid" "bob")
     = Return ["Admins"].
Proof.
  split; [|split].
  - apply search_first_cn.
  - reflexivity.
  - vm_compute. reflexivity.
Qed.

Lemma groups_user_cn_extraction_witness :
  Regex.search "ou=x;CN=Data Team,dc=example" = Some "Data Team".
Proof.
  destruct groups_user_cn_extraction as [H _].
  apply (H "ou=x;" "C"%char "N"%char "Data Team" ",dc=example");
    [reflexivity | reflexivity | reflexivity | right; eexists; reflexivity].
Defined.

(** ** Membership of a group *)

Lemma contains_In x xs : PyStr.contains x xs = true <-> In x xs.
Proof.
  induction xs as [|y ys IH]; simpl.
  - split; [discriminate | tauto].
  - destruct (String.eqb x y) eqn:E.
    + apply String.eqb_eq in E. subst y. split; [now left | reflexivity].
    + apply String.eqb_neq in E. rewrite IH. split; [now right|].
      intros [H|H]; [congruence | exact H].
Qed.

(** *** [str.lower] on ASCII text *)

Lemma lower_simple_below c ranges :
  forallb (fun r => (c <? fst (fst (fst r)))%N) ranges = true ->
  PyStr.lower_simple c ranges = c.
Proof.
  induction ranges as [|[[[first last] step] lower] ranges IH]; simpl; [reflexivity|].
  intros H. apply andb_true_iff in H as [Hc H].
  apply N.ltb_lt in Hc.
  replace (first <=? c)%N with false by (symmetry; apply N.leb_gt; exact Hc).
  simpl. exact (IH H).
Qed.

Lemma forallb_below c bound (ranges : list (N * N * N * N)) :
  (c < bound)%N ->
  forallb (fun r => (bound <=? fst (fst (fst r)))%N) ranges = true ->
  forallb (fun r => (c <? fst (fst (fst r)))%N) ranges = true.
Proof.
  intros Hc H. rewrite forallb_forall in *. intros r Hr.
  specialize (H r Hr). apply N.leb_le in H. apply N.ltb_lt. lia.
Qed.

(** below 128 the table lowers the capitals A-Z and nothing else *)
Lemma lower_simple_ascii c :
  (c < 128)%N ->
  PyStr.lower_simple c PyStr.lower_ranges
  = if ((65 <=? c) && (c <=? 90))%N then (c + 32)%N else c.
Proof.
  intros Hc.
  change PyStr.lower_ranges
    with ((65, 90, 1, 97)%N :: List.tl PyStr.lower_ranges).
  cbn [PyStr.lower_simple].
  rewrite N.mod_1_r. cbn [N.eqb]. rewrite andb_true_r.
  destruct ((65 <=? c) && (c <=? 90))%N eqn:E.
  - apply andb_true_iff in E as [E1 E2]. apply N.leb_le in E1. lia.
  - apply lower_simple_below. apply (forallb_below c 128 _ Hc).
    vm_compute. reflexivity.
Qed.

Lemma N_of_lower_char a :
  N_of_ascii (PyStr.lower_char a)
  = if ((65 <=? N_of_ascii a) && (N_of_ascii a <=? 90))%N
    then (N_of_ascii a + 32)%N else N_of_ascii a.
Proof.
  unfold PyStr.lower_char.
  destruct ((65 <=? N_of_ascii a) && (N_of_ascii a <=? 90))%N eqn:E; [|reflexivity].
  apply andb_true_iff in E as [_ E]. apply N.leb_le in E.
  apply N_ascii_embedding. lia.
Qed.

Lemma lower_code_points_ascii s :
  ascii_only s = true ->
  forall before,
    PyStr.encode (PyStr.lower_code_points before (PyStr.decode s))
    = lower_ascii s.
Proof.
  induction s as [|a s IH]; [reflexivity|].
  cbn [ascii_only]. intros H before.
  apply andb_true_iff in H as [Ha Hs].
  cbn [PyStr.decode]. cbv zeta. rewrite Ha.
  apply N.ltb_lt in Ha.
  cbn [PyStr.lower_code_points].
  replace (N_of_ascii a =? 931)%N with false by (symmetry; apply N.eqb_neq; lia).
  unfold PyStr.lower_code_point.
  replace (N_of_ascii a =? 304)%N with false by (symmetry; apply N.eqb_neq; lia).
  cbn [app PyStr.encode]. rewrite (IH Hs).
  rewrite (lower_simple_ascii _ Ha).
  unfold PyStr.encode_code_point.
  assert (Hl : ((if ((65 <=? N_of_ascii a) && (N_of_ascii a <=? 90))%N
                 then N_of_ascii a + 32 else N_of_ascii a) < 128)%N).
  { destruct ((65 <=? N_of_ascii a) && (N_of_ascii a <=? 90))%N eqn:E; [|exact Ha].
    apply andb_true_iff in E as [_ E]. apply N.leb_le in E. lia. }
  apply N.ltb_lt in Hl. rewrite Hl.
  cbn [lower_ascii]. rewrite <- N_of_lower_char, ascii_N_embedding.
  reflexivity.
Qed.

(** on ASCII text [str.lower] lowers the capitals A-Z, one character at a
    time *)
Lemma lower_ascii_only s :
  ascii_only s = true -> PyStr.lower s = lower_ascii s.
Proof. intros H. apply (lower_code_points_ascii s H). Qed.

Lemma same_letter_lower x y :
  same_letter x y = true <-> PyStr.lower_char x = PyStr.lower_char y.
Proof.
  assert (H : PyStr.lower_char x = PyStr.lower_char y
              <-> N_of_ascii (PyStr.lower_char x) = N_of_ascii (PyStr.lower_char y)).
  { split; [now intros -> | intros H].
    rewrite <- (ascii_N_embedding (PyStr.lower_char x)),
      <- (ascii_N_embedding (PyStr.lower_char y)). now f_equal. }
  rewrite H, !N_of_lower_char. unfold same_letter. cbv zeta.
  generalize (N_of_ascii x) (N_of_ascii y). intros nx ny.
  destruct (N.leb_spec 65 nx), (N.leb_spec nx 90), (N.leb_spec 65 ny),
    (N.leb_spec ny 90), (N.eqb_spec nx ny), (N.eqb_spec ny (nx + 32)),
    (N.eqb_spec nx (ny + 32)); cbn; split; intros; try lia; try discriminate;
    reflexivity.
Qed.

Lemma equal_ignoring_case_lower a b :
  equal_ignoring_case a b = true <-> lower_ascii a = lower_ascii b.
Proof.
  revert b. induction a as [|x a IH]; intros [|y b]; simpl;
    try (split; [discriminate | discriminate]); [tauto|].
  rewrite andb_true_iff, same_letter_lower, IH. split.
  - intros [-> ->]. reflexivity.
  - intros H. injection H as H1 H2. auto.
Qed.

(** on ASCII text, two strings have the same lower-case form exactly when
    they are equal up to the case of the letters A-Z *)
Lemma lower_eq_ascii a b :
  ascii_only a = true -> ascii_only b = true ->
  PyStr.lower a = PyStr.lower b <-> equal_ignoring_case a b = true.
Proof.
  intros Ha Hb. rewrite (lower_ascii_only _ Ha), (lower_ascii_only _ Hb).
  symmetry. apply equal_ignoring_case_lower.
Qed.

(** *** The loop over the entries *)

Lemma group_contains_user_loop_eq entries attr username :
  group_contains_user_loop entries attr username
  = ret (existsb
           (fun e => PyStr.contains (PyStr.lower username)
                       (map PyStr.lower (attribute_values e attr)))
           entries).
Proof.
  induction entries as [|e entries IH]; [reflexivity|].
  cbn [group_contains_user_loop existsb]. unfold getattr_values.
  rewrite bind_ret_l.
  destruct (PyStr.contains _ _); [reflexivity | exact IH].
Qed.

Lemma group_contains_user_loop_trace entries attr username :
  trace (group_contains_user_loop entries attr username) = [].
Proof. now rewrite group_contains_user_loop_eq. Qed.

Lemma entry_matches_contains attr username e :
  PyStr.contains (PyStr.lower username) (map PyStr.lower (attribute_values e attr))
  = true
  <-> entry_matches attr username e.
Proof.
  rewrite contains_In, in_map_iff. unfold entry_matches. split.
  - intros (v & Hl & Hin). exists v. auto.
  - intros (v & Hin & Hl). exists v. auto.
Qed.

Lemma group_contains_user_loop_true entries attr username :
  outcome (group_contains_user_loop entries attr username) = Return true
  <-> exists e, In e entries /\ entry_matches attr username e.
Proof.
  rewrite group_contains_user_loop_eq. cbn [outcome ret snd].
  split.
  - intros H. injection H as H. apply existsb_exists in H as (e & Hin & H).
    exists e. split; [exact Hin | now apply entry_matches_contains].
  - intros (e & Hin & H). f_equal. apply existsb_exists.
    exists e. split; [exact Hin | now apply entry_matches_contains].
Qed.

Lemma group_contains_user_eq d conn search_base group_filter user_name_attr username :
  group_contains_user d conn search_base group_filter user_name_attr username
  = let search_filter := "(&(" +:+ group_filter +:+ "))" in
    let res := ldap_search d conn search_base search_filter SUBTREE
                 (Some [user_name_attr]) in
    after [Search conn search_base search_filter SUBTREE (Some [user_name_attr])]
      (if PyStr.truthy group_filter then
         if negb (sr_ok res) then
           log WARNING ("Unable to find group for " +:+ search_base +:+ " "
                        +:+ search_filter) ;;;
           ret false
         else group_contains_user_loop (sr_entries res) user_name_attr username
       else raise LDAPInvalidFilterError).
Proof.
  unfold group_contains_user. cbv zeta.
  rewrite conn_search_cases, malformed_filter_group.
  now destruct (PyStr.truthy group_filter).
Qed.

(** C7. [group_contains_user] returns [True] exactly when the search
    succeeds and some returned entry has, in the value list of the user
    attribute, a value equal to the user name up to the case of letters,
    that is, with the same lower-case form; it returns [False], and does
    not raise, when the search reports failure and when no entry is
    returned.  For a name and a value of ASCII characters, having the same
    lower-case form is being equal up to the case of the letters A-Z:
    "Alice" matches "alice".  The lower-case form is the one of Unicode:
    ELODIE written with a capital E with an acute accent matches the same
    name in small letters. *)
Theorem group_contains_user_spec d conn search_base group_filter
    user_name_attr username :
  let search := conn_search d conn search_base ("(&(" +:+ group_filter +:+ "))")
                  SUBTREE (Some [user_name_attr]) in
  let result := outcome (group_contains_user d conn search_base group_filter
                           user_name_attr username) in
  (result = Return true
   <-> exists res,
         outcome search = Return res /\ sr_ok res = true
         /\ exists e v,
              In e (sr_entries res)
              /\ In v (attribute_values e user_name_attr)
              /\ PyStr.lower v = PyStr.lower username)
  /\ (forall res,
        outcome search = Return res ->
        sr_ok res = false \/ sr_entries res = [] ->
        result = Return false)
  /\ (forall v,
        ascii_only v = true -> ascii_only username = true ->
        (PyStr.lower v = PyStr.lower username
         <-> equal_ignoring_case v username = true))
  /\ equal_ignoring_case "alice" "Alice" = true
  /\ PyStr.lower elodie_upper = PyStr.lower elodie_lower.
Proof.
  intros search result. subst search result.
  rewrite group_contains_user_eq, conn_search_cases, malformed_filter_group.
  cbv zeta. rewrite outcome_after. cbn [outcome snd].
  set (res := ldap_search d conn search_base ("(&(" +:+ group_filter +:+ "))")
                SUBTREE (Some [user_name_attr])).
  split; [|split; [|split; [|split]]].
  - destruct (PyStr.truthy group_filter); cbn [negb].
    2: { split; [discriminate | intros (r & H & _); discriminate]. }
    split.
    + intros H. exists res. split; [reflexivity|].
      destruct (sr_ok res); cbn [negb] in H; [|discriminate].
      split; [reflexivity|].
      apply group_contains_user_loop_true in H as (e & Hin & v & Hv & Hl).
      exists e, v. auto.
    + intros (r & Hr & Hok & e & v & Hin & Hv & Hl).
      injection Hr as <-. rewrite Hok. cbn [negb].
      apply group_contains_user_loop_true. exists e. split; [exact Hin|].
      exists v. auto.
  - intros r Hr H.
    destruct (PyStr.truthy group_filter); cbn [negb] in *; [|discriminate].
    injection Hr as <-. destruct H as [H|H].
    + rewrite H. reflexivity.
    + destruct (sr_ok res); [|reflexivity]. cbn [negb]. rewrite H. reflexivity.
  - intros v Hv Hu. now apply lower_eq_ascii.
  - reflexivity.
  - vm_compute. reflexivity.
Qed.

Lemma group_contains_user_spec_witness :
  outcome
    (group_contains_user
       (Example.directory None
          [mkEntry "cn=staff,dc=example,dc=com" [("uid", ["carol"])];
           mkEntry "cn=admins,dc=example,dc=com" [("UID", ["dave"; "alice"])]])
       example_conn "dc=example,dc=com" "cn=admins" "uid" "Alice")
  = Return true
  /\ outcome
       (group_contains_user
          (Example.directory None
             [mkEntry "cn=admins,dc=example,dc=com" [("uid", ["dave"; "alicia"])]])
          example_conn "dc=example,dc=com" "cn=admins" "uid" "Alice")
     <> Return true
  /\ outcome
       (group_contains_user (Example.directory None [])
          example_conn "dc=example,dc=com" "cn=admins" "uid" "Alice")
     = Return false.
Proof.
  split; [|split].
  - apply (proj1 (group_contains_user_spec
                    (Example.directory None
                       [mkEntry "cn=staff,dc=example,dc=com" [("uid", ["carol"])];
                        mkEntry "cn=admins,dc=example,dc=com"
                          [("UID", ["dave"; "alice"])]])
                    example_conn "dc=example,dc=com" "cn=admins" "uid" "Alice")).
    eexists. split; [reflexivity|]. split; [reflexivity|].
    exists (mkEntry "cn=admins,dc=example,dc=com" [("UID", ["dave"; "alice"])]),
      "alice".
    split; [right; left; reflexivity|].
    split; [right; left; reflexivity | reflexivity].
  - intros H.
    apply (proj1 (group_contains_user_spec
                    (Example.directory None
                       [mkEntry "cn=admins,dc=example,dc=com"
                          [("uid", ["dave"; "alicia"])]])
                    example_conn "dc=example,dc=com" "cn=admins" "uid" "Alice"))
      in H as (res & Hres & _ & e & v & Hin & Hv & Hl).
    injection Hres as <-.
    destruct Hin as [<-|[]].
    destruct Hv as [<-|[<-|[]]]; vm_compute in Hl; discriminate.
  - apply (proj1 (proj2 (group_contains_user_spec (Example.directory None [])
                           example_conn "dc=example,dc=com" "cn=admins" "uid" "Alice"))
             (mkSearchResult false [] [])).
    + reflexivity.
    + left. reflexivity.
Defined.

(** ** The groups of a user *)

Lemma memberof_attr_lookup conf :
  try_except (conf_get conf "ldap" "group_member_attr") is_Exception
    (fun _ => ret "memberOf")
  = ret (group_member_attr_of conf).
Proof.
  rewrite conf_get_ldap. unfold group_member_attr_of.
  now destruct (ldap_option conf "group_member_attr").
Qed.

Lemma groups_user_eq conf d conn search_base user_filter user_name_att username :
  groups_user conf d conn search_base user_filter user_name_att username
  = after [groups_search_event conf conn search_base user_filter user_name_att username]
      (groups_of_result (group_member_attr_of conf) username
         (groups_search_result conf d conn search_base user_filter user_name_att
            username)).
Proof.
  unfold groups_user. rewrite memberof_attr_lookup, bind_ret_l.
  rewrite conn_search_eq, bind_return; [reflexivity|].
  apply malformed_filter_conjunction.
Qed.

Lemma groups_comprehension_cons i rest :
  groups_comprehension (i :: rest)
  = (g <- Regex.group_1 (Regex.search i) ;;
     gs <- groups_comprehension rest ;;
     ret (g :: gs)).
Proof. reflexivity. Qed.

Lemma groups_comprehension_trace user_groups :
  trace (groups_comprehension user_groups) = [].
Proof.
  induction user_groups as [|i rest IH]; [reflexivity|].
  rewrite groups_comprehension_cons. destruct (Regex.search i); [|reflexivity].
  unfold Regex.group_1. rewrite bind_ret_l, trace_bind, IH.
  now destruct (outcome (groups_comprehension rest)).
Qed.

Lemma groups_comprehension_all user_groups groups :
  map Regex.search user_groups = map Some groups ->
  groups_comprehension user_groups = ret groups.
Proof.
  revert groups. induction user_groups as [|i rest IH]; intros [|g groups] H;
    try discriminate; [reflexivity|].
  simpl in H. injection H as Hi Hrest.
  rewrite groups_comprehension_cons, Hi. unfold Regex.group_1.
  now rewrite bind_ret_l, (IH _ Hrest), bind_ret_l.
Qed.

Lemma groups_comprehension_malformed user_groups :
  Exists (fun v => Regex.search v = None) user_groups ->
  exists e, outcome (groups_comprehension user_groups) = Raise e
            /\ is_IndexError e = false.
Proof.
  induction 1 as [i rest Hi | i rest _ IH]; rewrite groups_comprehension_cons.
  - rewrite Hi. eexists. split; reflexivity.
  - destruct (Regex.search i); unfold Regex.group_1.
    + rewrite bind_ret_l, outcome_bind.
      destruct IH as (e & -> & He). exists e. auto.
    + eexists. split; reflexivity.
Qed.

(** the outcome of [groups_user] once the membership attribute is found *)
Lemma groups_of_result_found memberof_attr username res item rest attrs user_groups :
  sr_ok res = true -> sr_response res = item :: rest ->
  r_attributes item = Some attrs ->
  assoc memberof_attr attrs = Some user_groups ->
  groups_of_result memberof_attr username res
  = try_except (groups_comprehension user_groups) is_IndexError
      (fun _ =>
         log WARNING "Parsing error when retrieving the user's group(s)." ;;;
         ret []).
Proof.
  intros Hok Hresp Hattrs Hgroups. unfold groups_of_result.
  rewrite Hok, Hresp. simpl negb. cbv iota.
  unfold item_attributes, response_0, attrs_get. rewrite Hattrs.
  repeat progress (rewrite ?bind_ret_l, ?Hattrs, ?Hgroups; cbn [negb is_Some_bool]).
  reflexivity.
Qed.

(** C3, as stated, fails: with the values
    ["cn=Admins,ou=Groups,dc=example,dc=com"; "ou=Staff,dc=example,dc=com"]
    the second has no [cn=]; the first is well formed, yet [groups_user]
    does not return ["Admins"]. *)
Lemma groups_user_malformed_entry_not_skipped :
  Regex.search "cn=Admins,ou=Groups,dc=example,dc=com" = Some "Admins"
  /\ Regex.search "ou=Staff,dc=example,dc=com" = None
  /\ outcome
       (groups_user Example.conf
          (Example.directory
             (Some ["cn=Admins,ou=Groups,dc=example,dc=com";
                    "ou=Staff,dc=example,dc=com"]) [])
          example_conn "dc=example,dc=com" "objectClass=person" "uid" "bob")
     <> Return ["Admins"].
Proof. repeat split; vm_compute; discriminate. Qed.

(** C3, amended. The extraction is all or nothing: when every value of the
    membership attribute matches the pattern, [groups_user] returns the
    group names of all of them, in order; when some value does not match,
    no group name is returned for any value of the list. *)
Theorem groups_user_all_or_nothing conf d conn search_base user_filter
    user_name_att username item rest attrs user_groups :
  let res := groups_search_result conf d conn search_base user_filter
               user_name_att username in
  let result := outcome (groups_user conf d conn search_base user_filter
                           user_name_att username) in
  sr_ok res = true -> sr_response res = item :: rest ->
  r_attributes item = Some attrs ->
  assoc (group_member_attr_of conf) attrs = Some user_groups ->
  (forall groups,
     map Regex.search user_groups = map Some groups -> result = Return groups)
  /\ (Exists (fun v => Regex.search v = None) user_groups ->
      forall g groups, result <> Return (g :: groups)).
Proof.
  intros res result Hok Hresp Hattrs Hgroups. subst result.
  rewrite groups_user_eq, outcome_after. fold res.
  rewrite (groups_of_result_found _ _ _ _ _ _ _ Hok Hresp Hattrs Hgroups).
  split.
  - intros groups Hall. now rewrite (groups_comprehension_all _ _ Hall).
  - intros Hex g groups.
    destruct (groups_comprehension_malformed _ Hex) as (e & He & Hh).
    unfold try_except. rewrite He, Hh, He. discriminate.
Qed.

Lemma groups_user_all_or_nothing_witness :
  outcome
    (groups_user Example.conf
       (Example.directory
          (Some ["cn=Admins,ou=Groups,dc=example,dc=com";
                 "CN=Data Team,ou=Groups,dc=example,dc=com"]) [])
       example_conn "dc=example,dc=com" "objectClass=person" "uid" "bob")
  = Return ["Admins"; "Data Team"]
  /\ outcome
       (groups_user Example.conf
          (Example.directory
             (Some ["cn=Admins,ou=Groups,dc=example,dc=com";
                    "ou=Staff,dc=example,dc=com"]) [])
          example_conn "dc=example,dc=com" "objectClass=person" "uid" "bob")
     <> Return ["Admins"].
Proof.
  split.
  - refine (proj1 (groups_user_all_or_nothing Example.conf
                (Example.directory
                   (Some ["cn=Admins,ou=Groups,dc=example,dc=com";
                          "CN=Data Team,ou=Groups,dc=example,dc=com"]) [])
                example_conn "dc=example,dc=com" "objectClass=person" "uid" "bob"
                (mkResponseItem (Some Example.bob_dn)
                   (Some [("memberOf",
                           ["cn=Admins,ou=Groups,dc=example,dc=com";
                            "CN=Data Team,ou=Groups,dc=example,dc=com"])]))
                []
                [("memberOf",
                  ["cn=Admins,ou=Groups,dc=example,dc=com";
                   "CN=Data Team,ou=Groups,dc=example,dc=com"])]
                ["cn=Admins,ou=Groups,dc=example,dc=com";
                 "CN=Data Team,ou=Groups,dc=example,dc=com"] _ _ _ _)
              ["Admins"; "Data Team"] _); vm_compute; reflexivity.
  - refine (proj2 (groups_user_all_or_nothing Example.conf
                (Example.directory
                   (Some ["cn=Admins,ou=Groups,dc=example,dc=com";
                          "ou=Staff,dc=example,dc=com"]) [])
                example_conn "dc=example,dc=com" "objectClass=person" "uid" "bob"
                (mkResponseItem (Some Example.bob_dn)
                   (Some [("memberOf",
                           ["cn=Admins,ou=Groups,dc=example,dc=com";
                            "ou=Staff,dc=example,dc=com"])]))
                []
                [("memberOf",
                  ["cn=Admins,ou=Groups,dc=example,dc=com";
                   "ou=Staff,dc=example,dc=com"])]
                ["cn=Admins,ou=Groups,dc=example,dc=com";
                 "ou=Staff,dc=example,dc=com"] _ _ _ _)
              _ "Admins" []); try (vm_compute; reflexivity).
    right. left. reflexivity.
Defined.

Lemma groups_comprehension_raises user_groups e :
  outcome (groups_comprehension user_groups) = Raise e ->
  e = AttributeError "'NoneType' object has no attribute 'group'".
Proof.
  induction user_groups as [|i rest IH]; [discriminate|].
  rewrite groups_comprehension_cons. destruct (Regex.search i); unfold Regex.group_1.
  - rewrite bind_ret_l, outcome_bind.
    destruct (outcome (groups_comprehension rest)); [discriminate|].
    intros H. injection H as <-. now apply IH.
  - intros H. now injection H as <-.
Qed.

(** after a successful search, [groups_user] returns, or raises something
    other than [AuthenticationError] *)
Lemma groups_of_result_ok memberof_attr username res :
  sr_ok res = true ->
  (exists groups, outcome (groups_of_result memberof_attr username res) = Return groups)
  \/ (exists e, outcome (groups_of_result memberof_attr username res) = Raise e
                /\ forall msg, e <> AuthenticationError msg).
Proof.
  intros Hok.
  destruct (sr_response res) as [|item rest] eqn:Hresp.
  { right. unfold groups_of_result. rewrite Hok, Hresp.
    eexists. split; [reflexivity | discriminate]. }
  destruct (r_attributes item) as [attrs|] eqn:Hattrs.
  2: { right. unfold groups_of_result, item_attributes. rewrite Hok, Hresp, Hattrs.
       eexists. split; [reflexivity | discriminate]. }
  destruct (assoc memberof_attr attrs) as [user_groups|] eqn:Hgroups.
  2: { left. unfold groups_of_result, item_attributes.
       rewrite Hok, Hresp, Hattrs. simpl negb. cbv iota.
       rewrite bind_ret_l, Hgroups. eexists. reflexivity. }
  rewrite (groups_of_result_found _ _ _ _ _ _ _ Hok Hresp Hattrs Hgroups).
  unfold try_except.
  destruct (outcome (groups_comprehension user_groups)) as [gs|e] eqn:E.
  - left. exists gs. exact E.
  - right. pose proof (groups_comprehension_raises _ _ E) as ->. simpl.
    exists (AttributeError "'NoneType' object has no attribute 'group'").
    split; [exact E | discriminate].
Qed.

(** [groups_user] raises [AuthenticationError] exactly when its search
    reports failure *)
Lemma groups_user_authentication_error conf d conn search_base user_filter
    user_name_att username msg :
  outcome (groups_user conf d conn search_base user_filter user_name_att username)
  = Raise (AuthenticationError msg)
  <-> sr_ok (groups_search_result conf d conn search_base user_filter
               user_name_att username) = false
      /\ msg = "Invalid username or password".
Proof.
  rewrite groups_user_eq, outcome_after.
  destruct (sr_ok _) eqn:Hok.
  - split; [|intros [H _]; discriminate].
    intros H.
    destruct (groups_of_result_ok (group_member_attr_of conf) username _ Hok)
      as [(gs & E) | (e & E & He)]; rewrite E in H; [discriminate|].
    injection H as ->. now destruct (He msg).
  - unfold groups_of_result. rewrite Hok. split.
    + intros H. injection H as <-. auto.
    + intros [_ ->]. reflexivity.
Qed.


(** C6. The claim asks that [groups_user] does not fail when its search
    succeeds.  For a user whose only membership value is
    "ou=Staff,dc=example,dc=com" the search succeeds and the attribute is
    there, but the value does not match the pattern: the [AttributeError]
    of [None.group] is not the [IndexError] the function catches, and it
    leaves [groups_user]. *)
Theorem groups_user_fails_after_successful_search :
  sr_ok (groups_search_result Example.conf
           (Example.directory (Some ["ou=Staff,dc=example,dc=com"]) [])
           example_conn "dc=example,dc=com" "objectClass=person" "uid" "bob")
  = true
  /\ outcome
       (groups_user Example.conf
          (Example.directory (Some ["ou=Staff,dc=example,dc=com"]) [])
          example_conn "dc=example,dc=com" "objectClass=person" "uid" "bob")
     = Raise (AttributeError "'NoneType' object has no attribute 'group'").
Proof. split; vm_compute; reflexivity. Qed.

(** ** Construction of the user object *)

Lemma outcome_bind_Return {A B} (m : M A) (k : A -> M B) b :
  outcome (bind m k) = Return b ->
  exists a, outcome m = Return a /\ outcome (k a) = Return b.
Proof.
  rewrite outcome_bind. destruct (outcome m) as [a|e]; [|discriminate].
  intros H. exists a. auto.
Qed.

Lemma filter_lookup conf key :
  try_except (v <- conf_get conf "ldap" key ;; ret (Some v))
    is_AirflowConfigException (fun _ => ret None)
  = ret (ldap_option conf key).
Proof.
  rewrite conf_get_ldap. now destruct (ldap_option conf key).
Qed.

Lemma LdapUser_init_eq conf d user :
  LdapUser_init conf d user
  = (bind_user <- conf_get conf "ldap" "bind_user" ;;
     bind_password <- conf_get conf "ldap" "bind_password" ;;
     conn <- get_ldap_connection conf d bind_user bind_password ;;
     init_with_connection conf d conn user).
Proof.
  unfold LdapUser_init, init_with_connection.
  apply bind_ext; intros bu. apply bind_ext; intros bp.
  apply bind_ext; intros conn.
  rewrite filter_lookup, bind_ret_l.
  apply bind_ext; intros superuser.
  rewrite filter_lookup, bind_ret_l.
  reflexivity.
Qed.

Lemma LdapUser_init_returns conf d user u :
  outcome (LdapUser_init conf d user) = Return u ->
  exists bu bp conn superuser data_profiler groups,
    ldap_option conf "bind_user" = Some bu
    /\ ldap_option conf "bind_password" = Some bp
    /\ outcome (get_ldap_connection conf d bu bp) = Return conn
    /\ outcome (resolve_flag conf d conn
                  "Missing configuration for superuser settings or empty. Skipping."
                  (ldap_option conf "superuser_filter") user) = Return superuser
    /\ outcome (resolve_flag conf d conn
                  "Missing configuration for data profiler settings or empty. Skipping."
                  (ldap_option conf "data_profiler_filter") user) = Return data_profiler
    /\ u = mkLdapUser user groups superuser data_profiler.
Proof.
  rewrite LdapUser_init_eq. intros H.
  apply outcome_bind_Return in H as (bu & Hbu & H).
  apply outcome_bind_Return in H as (bp & Hbp & H).
  apply outcome_bind_Return in H as (conn & Hconn & H).
  unfold init_with_connection in H.
  apply outcome_bind_Return in H as (su & Hsu & H).
  apply outcome_bind_Return in H as (dp & Hdp & H).
  apply outcome_bind_Return in H as (groups & Hgroups & H).
  exists bu, bp, conn, su, dp, groups.
  rewrite conf_get_ldap in Hbu, Hbp.
  destruct (ldap_option conf "bind_user"); [|discriminate].
  destruct (ldap_option conf "bind_password"); [|discriminate].
  injection Hbu as ->. injection Hbp as ->. injection H as <-.
  repeat split; assumption.
Qed.

Lemma connection_attempt_returns d s dn password conn :
  outcome (connection_attempt d s dn password) = Return conn ->
  conn = mkConnection (server_of s) dn password.
Proof.
  unfold connection_attempt.
  destruct (ldap_bind d (server_of s) dn password); [|discriminate].
  intros H. now injection H as <-.
Qed.

Lemma resolve_flag_skipped conf d conn skipping filter_option user b :
  opt_truthy filter_option = false ->
  outcome (resolve_flag conf d conn skipping filter_option user) = Return b ->
  b = true.
Proof.
  unfold resolve_flag, opt_truthy.
  destruct filter_option as [f|]; [intros ->|intros _]; simpl;
    intros H; now injection H as <-.
Qed.

(** ldap3 refuses the filter that [group_contains_user] builds from an
    empty group filter *)
Lemma group_contains_user_empty_filter d conn search_base user_name_attr username :
  outcome (group_contains_user d conn search_base "" user_name_attr username)
  = Raise LDAPInvalidFilterError.
Proof. now rewrite group_contains_user_eq. Qed.

(** C4. When [superuser_filter] is not set, every user object that is
    constructed has [is_superuser] true, whatever the directory says.
    When it is set, [is_superuser] is what [group_contains_user] reports
    for that filter, called as the constructor calls it (with the
    connection of the service account, the base and the user attribute of
    the configuration): false when it reports that the user is not a
    member.  For the empty filter [group_contains_user] reports nothing,
    its search is refused; the constructor does not call it then, and
    [is_superuser] is true. *)
Theorem is_superuser_resolution conf d user u :
  outcome (LdapUser_init conf d user) = Return u ->
  (ldap_option conf "superuser_filter" = None -> is_superuser u = true)
  /\ (forall filter bu bp t conn basedn attr b,
        ldap_option conf "superuser_filter" = Some filter ->
        ldap_option conf "bind_user" = Some bu ->
        ldap_option conf "bind_password" = Some bp ->
        get_ldap_connection conf d bu bp = (t, Return conn) ->
        ldap_option conf "basedn" = Some basedn ->
        ldap_option conf "user_name_attr" = Some attr ->
        outcome (group_contains_user d conn basedn filter attr (username user))
        = Return b ->
        is_superuser u = b)
  /\ (ldap_option conf "superuser_filter" = Some "" -> is_superuser u = true).
Proof.
  intros H.
  apply LdapUser_init_returns in H
    as (bu' & bp' & conn' & su & dp & groups & Hbu & Hbp & Hconn & Hsu & _ & ->).
  unfold is_superuser. cbn [superuser]. split; [|split].
  - intros Hnone.
    apply (resolve_flag_skipped _ _ _ _ _ _ _ (f_equal opt_truthy Hnone) Hsu).
  - intros filter bu bp t conn basedn attr b Hfilter Hbu' Hbp' Hget Hbase Hattr Hgcu.
    rewrite Hbu in Hbu'. rewrite Hbp in Hbp'.
    injection Hbu' as ->. injection Hbp' as ->.
    rewrite Hget in Hconn. injection Hconn as <-.
    rewrite Hfilter in Hsu. unfold resolve_flag in Hsu.
    destruct (PyStr.truthy filter) eqn:Htruthy.
    + cbn [negb] in Hsu.
      repeat progress (rewrite ?conf_get_ldap, ?Hbase, ?Hattr, ?bind_ret_l in Hsu).
      congruence.
    + destruct filter; [|discriminate].
      rewrite group_contains_user_empty_filter in Hgcu. discriminate.
  - intros Hempty.
    apply (resolve_flag_skipped _ _ _ _ _ _ _ (f_equal opt_truthy Hempty) Hsu).
Qed.

Lemma is_superuser_resolution_witness :
  is_superuser (mkLdapUser Example.bob [] true true) = true
  /\ is_superuser (mkLdapUser Example.bob [] false true) = false
  /\ is_superuser (mkLdapUser Example.bob [] true true) = true.
Proof.
  split; [|split].
  - refine (proj1 (is_superuser_resolution (Example.without "superuser_filter")
                     (Example.directory None []) Example.bob
                     (mkLdapUser Example.bob [] true true) _) _);
      vm_compute; reflexivity.
  - refine (proj1 (proj2 (is_superuser_resolution Example.conf
                            (Example.directory None []) Example.bob
                            (mkLdapUser Example.bob [] false true) _))
              "cn=admins" "cn=Manager,dc=example,dc=com" "insecure" _ _
              "dc=example,dc=com" "uid" false _ _ _ _ _ _ _);
      vm_compute; reflexivity.
  - refine (proj2 (proj2 (is_superuser_resolution empty_filter_conf
                            (Example.directory None []) Example.bob
                            (mkLdapUser Example.bob [] true true) _)) _);
      vm_compute; reflexivity.
Defined.

Lemma outcome_try_except {A} (m : M A) handles handler :
  outcome (try_except m handles handler)
  = match outcome m with
    | Return a => Return a
    | Raise e => if handles e then outcome (handler e) else Raise e
    end.
Proof.
  unfold try_except. destruct (outcome m) as [a|e] eqn:E; [exact E|].
  destruct (handles e); [reflexivity | exact E].
Qed.

(** the outcome of [LdapUser.__init__] once the connection is held and the
    two flags are resolved: that of the lookup of the groups *)
Lemma LdapUser_init_groups_step conf d user bu bp t conn su dp :
  ldap_option conf "bind_user" = Some bu ->
  ldap_option conf "bind_password" = Some bp ->
  get_ldap_connection conf d bu bp = (t, Return conn) ->
  outcome (resolve_flag conf d conn
             "Missing configuration for superuser settings or empty. Skipping."
             (ldap_option conf "superuser_filter") user) = Return su ->
  outcome (resolve_flag conf d conn
             "Missing configuration for data profiler settings or empty. Skipping."
             (ldap_option conf "data_profiler_filter") user) = Return dp ->
  outcome (LdapUser_init conf d user)
  = match outcome (groups_lookup conf d conn user) with
    | Return groups => Return (mkLdapUser user groups su dp)
    | Raise e =>
        if is_AirflowConfigException e
        then Return (mkLdapUser user [] su dp)
        else Raise e
    end.
Proof.
  intros Hbu Hbp Hconn Hsu Hdp.
  rewrite LdapUser_init_eq, !conf_get_ldap, Hbu, Hbp, !bind_ret_l, Hconn.
  rewrite bind_return, outcome_after. unfold init_with_connection.
  rewrite outcome_bind, Hsu, outcome_bind, Hdp, outcome_bind, outcome_try_except.
  destruct (outcome (groups_lookup conf d conn user)) as [groups|e]; [reflexivity|].
  now destruct (is_AirflowConfigException e).
Qed.

(** C10. While the user object is constructed, an exception of the lookup
    of the groups is caught only if it is a missing-configuration
    exception, and the list of groups is then left empty; any other
    exception leaves the constructor.  So when the search of the lookup
    reports failure the constructor raises
    [AuthenticationError("Invalid username or password")]: constructing
    the object can fail for a user who logged in successfully. *)
Theorem ldap_groups_lookup_errors conf d user bu bp t conn su dp :
  ldap_option conf "bind_user" = Some bu ->
  ldap_option conf "bind_password" = Some bp ->
  get_ldap_connection conf d bu bp = (t, Return conn) ->
  outcome (resolve_flag conf d conn
             "Missing configuration for superuser settings or empty. Skipping."
             (ldap_option conf "superuser_filter") user) = Return su ->
  outcome (resolve_flag conf d conn
             "Missing configuration for data profiler settings or empty. Skipping."
             (ldap_option conf "data_profiler_filter") user) = Return dp ->
  (forall e,
     outcome (groups_lookup conf d conn user) = Raise e ->
     is_AirflowConfigException e = true ->
     outcome (LdapUser_init conf d user) = Return (mkLdapUser user [] su dp))
  /\ (forall e,
        outcome (groups_lookup conf d conn user) = Raise e ->
        is_AirflowConfigException e = false ->
        outcome (LdapUser_init conf d user) = Raise e)
  /\ (forall basedn user_filter user_name_attr,
        ldap_option conf "basedn" = Some basedn ->
        ldap_option conf "user_filter" = Some user_filter ->
        ldap_option conf "user_name_attr" = Some user_name_attr ->
        sr_ok (groups_search_result conf d conn basedn user_filter user_name_attr
                 (username user)) = false ->
        outcome (LdapUser_init conf d user)
        = Raise (AuthenticationError "Invalid username or password"))
  /\ (outcome (try_login Example.conf (Example.directory None []) "bob" "correct")
      = Return tt
      /\ outcome (LdapUser_init Example.conf directory_after_removal Example.bob)
         = Raise (AuthenticationError "Invalid username or password")).
Proof.
  intros Hbu Hbp Hconn Hsu Hdp.
  rewrite (LdapUser_init_groups_step _ _ _ _ _ _ _ _ _ Hbu Hbp Hconn Hsu Hdp).
  split; [|split; [|split]].
  - intros e -> ->. reflexivity.
  - intros e -> ->. reflexivity.
  - intros basedn user_filter user_name_attr Hbase Hfilter Hattr Hfail.
    unfold groups_lookup.
    rewrite !conf_get_ldap, Hbase, Hfilter, Hattr, !bind_ret_l.
    assert (E : outcome (groups_user conf d conn basedn user_filter user_name_attr
                           (username user))
                = Raise (AuthenticationError "Invalid username or password"))
      by (apply groups_user_authentication_error; auto).
    rewrite E. reflexivity.
  - split; vm_compute; reflexivity.
Qed.

Lemma ldap_groups_lookup_errors_witness :
  outcome (LdapUser_init (Example.without "user_filter")
             (Example.directory None []) Example.bob)
  = Return (mkLdapUser Example.bob [] false true)
  /\ outcome (LdapUser_init Example.conf directory_after_removal Example.bob)
     = Raise (AuthenticationError "Invalid username or password").
Proof.
  split.
  - refine (proj1 (ldap_groups_lookup_errors (Example.without "user_filter")
                     (Example.directory None []) Example.bob
                     "cn=Manager,dc=example,dc=com" "insecure"
                     [Bind example_conn true] example_conn false true
                     _ _ _ _ _)
              (AirflowConfigException "ldap" "user_filter") _ _);
      vm_compute; reflexivity.
  - refine (proj1 (proj2 (proj2
              (ldap_groups_lookup_errors Example.conf directory_after_removal
                 Example.bob "cn=Manager,dc=example,dc=com" "insecure"
                 [Bind example_conn true] example_conn false true
                 _ _ _ _ _)))
              "dc=example,dc=com" "objectClass=person" "uid" _ _ _ _);
      vm_compute; reflexivity.
Defined.

(** ** What [get_ldap_connection] returns and raises *)

(** X1. Every connection that [get_ldap_connection] returns uses SSL with
    required certificate validation; its host, CA file and schema hint are
    the configured [uri], [cacert] and [search_scope]; and it was bound
    once, successfully. *)
Theorem get_ldap_connection_returns_secured conf d dn password t conn :
  get_ldap_connection conf d dn password = (t, Return conn) ->
  use_ssl (server conn) = true
  /\ validate_cert_required (tls (server conn)) = true
  /\ ldap_option conf "uri" = Some (host (server conn))
  /\ ldap_option conf "cacert" = Some (ca_certs_file (tls (server conn)))
  /\ ldap_option conf "search_scope" = Some (get_info (server conn))
  /\ bind_results t = [true].
Proof.
  intros H.
  destruct (get_ldap_connection_cases conf d dn password)
    as [(t' & e & E & _) | (s & (Huri & Hca & Hscope & Hims) & E)];
    rewrite E in H; [discriminate|].
  unfold connection_attempt in H.
  destruct (ldap_bind d (server_of s) dn password); [|discriminate].
  injection H as <- <-. simpl. repeat split; try assumption.
  unfold schema_events. now destruct (PyStr.truthy _).
Qed.

Lemma get_ldap_connection_returns_secured_witness :
  use_ssl (server_of example_settings) = true
  /\ ldap_option Example.conf "cacert" = Some "/etc/ca/ldap_ca.crt".
Proof.
  destruct (get_ldap_connection_returns_secured Example.conf
              (Example.directory None []) "cn=Manager,dc=example,dc=com" "insecure"
              [Bind example_conn true] example_conn)
    as (Hssl & _ & _ & Hca & _); [vm_compute; reflexivity|].
  split; [exact Hssl | exact Hca].
Defined.

Lemma get_ldap_connection_raises conf d dn password e :
  outcome (get_ldap_connection conf d dn password) = Raise e ->
  connection_error e.
Proof.
  unfold get_ldap_connection. rewrite !conf_get_ldap.
  destruct (ldap_option conf "cacert") as [ca|];
  destruct (ldap_option conf "ignore_malformed_schema") as [ims|];
  destruct (ldap_option conf "search_scope") as [scope|];
  destruct (ldap_option conf "uri") as [u|];
  unfold bind, try_except; simpl;
  try (destruct (PyStr.truthy ims); simpl);
  try (destruct (ldap_bind d _ dn password); simpl);
  intros H; try discriminate; injection H as <-; unfold connection_error; eauto.
Qed.

(** ** Exceptions over the structure of a computation *)

Lemma Raise_bind {A B} (P : Exn -> Prop) (m : M A) (k : A -> M B) e :
  (forall e, outcome m = Raise e -> P e) ->
  (forall a e, outcome (k a) = Raise e -> P e) ->
  outcome (bind m k) = Raise e -> P e.
Proof.
  intros Hm Hk. rewrite outcome_bind.
  destruct (outcome m) as [a|e']; [apply Hk|].
  intros H. injection H as <-. now apply Hm.
Qed.

Lemma Raise_try_except {A} (P : Exn -> Prop) (m : M A) handles handler e :
  (forall e, outcome m = Raise e -> handles e = false -> P e) ->
  (forall e' e, outcome m = Raise e' -> handles e' = true ->
                outcome (handler e') = Raise e -> P e) ->
  outcome (try_except m handles handler) = Raise e -> P e.
Proof.
  intros Hm Hh. rewrite outcome_try_except.
  destruct (outcome m) as [a|e'] eqn:E; [discriminate|].
  destruct (handles e') eqn:He; [now apply Hh|].
  intros H. injection H as <-. now apply Hm.
Qed.

Lemma Raise_conf_get conf key e :
  outcome (conf_get conf "ldap" key) = Raise e ->
  e = AirflowConfigException "ldap" key.
Proof.
  rewrite conf_get_ldap. destruct (ldap_option conf key); [discriminate|].
  intros H. now injection H as <-.
Qed.

Lemma Raise_ret {A} (P : Exn -> Prop) (a : A) e : outcome (ret a) = Raise e -> P e.
Proof. discriminate. Qed.

Lemma Raise_emit (P : Exn -> Prop) ev e : outcome (emit ev) = Raise e -> P e.
Proof. discriminate. Qed.

Lemma Raise_log (P : Exn -> Prop) lvl msg e : outcome (log lvl msg) = Raise e -> P e.
Proof. discriminate. Qed.

Lemma Raise_raise {A} (P : Exn -> Prop) e0 e :
  P e0 -> outcome (@raise A e0) = Raise e -> P e.
Proof. intros H0 H. now injection H as <-. Qed.

Lemma Raise_conn_search_conjunction (P : Exn -> Prop) d conn b a rest sc attrs e :
  outcome (conn_search d conn b ("(&(" +:+ a +:+ ")(" +:+ rest) sc attrs) = Raise e ->
  P e.
Proof.
  rewrite conn_search_eq by apply malformed_filter_conjunction. discriminate.
Qed.

Lemma Raise_conn_search (P : Exn -> Prop) d conn b f sc attrs e :
  P LDAPInvalidFilterError ->
  outcome (conn_search d conn b f sc attrs) = Raise e -> P e.
Proof.
  intros HP. rewrite conn_search_cases. cbn [outcome snd].
  destruct (malformed_filter f); [|discriminate].
  intros H. now injection H as <-.
Qed.

(** proves [outcome m = Raise e -> P e] along the structure of [m], leaving
    the exceptions raised to be checked *)
Ltac raise_steps P known :=
  repeat first
    [ known
    | apply (Raise_ret P) | apply (Raise_emit P) | apply (Raise_log P)
    | apply (Raise_conn_search_conjunction P)
    | apply (Raise_conn_search P)
    | apply (Raise_raise P)
    | apply (Raise_bind P); [intros ? | intros ? ?]
    | apply (Raise_try_except P);
        [ let H := fresh in let Hh := fresh in intros ? H Hh; revert H
        | intros ? ? ? ? ]
    | match goal with
      | |- outcome (if ?b then _ else _) = _ -> _ => destruct b
      | |- outcome (match ?o with _ => _ end) = _ -> _ => destruct o
      end
    | progress unfold response_0, item_attributes, attrs_get, getattr_values,
        Regex.group_1 ].

(** no exception of [get_ldap_connection] is a [KeyError], so the handler
    of [try_login] that raises [LdapException] is never run *)
Lemma try_login_raises conf d username password e :
  outcome (try_login conf d username password) = Raise e ->
  forall msg, e <> LdapException msg.
Proof.
  set (P := fun e : Exn => forall msg, e <> LdapException msg).
  revert e.
  assert (Hconn : forall dn pw e, outcome (get_ldap_connection conf d dn pw) = Raise e -> P e).
  { intros dn pw e' He msg.
    destruct (get_ldap_connection_raises _ _ _ _ _ He)
      as [(n & ->) | [(k & ->) | ->]]; discriminate. }
  assert (Hget : forall key e, outcome (conf_get conf "ldap" key) = Raise e -> P e).
  { intros key e' He msg. rewrite (Raise_conf_get _ _ _ He). discriminate. }
  intros e. unfold try_login.
  raise_steps P ltac:(first [apply Hget | apply Hconn]).
  all: try (intros msg; discriminate).
  exfalso.
  match goal with
  | H : outcome (get_ldap_connection _ _ _ _) = Raise ?e,
    H0 : is_KeyError ?e = true |- _ =>
      destruct (get_ldap_connection_raises _ _ _ _ _ H)
        as [(n & ->) | [(k & ->) | ->]]; discriminate
  end.
Qed.

(** ** When a login succeeds *)

(** X3. Under complete settings [try_login] returns exactly when the
    service account binds, the search for the user succeeds, the first
    entry of the response has a DN, and the bind with that DN and the
    supplied password succeeds. *)
Theorem try_login_succeeds_iff conf d s username password :
  configured conf s ->
  let res := ldap_search d (service_conn s) (basedn s)
               (user_search_filter s username) (scope_of s) None in
  outcome (try_login conf d username password) = Return tt
  <-> ldap_bind d (server_of s) (bind_user s) (bind_password s) = true
      /\ sr_ok res = true
      /\ exists entry rest entry_dn,
           sr_response res = entry :: rest
           /\ r_dn entry = Some entry_dn
           /\ ldap_bind d (server_of s) entry_dn password = true.
Proof.
  intros Hc res. rewrite (try_login_configured _ _ _ _ _ Hc).
  destruct (ldap_bind d (server_of s) (bind_user s) (bind_password s)) eqn:Hsvc.
  2: { rewrite (login_attempt_service_refused _ _ _ _ Hsvc).
       split; [discriminate | intros [H _]; discriminate]. }
  rewrite (login_attempt_service_bound _ _ _ _ Hsvc), !outcome_after.
  fold res. unfold login_with_result.
  destruct (sr_ok res); simpl negb; cbv iota.
  2: { split; [discriminate | intros (_ & H & _); discriminate]. }
  destruct (sr_response res) as [|entry rest]; simpl.
  { split; [discriminate | intros (_ & _ & e & r & dn & H & _); discriminate]. }
  destruct (r_dn entry) as [entry_dn|] eqn:Hdn.
  2: { split; [discriminate|].
       intros (_ & _ & e & r & dn & H & Hdn' & _).
       injection H as <- <-. congruence. }
  rewrite outcome_bind. unfold connection_attempt.
  destruct (ldap_bind d (server_of s) entry_dn password) eqn:Huser; simpl.
  - split; [|reflexivity]. intros _. repeat split.
    exists entry, rest, entry_dn. auto.
  - split; [discriminate|].
    intros (_ & _ & e & r & dn & H & Hdn' & Hb).
    injection H as <- <-. congruence.
Qed.

Lemma try_login_succeeds_iff_witness :
  outcome (try_login Example.conf (Example.directory None []) "bob" "correct")
  = Return tt.
Proof.
  apply (try_login_succeeds_iff Example.conf (Example.directory None [])
           example_settings "bob" "correct");
    [repeat split; vm_compute; reflexivity|].
  split; [reflexivity | split; [reflexivity|]].
  exists (mkResponseItem (Some Example.bob_dn) (Some [])), [], Example.bob_dn.
  repeat split; reflexivity.
Defined.

(** ** How often the directory is asked *)

Lemma count_events_app p t1 t2 :
  count_events p (t1 ++ t2) = count_events p t1 + count_events p t2.
Proof. unfold count_events. now rewrite List.filter_app, length_app. Qed.

Lemma count_bind_le {A B} p (m : M A) (k : A -> M B) a b :
  count_events p (trace m) <= a ->
  (forall x, count_events p (trace (k x)) <= b) ->
  count_events p (trace (bind m k)) <= a + b.
Proof.
  intros Hm Hk. rewrite trace_bind, count_events_app.
  destruct (outcome m) as [x|e].
  - specialize (Hk x). lia.
  - simpl. unfold count_events at 2. simpl. lia.
Qed.

Lemma count_try_except_le {A} p (m : M A) handles handler a b :
  count_events p (trace m) <= a ->
  (forall e, count_events p (trace (handler e)) <= b) ->
  count_events p (trace (try_except m handles handler)) <= a + b.
Proof.
  intros Hm Hh. unfold try_except.
  destruct (outcome m) as [x|e]; [lia|].
  destruct (handles e); [|lia].
  rewrite trace_after, count_events_app. specialize (Hh e). lia.
Qed.

Lemma count_conf_get p conf section key n :
  count_events p (trace (conf_get conf section key)) <= n.
Proof. rewrite trace_conf_get. unfold count_events. simpl. lia. Qed.

Lemma count_get_ldap_connection conf d dn password :
  count_events is_bind (trace (get_ldap_connection conf d dn password)) <= 1
  /\ count_events is_search (trace (get_ldap_connection conf d dn password)) = 0
  /\ count_events is_unbind (trace (get_ldap_connection conf d dn password)) = 0.
Proof.
  unfold get_ldap_connection. rewrite !conf_get_ldap.
  destruct (ldap_option conf "cacert") as [ca|];
  destruct (ldap_option conf "ignore_malformed_schema") as [ims|];
  destruct (ldap_option conf "search_scope") as [scope|];
  destruct (ldap_option conf "uri") as [u|];
  unfold bind, try_except; simpl;
  try (destruct (PyStr.truthy ims); simpl);
  try (destruct (ldap_bind d _ dn password); simpl);
  unfold count_events; simpl; repeat split; lia.
Qed.

(** proves a bound on the number of selected events along the structure of
    the computation; [known] settles the calls of [get_ldap_connection] *)
Ltac count_steps known :=
  repeat first
    [ known
    | apply count_conf_get
    | match goal with
      | |- count_events _ (trace (bind ?m ?k)) <= ?n =>
          first
            [ apply (count_bind_le _ m k 0 n); [solve [count_steps known] | intros]
            | match n with
              | S ?n' =>
                  apply (count_bind_le _ m k 1 n'); [solve [count_steps known] | intros]
              end ]
      | |- count_events _ (trace (try_except ?m ?h ?k)) <= ?n =>
          first
            [ apply (count_try_except_le _ m h k 0 n);
                [solve [count_steps known] | intros]
            | match n with
              | S ?n' =>
                  apply (count_try_except_le _ m h k 1 n');
                    [solve [count_steps known] | intros]
              end ]
      | |- count_events _ (trace (if ?b then _ else _)) <= _ => destruct b
      | |- count_events _ (trace (match ?o with _ => _ end)) <= _ => destruct o
      end
    | progress unfold response_0, item_attributes, attrs_get, getattr_values,
        Regex.group_1
    | rewrite trace_conn_search
    | solve [unfold count_events; simpl; lia] ].

(** X4. A login attempt binds at most twice, searches at most once and
    unbinds at most once, whatever the configuration and the directory. *)
Theorem try_login_directory_use conf d username password :
  count_events is_bind (trace (try_login conf d username password)) <= 2
  /\ count_events is_search (trace (try_login conf d username password)) <= 1
  /\ count_events is_unbind (trace (try_login conf d username password)) <= 1.
Proof.
  pose proof (count_get_ldap_connection conf d) as Hc.
  unfold try_login. repeat split.
  - count_steps ltac:(apply Hc).
  - count_steps ltac:(idtac; match goal with
                      | |- count_events _ (trace (get_ldap_connection _ _ ?dn ?pw)) <= _ =>
                          destruct (Hc dn pw) as (_ & -> & _); lia
                      end).
  - count_steps ltac:(idtac; match goal with
                      | |- count_events _ (trace (get_ldap_connection _ _ ?dn ?pw)) <= _ =>
                          destruct (Hc dn pw) as (_ & _ & ->); lia
                      end).
Qed.

(** ** [group_contains_user]: one search *)

Lemma group_contains_user_trace_eq d conn search_base group_filter
    user_name_attr username :
  let search_filter := "(&(" +:+ group_filter +:+ "))" in
  trace (group_contains_user d conn search_base group_filter user_name_attr username)
  = Search conn search_base search_filter SUBTREE (Some [user_name_attr])
    :: match outcome (conn_search d conn search_base search_filter SUBTREE
                        (Some [user_name_attr])) with
       | Return res =>
           if sr_ok res then []
           else [Log WARNING ("Unable to find group for " +:+ search_base +:+ " "
                              +:+ search_filter)]
       | Raise _ => []
       end.
Proof.
  intros search_filter. rewrite group_contains_user_eq. cbv zeta.
  fold search_filter. rewrite trace_after, conn_search_cases.
  unfold search_filter. rewrite malformed_filter_group.
  destruct (PyStr.truthy group_filter); [|reflexivity].
  cbn [negb outcome snd].
  destruct (sr_ok _); simpl; [|reflexivity].
  now rewrite group_contains_user_loop_trace.
Qed.

(** X5. [group_contains_user] asks the directory once: a subtree search
    under the base for the filter [(&(group_filter))], requesting the user
    attribute.  It logs one warning when the search reports failure and
    nothing otherwise; it never binds or unbinds. *)
Theorem group_contains_user_trace d conn search_base group_filter
    user_name_attr username :
  let search_filter := "(&(" +:+ group_filter +:+ "))" in
  trace (group_contains_user d conn search_base group_filter user_name_attr username)
  = Search conn search_base search_filter SUBTREE (Some [user_name_attr])
    :: match outcome (conn_search d conn search_base search_filter SUBTREE
                        (Some [user_name_attr])) with
       | Return res =>
           if sr_ok res then []
           else [Log WARNING ("Unable to find group for " +:+ search_base +:+ " "
                              +:+ search_filter)]
       | Raise _ => []
       end.
Proof. apply group_contains_user_trace_eq. Qed.

Lemma group_contains_user_counts d conn search_base group_filter
    user_name_attr username :
  count_events is_search
    (trace (group_contains_user d conn search_base group_filter user_name_attr username))
  = 1
  /\ count_events is_bind
       (trace (group_contains_user d conn search_base group_filter user_name_attr
                 username)) = 0
  /\ count_events is_unbind
       (trace (group_contains_user d conn search_base group_filter user_name_attr
                 username)) = 0.
Proof.
  rewrite group_contains_user_trace_eq. cbv zeta.
  destruct (outcome _) as [res|e]; [destruct (sr_ok res)|];
    unfold count_events; simpl; repeat split; reflexivity.
Qed.

(** ** [groups_user]: failures and results *)

(** X8. [groups_user] raises [AuthenticationError] exactly when its search
    reports failure, and then with the message "Invalid username or
    password"; every other failure is another exception. *)
Theorem groups_user_authentication_error_iff conf d conn search_base user_filter
    user_name_att username msg :
  outcome (groups_user conf d conn search_base user_filter user_name_att username)
  = Raise (AuthenticationError msg)
  <-> sr_ok (groups_search_result conf d conn search_base user_filter
               user_name_att username) = false
      /\ msg = "Invalid username or password".
Proof. apply groups_user_authentication_error. Qed.

Lemma groups_user_authentication_error_iff_witness :
  outcome (groups_user Example.conf directory_after_removal example_conn
             "dc=example,dc=com" "objectClass=person" "uid" "bob")
  = Raise (AuthenticationError "Invalid username or password").
Proof.
  apply (proj2 (groups_user_authentication_error_iff Example.conf
                  directory_after_removal example_conn "dc=example,dc=com"
                  "objectClass=person" "uid" "bob" "Invalid username or password")).
  split; vm_compute; reflexivity.
Defined.



(** X10. When the search succeeds and the first item of the response holds
    no attributes (a search-result reference), [groups_user] raises
    [KeyError]. *)
Theorem groups_user_reference_first conf d conn search_base user_filter
    user_name_att username item rest :
  let res := groups_search_result conf d conn search_base user_filter
               user_name_att username in
  sr_ok res = true -> sr_response res = item :: rest ->
  r_attributes item = None ->
  outcome (groups_user conf d conn search_base user_filter user_name_att username)
  = Raise (KeyError "attributes").
Proof.
  intros res Hok Hresp Hattrs. rewrite groups_user_eq, outcome_after. fold res.
  unfold groups_of_result, item_attributes. rewrite Hok, Hresp, Hattrs.
  reflexivity.
Qed.

Lemma groups_user_reference_first_witness :
  outcome
    (groups_user Example.conf referring_directory example_conn
       "dc=example,dc=com" "objectClass=person" "uid" "bob")
  = Raise (KeyError "attributes").
Proof.
  apply (groups_user_reference_first Example.conf referring_directory example_conn
           "dc=example,dc=com" "objectClass=person" "uid" "bob"
           (mkResponseItem None None) []); reflexivity.
Defined.

Lemma not_comma_run_no_comma s : PyStr.has_comma (Regex.not_comma_run s) = false.
Proof.
  induction s as [|a s IH]; [reflexivity|]. simpl.
  destruct (Ascii.eqb a PyStr.comma) eqn:E; [reflexivity|].
  simpl. now rewrite E.
Qed.

Lemma search_no_comma s g : Regex.search s = Some g -> PyStr.has_comma g = false.
Proof.
  induction s as [|a s IH]; [discriminate|].
  change (Regex.search (String a s))
    with (match Regex.match_here (String a s) with
          | Some m => Some m
          | None => Regex.search s
          end).
  destruct (Regex.match_here (String a s)) as [m|] eqn:E; [|exact IH].
  intros H. injection H as <-. unfold Regex.match_here in E.
  destruct s as [|b [|c rest]]; try discriminate.
  destruct (Regex.is_cn_eq a b c); [|discriminate].
  injection E as <-. apply not_comma_run_no_comma.
Qed.

Lemma groups_comprehension_returns user_groups groups :
  outcome (groups_comprehension user_groups) = Return groups ->
  map Regex.search user_groups = map Some groups.
Proof.
  revert groups. induction user_groups as [|i rest IH]; intros groups.
  - intros H. now injection H as <-.
  - rewrite groups_comprehension_cons.
    destruct (Regex.search i) as [g|] eqn:Hi; unfold Regex.group_1; [|discriminate].
    rewrite bind_ret_l, outcome_bind.
    destruct (outcome (groups_comprehension rest)) as [gs|] eqn:E; [|discriminate].
    intros H. injection H as <-. simpl. now rewrite Hi, (IH gs eq_refl).
Qed.

Lemma searched_no_comma user_groups groups :
  map Regex.search user_groups = map Some groups ->
  Forall (fun g => PyStr.has_comma g = false) groups.
Proof.
  revert groups. induction user_groups as [|i ug IH]; intros [|g gs] Hmap;
    try discriminate; constructor; simpl in Hmap; injection Hmap as Hi Hrest.
  - now apply (search_no_comma i).
  - now apply IH.
Qed.

(** X11. Whenever [groups_user] returns, the names it returns hold no
    comma, and when the first entry holds the membership attribute there
    is one name per value, each the group 1 of the search of the pattern
    in that value. *)
Theorem groups_user_returns conf d conn search_base user_filter user_name_att
    username groups :
  outcome (groups_user conf d conn search_base user_filter user_name_att username)
  = Return groups ->
  Forall (fun g => PyStr.has_comma g = false) groups
  /\ forall item rest attrs user_groups,
       sr_response (groups_search_result conf d conn search_base user_filter
                      user_name_att username) = item :: rest ->
       r_attributes item = Some attrs ->
       assoc (group_member_attr_of conf) attrs = Some user_groups ->
       map Regex.search user_groups = map Some groups.
Proof.
  rewrite groups_user_eq, outcome_after.
  set (res := groups_search_result _ _ _ _ _ _ _).
  intros H.
  assert (Hok : sr_ok res = true).
  { destruct (sr_ok res) eqn:E; [reflexivity|].
    unfold groups_of_result in H. rewrite E in H. discriminate. }
  destruct (sr_response res) as [|item rest] eqn:Hresp.
  { unfold groups_of_result in H. rewrite Hok, Hresp in H. discriminate. }
  destruct (r_attributes item) as [attrs|] eqn:Hattrs.
  2: { unfold groups_of_result, item_attributes in H.
       rewrite Hok, Hresp, Hattrs in H. discriminate. }
  destruct (assoc (group_member_attr_of conf) attrs) as [user_groups|] eqn:Hgroups.
  2: { unfold groups_of_result, item_attributes in H.
       rewrite Hok, Hresp, Hattrs in H. simpl negb in H. cbv iota in H.
       rewrite bind_ret_l, Hgroups in H. injection H as <-.
       split; [constructor|].
       intros item' rest' attrs' ug' Hr Ha Hg.
       injection Hr as <- <-. congruence. }
  rewrite (groups_of_result_found _ _ _ _ _ _ _ Hok Hresp Hattrs Hgroups) in H.
  rewrite outcome_try_except in H.
  destruct (outcome (groups_comprehension user_groups)) as [gs|e] eqn:E.
  - injection H as <-. pose proof (groups_comprehension_returns _ _ E) as Hmap.
    split.
    + exact (searched_no_comma _ _ Hmap).
    + intros item' rest' attrs' ug' Hr Ha Hg.
      injection Hr as <- <-. congruence.
  - rewrite (groups_comprehension_raises _ _ E) in H. discriminate.
Qed.

Lemma groups_user_returns_witness :
  Forall (fun g => PyStr.has_comma g = false) ["Admins"; "Data Team"].
Proof.
  apply (groups_user_returns Example.conf
           (Example.directory
              (Some ["cn=Admins,ou=Groups,dc=example,dc=com";
                     "CN=Data Team,ou=Groups,dc=example,dc=com"]) [])
           example_conn "dc=example,dc=com" "objectClass=person" "uid" "bob").
  vm_compute. reflexivity.
Defined.

Lemma groups_comprehension_handler_dead user_groups handler :
  try_except (groups_comprehension user_groups) is_IndexError handler
  = groups_comprehension user_groups.
Proof.
  apply try_except_not_handled. intros e He.
  now rewrite (groups_comprehension_raises _ _ He).
Qed.

Lemma groups_user_trace_facts conf d conn search_base user_filter
    user_name_att username :
  ~ In parsing_error_log
       (trace (groups_user conf d conn search_base user_filter user_name_att username))
  /\ count_events is_search
       (trace (groups_user conf d conn search_base user_filter user_name_att username))
     = 1
  /\ count_events is_bind
       (trace (groups_user conf d conn search_base user_filter user_name_att username))
     = 0
  /\ count_events is_unbind
       (trace (groups_user conf d conn search_base user_filter user_name_att username))
     = 0.
Proof.
  rewrite groups_user_eq, trace_after.
  set (res := groups_search_result _ _ _ _ _ _ _).
  set (attr := group_member_attr_of conf).
  assert (Ht : exists lvl msg,
             Log lvl msg <> parsing_error_log
             /\ (trace (groups_of_result attr username res) = []
                 \/ trace (groups_of_result attr username res) = [Log lvl msg])).
  { destruct (sr_ok res) eqn:Hok.
    2: { unfold groups_of_result. rewrite Hok.
         eexists _, _. split; [|right; reflexivity]. discriminate. }
    destruct (sr_response res) as [|item rest] eqn:Hresp.
    { unfold groups_of_result. rewrite Hok, Hresp.
      exists INFO, "". split; [discriminate | now left]. }
    destruct (r_attributes item) as [attrs|] eqn:Hattrs.
    2: { unfold groups_of_result, item_attributes. rewrite Hok, Hresp, Hattrs.
         exists INFO, "". split; [discriminate | now left]. }
    destruct (assoc attr attrs) as [ug|] eqn:Hug.
    2: { unfold groups_of_result, item_attributes. rewrite Hok, Hresp, Hattrs.
         simpl negb. cbv iota. rewrite bind_ret_l, Hug.
         eexists _, _. split; [|right; reflexivity]. discriminate. }
    rewrite (groups_of_result_found _ _ _ _ _ _ _ Hok Hresp Hattrs Hug).
    rewrite groups_comprehension_handler_dead, groups_comprehension_trace.
    exists INFO, "". split; [discriminate | now left]. }
  destruct Ht as (lvl & msg & Hne & [-> | ->]); unfold groups_search_event;
    (split; [intros [H|H]; [discriminate | try destruct H as [H|[]]; try congruence;
                                           try destruct H]
            | unfold count_events; simpl; repeat split; reflexivity]).
Qed.

(** X12. The [except IndexError] handler of [groups_user] is never run: its
    warning is in no trace, whatever the configuration, the directory and
    the user; and [groups_user] performs exactly one search and no bind
    or unbind. *)
Theorem groups_user_handler_never_runs conf d conn search_base user_filter
    user_name_att username :
  ~ In parsing_error_log
       (trace (groups_user conf d conn search_base user_filter user_name_att username))
  /\ count_events is_search
       (trace (groups_user conf d conn search_base user_filter user_name_att username))
     = 1
  /\ count_events is_bind
       (trace (groups_user conf d conn search_base user_filter user_name_att username))
     = 0
  /\ count_events is_unbind
       (trace (groups_user conf d conn search_base user_filter user_name_att username))
     = 0.
Proof. apply groups_user_trace_facts. Qed.

(** ** Construction of the user object: the directory and the options *)

(** X13. An [LdapUser] is constructed with at most one bind, at most three
    searches and no unbind, whatever the configuration and the
    directory. *)
Theorem LdapUser_init_directory_use conf d user :
  count_events is_bind (trace (LdapUser_init conf d user)) <= 1
  /\ count_events is_search (trace (LdapUser_init conf d user)) <= 3
  /\ count_events is_unbind (trace (LdapUser_init conf d user)) <= 0.
Proof.
  pose proof (count_get_ldap_connection conf d) as Hc.
  pose proof (group_contains_user_counts d) as Hg.
  pose proof (groups_user_trace_facts conf d) as Hu.
  unfold LdapUser_init. repeat split.
  - count_steps ltac:(idtac; match goal with
      | |- count_events _ (trace (get_ldap_connection _ _ ?dn ?pw)) <= _ =>
          apply Hc
      | |- count_events _ (trace (group_contains_user _ ?c ?b ?f ?a ?u)) <= _ =>
          destruct (Hg c b f a u) as (_ & -> & _); lia
      | |- count_events _ (trace (groups_user _ _ ?c ?b ?f ?a ?u)) <= _ =>
          destruct (Hu c b f a u) as (_ & _ & -> & _); lia
      end).
  - count_steps ltac:(idtac; match goal with
      | |- count_events _ (trace (get_ldap_connection _ _ ?dn ?pw)) <= _ =>
          destruct (Hc dn pw) as (_ & -> & _); lia
      | |- count_events _ (trace (group_contains_user _ ?c ?b ?f ?a ?u)) <= _ =>
          destruct (Hg c b f a u) as (-> & _); lia
      | |- count_events _ (trace (groups_user _ _ ?c ?b ?f ?a ?u)) <= _ =>
          destruct (Hu c b f a u) as (_ & -> & _); lia
      end).
  - count_steps ltac:(idtac; match goal with
      | |- count_events _ (trace (get_ldap_connection _ _ ?dn ?pw)) <= _ =>
          destruct (Hc dn pw) as (_ & _ & ->); lia
      | |- count_events _ (trace (group_contains_user _ ?c ?b ?f ?a ?u)) <= _ =>
          destruct (Hg c b f a u) as (_ & _ & ->); lia
      | |- count_events _ (trace (groups_user _ _ ?c ?b ?f ?a ?u)) <= _ =>
          destruct (Hu c b f a u) as (_ & _ & _ & ->); lia
      end).
Qed.

(** X14. [data_profiling] follows the same rule as [is_superuser], with the
    option [data_profiler_filter]: true for every constructed user when
    the option is missing or empty, and otherwise the answer of
    [group_contains_user] for that filter. *)
Theorem data_profiling_resolution conf d user u :
  outcome (LdapUser_init conf d user) = Return u ->
  (opt_truthy (ldap_option conf "data_profiler_filter") = false ->
   data_profiling u = true)
  /\ (forall s filter b,
        configured conf s ->
        ldap_option conf "data_profiler_filter" = Some filter ->
        PyStr.truthy filter = true ->
        outcome (group_contains_user d (service_conn s) (basedn s) filter
                   (user_name_attr s) (username user)) = Return b ->
        data_profiling u = b).
Proof.
  intros H.
  apply LdapUser_init_returns in H
    as (bu & bp & conn & su & dp & groups & Hbu & Hbp & Hconn & _ & Hdp & ->).
  unfold data_profiling. cbn [data_profiler]. split.
  - intros Hskip. exact (resolve_flag_skipped _ _ _ _ _ _ _ Hskip Hdp).
  - intros s filter b Hc Hfilter Htruthy Hgcu.
    pose proof Hc as (_ & Hbu' & Hbp' & Hbase & _ & Hattr & _).
    rewrite Hbu in Hbu'. rewrite Hbp in Hbp'.
    injection Hbu' as ->. injection Hbp' as ->.
    rewrite (get_ldap_connection_settings _ _ _ _ _ (configured_connection _ _ Hc))
      in Hconn.
    apply connection_attempt_returns in Hconn. fold (service_conn s) in Hconn.
    subst conn. rewrite Hfilter in Hdp. unfold resolve_flag in Hdp.
    rewrite Htruthy in Hdp. simpl negb in Hdp. cbv iota in Hdp.
    repeat progress (rewrite ?conf_get_ldap, ?Hbase, ?Hattr, ?bind_ret_l in Hdp).
    congruence.
Qed.

Lemma data_profiling_resolution_witness :
  data_profiling (mkLdapUser Example.bob [] false true) = true
  /\ data_profiling (mkLdapUser Example.bob [] false false) = false.
Proof.
  split.
  - refine (proj1 (data_profiling_resolution Example.conf
                     (Example.directory None []) Example.bob
                     (mkLdapUser Example.bob [] false true) _) _);
      vm_compute; reflexivity.
  - refine (proj2 (data_profiling_resolution profilers_conf
                     (Example.directory None []) Example.bob
                     (mkLdapUser Example.bob [] false false) _)
              (mkSettings "ldaps://ldap.example.com:636"
                 "cn=Manager,dc=example,dc=com" "insecure" "dc=example,dc=com"
                 "objectClass=person" "uid" "/etc/ca/ldap_ca.crt" "LEVEL" "")
              "cn=profilers" false _ _ _ _);
      [vm_compute; reflexivity | repeat split; vm_compute; reflexivity
       | vm_compute; reflexivity ..].
Defined.

(** X15. A missing [basedn] is forgiven only when no filter is set: with
    both filters missing or empty the user object is constructed with no
    groups and both flags true, and no search is made; with a non-empty
    [superuser_filter] the constructor raises the
    [AirflowConfigException] of [basedn]. *)
Theorem LdapUser_init_without_basedn conf d user bu bp t conn :
  ldap_option conf "bind_user" = Some bu ->
  ldap_option conf "bind_password" = Some bp ->
  get_ldap_connection conf d bu bp = (t, Return conn) ->
  ldap_option conf "basedn" = None ->
  (opt_truthy (ldap_option conf "superuser_filter") = false ->
   opt_truthy (ldap_option conf "data_profiler_filter") = false ->
   outcome (LdapUser_init conf d user) = Return (mkLdapUser user [] true true)
   /\ count_events is_search (trace (LdapUser_init conf d user)) = 0)
  /\ (opt_truthy (ldap_option conf "superuser_filter") = true ->
      outcome (LdapUser_init conf d user)
      = Raise (AirflowConfigException "ldap" "basedn")).
Proof.
  intros Hbu Hbp Hconn Hbase.
  assert (Hskip : forall msg o, opt_truthy o = false ->
            resolve_flag conf d conn msg o user = ([Log DEBUG msg], Return true)).
  { intros msg [f|]; simpl; [|reflexivity]. unfold resolve_flag.
    intros ->. reflexivity. }
  assert (Hc : count_events is_search t = 0).
  { pose proof (count_get_ldap_connection conf d bu bp) as (_ & H & _).
    now rewrite Hconn in H. }
  rewrite LdapUser_init_eq, !conf_get_ldap, Hbu, Hbp, !bind_ret_l, Hconn, bind_return.
  unfold init_with_connection. split.
  - intros Hsu Hdp. rewrite (Hskip _ _ Hsu), bind_return, (Hskip _ _ Hdp), bind_return.
    unfold groups_lookup. rewrite conf_get_ldap, Hbase, bind_raise_l.
    unfold after. simpl. split; [reflexivity|].
    rewrite !count_events_app, Hc. reflexivity.
  - intros Hsu. destruct (ldap_option conf "superuser_filter") as [f|]; [|discriminate].
    simpl in Hsu. unfold resolve_flag. rewrite Hsu. simpl negb. cbv iota.
    rewrite conf_get_ldap, Hbase, !bind_raise_l. reflexivity.
Qed.

Lemma LdapUser_init_without_basedn_witness :
  outcome (LdapUser_init connection_only_conf (Example.directory None [])
             Example.bob)
  = Return (mkLdapUser Example.bob [] true true)
  /\ outcome (LdapUser_init (Example.without "basedn") (Example.directory None [])
                Example.bob)
     = Raise (AirflowConfigException "ldap" "basedn").
Proof.
  split.
  - refine (proj1 (proj1 (LdapUser_init_without_basedn connection_only_conf
                   (Example.directory None []) Example.bob
                   "cn=Manager,dc=example,dc=com" "insecure"
                   [Bind example_conn true] example_conn _ _ _ _) _ _));
      vm_compute; reflexivity.
  - refine (proj2 (LdapUser_init_without_basedn (Example.without "basedn")
                   (Example.directory None []) Example.bob
                   "cn=Manager,dc=example,dc=com" "insecure"
                   [Bind example_conn true] example_conn _ _ _ _) _);
      vm_compute; reflexivity.
Defined.

(** ** The exceptions of the construction of the user object *)

Lemma group_contains_user_raises d conn search_base group_filter user_name_attr
    username e :
  outcome (group_contains_user d conn search_base group_filter user_name_attr username)
  = Raise e ->
  e = LDAPInvalidFilterError.
Proof.
  rewrite group_contains_user_eq. cbv zeta. rewrite outcome_after.
  destruct (PyStr.truthy group_filter).
  - rewrite group_contains_user_loop_eq.
    destruct (negb (sr_ok _)); discriminate.
  - intros H. now injection H as <-.
Qed.

Lemma groups_user_raises conf d conn search_base user_filter user_name_att username e :
  outcome (groups_user conf d conn search_base user_filter user_name_att username)
  = Raise e ->
  forall msg, e <> LdapException msg.
Proof.
  rewrite groups_user_eq, outcome_after.
  set (res := groups_search_result _ _ _ _ _ _ _).
  set (attr := group_member_attr_of conf).
  destruct (sr_ok res) eqn:Hok.
  2: { unfold groups_of_result. rewrite Hok. intros H. injection H as <-.
       intros msg. discriminate. }
  destruct (sr_response res) as [|item rest] eqn:Hresp.
  { unfold groups_of_result. rewrite Hok, Hresp. intros H. injection H as <-.
    intros msg. discriminate. }
  destruct (r_attributes item) as [attrs|] eqn:Hattrs.
  2: { unfold groups_of_result, item_attributes. rewrite Hok, Hresp, Hattrs.
       intros H. injection H as <-. intros msg. discriminate. }
  destruct (assoc attr attrs) as [ug|] eqn:Hug.
  2: { unfold groups_of_result, item_attributes. rewrite Hok, Hresp, Hattrs.
       simpl negb. cbv iota. rewrite bind_ret_l, Hug. discriminate. }
  rewrite (groups_of_result_found _ _ _ _ _ _ _ Hok Hresp Hattrs Hug).
  rewrite groups_comprehension_handler_dead. intros H.
  rewrite (groups_comprehension_raises _ _ H). intros msg. discriminate.
Qed.

(** the construction of the user object never raises [LdapException] *)
Lemma LdapUser_init_raises conf d user e :
  outcome (LdapUser_init conf d user) = Raise e ->
  forall msg, e <> LdapException msg.
Proof.
  pose (P := fun e : Exn => forall msg, e <> LdapException msg).
  change (outcome (LdapUser_init conf d user) = Raise e -> P e).
  revert e.
  assert (Hconn : forall dn pw e, outcome (get_ldap_connection conf d dn pw) = Raise e -> P e).
  { intros dn pw e' He msg.
    destruct (get_ldap_connection_raises _ _ _ _ _ He)
      as [(n & ->) | [(k & ->) | ->]]; discriminate. }
  assert (Hget : forall key e, outcome (conf_get conf "ldap" key) = Raise e -> P e).
  { intros key e' He msg. rewrite (Raise_conf_get _ _ _ He). discriminate. }
  assert (Hgcu : forall c b f a u e,
            outcome (group_contains_user d c b f a u) = Raise e -> P e).
  { intros c b f a u e' He msg.
    rewrite (group_contains_user_raises _ _ _ _ _ _ _ He). discriminate. }
  assert (Hgu : forall c b f a u e,
            outcome (groups_user conf d c b f a u) = Raise e -> P e).
  { intros c b f a u e' He. exact (groups_user_raises _ _ _ _ _ _ _ _ He). }
  intros e. unfold LdapUser_init.
  raise_steps P ltac:(first [apply Hget | apply Hconn | apply Hgcu | apply Hgu]).
Qed.

(** ** The task id of a metric *)

Lemma append_assoc (s1 s2 s3 : string) : (s1 +:+ s2) +:+ s3 = s1 +:+ s2 +:+ s3.
Proof.
  induction s1 as [|a s1 IH]; [reflexivity|].
  change (String a ((s1 +:+ s2) +:+ s3) = String a (s1 +:+ s2 +:+ s3)).
  now rewrite IH.
Qed.

Lemma split_nonempty s : StatsHelper.split s <> [].
Proof.
  destruct s as [|a s]; simpl; [discriminate|].
  destruct (Ascii.eqb a "."%char); [discriminate|].
  destruct (StatsHelper.split s); discriminate.
Qed.

Lemma join_cons_char a piece pieces :
  StatsHelper.join (String a piece :: pieces)
  = String a (StatsHelper.join (piece :: pieces)).
Proof. destruct pieces; reflexivity. Qed.

Lemma join_split s : StatsHelper.join (StatsHelper.split s) = s.
Proof.
  induction s as [|a s IH]; [reflexivity|]. simpl.
  destruct (Ascii.eqb a "."%char) eqn:E.
  - apply Ascii.eqb_eq in E. subst a.
    destruct (StatsHelper.split s) as [|p ps] eqn:Hs;
      [now destruct (split_nonempty s)|].
    change (StatsHelper.join ("" :: p :: ps))
      with ("" +:+ "." +:+ StatsHelper.join (p :: ps)).
    now rewrite IH.
  - destruct (StatsHelper.split s) as [|p ps] eqn:Hs;
      [now destruct (split_nonempty s)|].
    now rewrite join_cons_char, IH.
Qed.

Lemma split_no_dot s : Forall (fun p => has_dot p = false) (StatsHelper.split s).
Proof.
  induction s as [|a s IH]; simpl; [repeat constructor|].
  destruct (Ascii.eqb a "."%char) eqn:E; [constructor; [reflexivity | exact IH]|].
  destruct (StatsHelper.split s) as [|p ps]; [repeat constructor; simpl; now rewrite E|].
  inversion IH as [|? ? Hp Hps]; subst. constructor; [|exact Hps].
  simpl. now rewrite E.
Qed.

Lemma split_unsnoc s : exists pieces piece, StatsHelper.split s = (pieces ++ [piece])%list.
Proof.
  destruct (StatsHelper.split s) as [|p ps] eqn:E using rev_ind;
    [now destruct (split_nonempty s)|].
  eauto.
Qed.

Lemma last_only_snoc {A} (l : list A) x : StatsHelper.last_only (l ++ [x]) = [x].
Proof.
  induction l as [|y l IH]; [reflexivity|]. simpl.
  destruct (l ++ [x])%list eqn:E; [now destruct l|]. exact IH.
Qed.

Lemma join_snoc pieces piece :
  pieces <> [] ->
  StatsHelper.join (pieces ++ [piece]) = StatsHelper.join pieces +:+ "." +:+ piece.
Proof.
  induction pieces as [|p ps IH]; [congruence|]. intros _.
  destruct ps as [|q ps]; [reflexivity|].
  change (StatsHelper.join ((p :: q :: ps) ++ [piece]))
    with (p +:+ "." +:+ StatsHelper.join ((q :: ps) ++ [piece])).
  rewrite IH by discriminate.
  change (StatsHelper.join (p :: q :: ps)) with (p +:+ "." +:+ StatsHelper.join (q :: ps)).
  now rewrite !append_assoc.
Qed.

Lemma has_dot_append s1 s2 : has_dot (s1 +:+ s2) = has_dot s1 || has_dot s2.
Proof.
  induction s1 as [|a s1 IH]; [reflexivity|]. simpl.
  now destruct (Ascii.eqb a "."%char).
Qed.

Lemma split_dotless s : has_dot s = false -> StatsHelper.split s = [s].
Proof.
  induction s as [|a s IH]; [reflexivity|]. simpl.
  destruct (Ascii.eqb a "."%char); [discriminate|].
  intros H. now rewrite (IH H).
Qed.

Lemma split_append_dot s1 s2 :
  StatsHelper.split (s1 +:+ "." +:+ s2)
  = (StatsHelper.split s1 ++ StatsHelper.split s2)%list.
Proof.
  induction s1 as [|a s1 IH]; [reflexivity|].
  change (String a s1 +:+ "." +:+ s2) with (String a (s1 +:+ "." +:+ s2)).
  simpl. rewrite IH.
  destruct (Ascii.eqb a "."%char); [reflexivity|].
  destruct (StatsHelper.split s1) as [|p ps] eqn:E;
    [now destruct (split_nonempty s1)|].
  reflexivity.
Qed.

(** X17. The prefix and the suffix that the helpers put in the tags of the
    second metric recompose the task id: the suffix holds no dot; a task
    id without a dot has the empty prefix and itself as suffix; a task id
    with a dot is the prefix, a dot and the suffix. *)
Theorem task_id_decomposition task_id :
  has_dot (StatsHelper.task_id_action task_id) = false
  /\ (has_dot task_id = false ->
      StatsHelper.task_id_entity task_id = ""
      /\ StatsHelper.task_id_action task_id = task_id)
  /\ (has_dot task_id = true ->
      task_id = StatsHelper.task_id_entity task_id +:+ "."
                +:+ StatsHelper.task_id_action task_id).
Proof.
  unfold StatsHelper.task_id_entity, StatsHelper.task_id_action, StatsHelper.but_last.
  destruct (split_unsnoc task_id) as (pieces & piece & Hs).
  pose proof (split_no_dot task_id) as Hd. pose proof (join_split task_id) as Hj.
  rewrite Hs in *. rewrite removelast_last, last_only_snoc.
  apply Forall_app in Hd as [_ Hd]. apply List.Forall_inv in Hd. rename Hd into Hp.
  change (StatsHelper.join [piece]) with piece.
  split; [exact Hp|].
  destruct pieces as [|p ps].
  - simpl in Hj. subst task_id. simpl. split; [auto | congruence].
  - rewrite join_snoc in Hj by discriminate. split.
    + intros H. rewrite <- Hj, !has_dot_append in H. simpl in H.
      rewrite orb_true_r in H. discriminate.
    + intros _. now rewrite Hj.
Qed.

Lemma task_id_decomposition_witness :
  StatsHelper.task_id_entity "run" = ""
  /\ "extract.load.run"
     = StatsHelper.task_id_entity "extract.load.run" +:+ "."
       +:+ StatsHelper.task_id_action "extract.load.run".
Proof.
  split.
  - apply (task_id_decomposition "run"). reflexivity.
  - apply (task_id_decomposition "extract.load.run"). reflexivity.
Defined.

(** X18. The helpers cut the task id at its last dot: for a task id made
    of a prefix, a dot and a suffix without a dot, both helpers report the
    metric a second time under [stat.by_task], tagged with the prefix, dots
    included, and with the suffix. *)
Theorem stats_helpers_cut_at_last_dot stat value dag_id prefix suffix :
  has_dot suffix = false ->
  StatsHelper.stats_incr_helper stat value dag_id (prefix +:+ "." +:+ suffix)
  = [ StatsHelper.Incr stat value 1 ["dag_id:" +:+ dag_id];
      StatsHelper.Incr (stat +:+ ".by_task") value 1
        [ "dag_id:" +:+ dag_id;
          "task_id_prefix:" +:+ prefix;
          "task_id_suffix:" +:+ suffix ] ]
  /\ StatsHelper.stats_gauge_helper stat value dag_id (prefix +:+ "." +:+ suffix)
     = [ StatsHelper.Gauge stat value 1 ["dag_id:" +:+ dag_id];
         StatsHelper.Gauge (stat +:+ ".by_task") value 1
           [ "dag_id:" +:+ dag_id;
             "task_id_prefix:" +:+ prefix;
             "task_id_suffix:" +:+ suffix ] ].
Proof.
  intros H.
  unfold StatsHelper.stats_incr_helper, StatsHelper.stats_gauge_helper,
    StatsHelper.task_id_entity, StatsHelper.task_id_action, StatsHelper.but_last.
  rewrite split_append_dot, (split_dotless _ H), removelast_last, last_only_snoc.
  change (StatsHelper.join [suffix]) with suffix.
  rewrite join_split. split; reflexivity.
Qed.

Lemma stats_helpers_cut_at_last_dot_witness :
  StatsHelper.stats_incr_helper "ti_failures" 1 "etl" "daily.orders.load"
  = [ StatsHelper.Incr "ti_failures" 1 1 ["dag_id:etl"];
      StatsHelper.Incr "ti_failures.by_task" 1 1
        [ "dag_id:etl"; "task_id_prefix:daily.orders"; "task_id_suffix:load" ] ].
Proof.
  apply (stats_helpers_cut_at_last_dot "ti_failures" 1 "etl" "daily.orders" "load").
  reflexivity.
Defined.

(** ** The login view *)

Lemma login_credentials_posted conf d site request username password :
  current_user_is_authenticated site = false ->
  credentials_posted request username password ->
  login conf d site request = login_posted conf d site request username password.
Proof.
  intros Hanon (Hm & Hv & Hu & Hp & Htu & Htp).
  unfold login. rewrite Hanon, Hm, Hv, Hu, Hp. simpl.
  rewrite Htu, Htp. reflexivity.
Qed.

(** the view asks nothing of the directory and of the session otherwise *)
Lemma login_without_credentials conf d site request :
  (current_user_is_authenticated site = true
   /\ login conf d site request
      = ([Flash "You are already logged in" "message"],
         Return (Redirect (UrlFor "admin.index"))))
  \/ (current_user_is_authenticated site = false
      /\ login conf d site request = ([], Return (Render "airflow/login.html")))
  \/ (current_user_is_authenticated site = false
      /\ exists username password, credentials_posted request username password).
Proof.
  unfold login, credentials_posted.
  destruct (current_user_is_authenticated site); [left; split; reflexivity|].
  right.
  destruct (String.eqb (method request) "POST") eqn:Hm; simpl;
    [|left; split; reflexivity].
  apply String.eqb_eq in Hm.
  destruct (form_validates request); simpl; [|left; split; reflexivity].
  destruct (form_username request) as [u|]; [|left; split; reflexivity].
  destruct (form_password request) as [p|]; [|left; split; reflexivity].
  destruct (PyStr.truthy u) eqn:Hu; simpl; [|left; split; reflexivity].
  destruct (PyStr.truthy p) eqn:Hp; simpl; [|left; split; reflexivity].
  right. split; [reflexivity|]. exists u, p. repeat split; assumption.
Qed.

Lemma wbind_return {A B} (m : W A) (k : A -> W B) a :
  snd m = Return a -> wbind m k = ((fst m ++ fst (k a))%list, snd (k a)).
Proof. intros H. unfold wbind. now rewrite H. Qed.

Lemma wbind_raise {A B} (m : W A) (k : A -> W B) e :
  snd m = Raise e -> wbind m k = (fst m, Raise e).
Proof. intros H. unfold wbind. now rewrite H. Qed.

Lemma login_posted_try_login_raises conf d site request username password e :
  outcome (try_login conf d username password) = Raise e ->
  login_posted conf d site request username password
  = if is_login_failure e
    then ((map OfBackend (trace (try_login conf d username password))
           ++ [failure_flash e])%list,
          Return (Render "airflow/login.html"))
    else (map OfBackend (trace (try_login conf d username password)), Raise e).
Proof.
  intros H. unfold login_posted.
  rewrite (wbind_raise (lift (try_login conf d username password)) _ e) by exact H.
  unfold wtry_except. simpl.
  destruct (is_login_failure e); [|reflexivity].
  unfold failure_flash. now destruct e.
Qed.

Lemma login_posted_authenticated conf d site request username password :
  outcome (try_login conf d username password) = Return tt ->
  login_posted conf d site request username password
  = match outcome (LdapUser_init conf d (session_user site username)) with
    | Return ldap_user =>
        ((authenticated_prefix conf d site username password
          ++ [LoginUser ldap_user; SessionCommit])%list,
         Return (Redirect
                   (match args_next request with
                    | Some next =>
                        if PyStr.truthy next then NextUrl next
                        else UrlFor "admin.index"
                    | None => UrlFor "admin.index"
                    end)))
    | Raise e =>
        if is_login_failure e
        then ((authenticated_prefix conf d site username password
               ++ [failure_flash e])%list,
              Return (Render "airflow/login.html"))
        else (authenticated_prefix conf d site username password, Raise e)
    end.
Proof.
  intros H. unfold login_posted, authenticated_prefix, session_events, session_user.
  destruct (try_login conf d username password) as [t0 r0]. simpl in H. subst r0.
  destruct (user_by_username site username) as [user|];
    unfold wtry_except, wbind, lift; simpl;
    (destruct (LdapUser_init conf d _) as [t [lu|e]]); simpl;
    try (destruct e; simpl);
    rewrite ?app_nil_r, <- ?app_assoc; simpl; rewrite <- ?app_assoc; reflexivity.
Qed.

(** X20. When [try_login] raises [AuthenticationError], whatever its
    message, the view flashes "Incorrect login details" and shows the login
    page again, and the session is not touched: a refused service account,
    an unknown user and a wrong password look the same to the visitor. *)
Theorem login_authentication_failure conf d site request username password msg :
  current_user_is_authenticated site = false ->
  credentials_posted request username password ->
  outcome (try_login conf d username password) = Raise (AuthenticationError msg) ->
  login conf d site request
  = ((map OfBackend (trace (try_login conf d username password))
      ++ [Flash "Incorrect login details" "message"])%list,
     Return (Render "airflow/login.html")).
Proof.
  intros Hanon Hposted H.
  rewrite (login_credentials_posted _ _ _ _ _ _ Hanon Hposted).
  now rewrite (login_posted_try_login_raises _ _ _ _ _ _ _ H).
Qed.

Lemma login_authentication_failure_witness :
  snd (login Example.conf (Example.directory None []) anonymous_site
         (bob_request "wrong"))
  = Return (Render "airflow/login.html")
  /\ snd (login stale_conf (Example.directory None []) anonymous_site
            (bob_request "correct"))
     = Return (Render "airflow/login.html").
Proof.
  split.
  - rewrite (login_authentication_failure Example.conf (Example.directory None [])
               anonymous_site (bob_request "wrong") "bob" "wrong"
               "Cannot bind to ldap server");
      [reflexivity | reflexivity | repeat split; reflexivity | vm_compute; reflexivity].
  - rewrite (login_authentication_failure stale_conf (Example.directory None [])
               anonymous_site (bob_request "correct") "bob" "correct"
               "Cannot bind to ldap server");
      [reflexivity | reflexivity | repeat split; reflexivity | vm_compute; reflexivity].
Defined.

Lemma existsb_error_flash_backend (t : list Event) :
  existsb is_error_flash (map OfBackend t) = false.
Proof. induction t; simpl; auto. Qed.

Lemma existsb_error_flash_session site username :
  existsb is_error_flash (session_events site username) = false.
Proof. unfold session_events. now destruct (user_by_username site username). Qed.

Lemma existsb_error_flash_prefix conf d site username password :
  existsb is_error_flash (authenticated_prefix conf d site username password) = false.
Proof.
  unfold authenticated_prefix.
  rewrite existsb_app, existsb_error_flash_backend. simpl.
  now rewrite existsb_app, existsb_error_flash_session, existsb_error_flash_backend.
Qed.

Lemma failure_flash_not_error e :
  (forall msg, e <> LdapException msg) -> is_error_flash (failure_flash e) = false.
Proof. intros H. destruct e; try reflexivity. now elim (H msg). Qed.

(** X21. The view never flashes a message with the category "error":
    neither [try_login] nor the construction of the user object raises
    [LdapException], so the branch [flash(e, "error")] of the handler is
    never taken. *)
Theorem login_never_flashes_error conf d site request :
  existsb is_error_flash (fst (login conf d site request)) = false.
Proof.
  destruct (login_without_credentials conf d site request)
    as [(_ & ->) | [(_ & ->) | (Hanon & username & password & Hposted)]];
    try reflexivity.
  rewrite (login_credentials_posted _ _ _ _ _ _ Hanon Hposted).
  destruct (outcome (try_login conf d username password)) as [[]|e] eqn:Hlogin.
  - rewrite (login_posted_authenticated _ _ _ _ _ _ Hlogin).
    destruct (outcome (LdapUser_init conf d (session_user site username)))
      as [ldap_user|e] eqn:Hinit.
    + simpl. rewrite existsb_app, existsb_error_flash_prefix. reflexivity.
    + pose proof (LdapUser_init_raises _ _ _ _ Hinit) as Hne.
      destruct (is_login_failure e); simpl.
      * rewrite existsb_app, existsb_error_flash_prefix. simpl.
        now rewrite (failure_flash_not_error _ Hne).
      * apply existsb_error_flash_prefix.
  - rewrite (login_posted_try_login_raises _ _ _ _ _ _ _ Hlogin).
    pose proof (try_login_raises _ _ _ _ _ Hlogin) as Hne.
    destruct (is_login_failure e); simpl.
    + rewrite existsb_app, existsb_error_flash_backend. simpl.
      now rewrite (failure_flash_not_error _ Hne).
    + apply existsb_error_flash_backend.
Qed.

(** X22. When the password was accepted but the construction of the user
    object raises [AuthenticationError], the visitor is told "Incorrect
    login details" and is not logged in, although the session was already
    committed, with the row of a user seen for the first time added. *)
Theorem login_construction_refused conf d site request username password msg :
  current_user_is_authenticated site = false ->
  credentials_posted request username password ->
  outcome (try_login conf d username password) = Return tt ->
  outcome (LdapUser_init conf d (session_user site username))
  = Raise (AuthenticationError msg) ->
  login conf d site request
  = ((map OfBackend (trace (try_login conf d username password))
      ++ OfBackend (Log INFO ("User " +:+ username +:+ " successfully authenticated"))
         :: session_events site username
      ++ map OfBackend (trace (LdapUser_init conf d (session_user site username)))
      ++ [Flash "Incorrect login details" "message"])%list,
     Return (Render "airflow/login.html")).
Proof.
  intros Hanon Hposted Hlogin Hinit.
  rewrite (login_credentials_posted _ _ _ _ _ _ Hanon Hposted).
  rewrite (login_posted_authenticated _ _ _ _ _ _ Hlogin), Hinit. simpl.
  unfold authenticated_prefix.
  rewrite <- !app_assoc. simpl. now rewrite <- !app_assoc.
Qed.

Lemma login_construction_refused_witness :
  snd (login Example.conf groups_unavailable_directory anonymous_site
         (bob_request "correct"))
  = Return (Render "airflow/login.html")
  /\ In (SessionAdd (mkUser "1" "bob"))
        (fst (login Example.conf groups_unavailable_directory anonymous_site
                (bob_request "correct"))).
Proof.
  rewrite (login_construction_refused Example.conf groups_unavailable_directory
             anonymous_site (bob_request "correct") "bob" "correct"
             "Invalid username or password");
    [ | reflexivity | repeat split; reflexivity
      | vm_compute; reflexivity | vm_compute; reflexivity ].
  split; [reflexivity|].
  vm_compute. tauto.
Defined.

(** X23. An exception of the construction of the user object that is
    neither [AuthenticationError] nor [LdapException] is not handled by the
    view: it leaves [login], after the session was committed and without a
    flash. *)
Theorem login_construction_error_escapes conf d site request username password e :
  current_user_is_authenticated site = false ->
  credentials_posted request username password ->
  outcome (try_login conf d username password) = Return tt ->
  outcome (LdapUser_init conf d (session_user site username)) = Raise e ->
  is_login_failure e = false ->
  login conf d site request
  = (authenticated_prefix conf d site username password, Raise e).
Proof.
  intros Hanon Hposted Hlogin Hinit He.
  rewrite (login_credentials_posted _ _ _ _ _ _ Hanon Hposted).
  now rewrite (login_posted_authenticated _ _ _ _ _ _ Hlogin), Hinit, He.
Qed.

Lemma login_construction_error_escapes_witness :
  snd (login Example.conf (Example.directory (Some ["ou=staff,dc=example,dc=com"]) [])
         anonymous_site (bob_request "correct"))
  = Raise (AttributeError "'NoneType' object has no attribute 'group'").
Proof.
  rewrite (login_construction_error_escapes Example.conf
             (Example.directory (Some ["ou=staff,dc=example,dc=com"]) [])
             anonymous_site (bob_request "correct") "bob" "correct"
             (AttributeError "'NoneType' object has no attribute 'group'"));
    [ reflexivity | reflexivity | repeat split; reflexivity
    | vm_compute; reflexivity | vm_compute; reflexivity | reflexivity ].
Defined.

(** X24. When [try_login] and the construction of the user object both
    return, the view logs in the object constructed for the row of the
    posted user name, commits the session and redirects to the [next]
    argument of the request, or to the index when there is none or it is
    empty; a row is added to the session only when the table had none for
    that name. *)
Theorem login_success conf d site request username password ldap_user :
  current_user_is_authenticated site = false ->
  credentials_posted request username password ->
  outcome (try_login conf d username password) = Return tt ->
  outcome (LdapUser_init conf d (session_user site username)) = Return ldap_user ->
  login conf d site request
  = ((map OfBackend (trace (try_login conf d username password))
      ++ OfBackend (Log INFO ("User " +:+ username +:+ " successfully authenticated"))
         :: session_events site username
      ++ map OfBackend (trace (LdapUser_init conf d (session_user site username)))
      ++ [LoginUser ldap_user; SessionCommit])%list,
     Return (Redirect (login_target request))).
Proof.
  intros Hanon Hposted Hlogin Hinit.
  rewrite (login_credentials_posted _ _ _ _ _ _ Hanon Hposted).
  rewrite (login_posted_authenticated _ _ _ _ _ _ Hlogin), Hinit.
  unfold authenticated_prefix, login_target.
  rewrite <- !app_assoc. simpl. now rewrite <- !app_assoc.
Qed.

Lemma login_success_witness :
  snd (login Example.conf staff_directory site_with_bob
         (mkRequest "POST" true (Some "bob") (Some "correct") (Some "/admin/dags")))
  = Return (Redirect (NextUrl "/admin/dags"))
  /\ In (LoginUser (mkLdapUser Example.bob ["staff"] false true))
        (fst (login Example.conf staff_directory site_with_bob
                (mkRequest "POST" true (Some "bob") (Some "correct")
                   (Some "/admin/dags")))).
Proof.
  rewrite (login_success Example.conf staff_directory site_with_bob
             (mkRequest "POST" true (Some "bob") (Some "correct") (Some "/admin/dags"))
             "bob" "correct" (mkLdapUser Example.bob ["staff"] false true));
    [ | reflexivity | repeat split; reflexivity
      | vm_compute; reflexivity | vm_compute; reflexivity ].
  split; [reflexivity|].
  vm_compute. tauto.
Defined.

Lemma In_LoginUser_backend lu (t : list Event) : ~ In (LoginUser lu) (map OfBackend t).
Proof. induction t; simpl; [tauto|]. intros [H|H]; [discriminate | auto]. Qed.

Lemma In_LoginUser_prefix conf d site username password lu :
  ~ In (LoginUser lu) (authenticated_prefix conf d site username password).
Proof.
  unfold authenticated_prefix, session_events. intros H.
  apply in_app_or in H. destruct H as [H|H]; [now apply In_LoginUser_backend in H|].
  destruct H as [H|H]; [discriminate|].
  apply in_app_or in H. destruct H as [H|H]; [|now apply In_LoginUser_backend in H].
  destruct (user_by_username site username); simpl in H;
    repeat (destruct H as [H|H]; try discriminate); assumption.
Qed.

(** X25. The view logs a visitor in only after [try_login] has returned
    for the posted user name and password, and the object it logs in is
    the one [LdapUser.__init__] constructs for the row of that name. *)
Theorem login_only_after_authentication conf d site request ldap_user :
  In (LoginUser ldap_user) (fst (login conf d site request)) ->
  exists username password,
    credentials_posted request username password
    /\ outcome (try_login conf d username password) = Return tt
    /\ outcome (LdapUser_init conf d (session_user site username)) = Return ldap_user.
Proof.
  destruct (login_without_credentials conf d site request)
    as [(_ & ->) | [(_ & ->) | (Hanon & username & password & Hposted)]].
  - simpl. intros [H|[]]. discriminate.
  - simpl. tauto.
  - rewrite (login_credentials_posted _ _ _ _ _ _ Hanon Hposted).
    intros H. exists username, password. split; [assumption|].
    destruct (outcome (try_login conf d username password)) as [[]|e] eqn:Hlogin.
    + split; [reflexivity|].
      rewrite (login_posted_authenticated _ _ _ _ _ _ Hlogin) in H.
      destruct (outcome (LdapUser_init conf d (session_user site username)))
        as [lu|e] eqn:Hinit.
      * simpl in H. apply in_app_or in H. destruct H as [H|H].
        { now apply In_LoginUser_prefix in H. }
        simpl in H. destruct H as [H|[H|[]]]; [|discriminate].
        now injection H as ->.
      * exfalso. destruct (is_login_failure e); simpl in H.
        { apply in_app_or in H. destruct H as [H|H].
          - now apply In_LoginUser_prefix in H.
          - simpl in H. destruct H as [H|[]]. destruct e; discriminate. }
        now apply In_LoginUser_prefix in H.
    + exfalso.
      rewrite (login_posted_try_login_raises _ _ _ _ _ _ _ Hlogin) in H.
      destruct (is_login_failure e); simpl in H.
      * apply in_app_or in H. destruct H as [H|H].
        { now apply In_LoginUser_backend in H. }
        simpl in H. destruct H as [H|[]]. destruct e; discriminate.
      * now apply In_LoginUser_backend in H.
Qed.

Lemma login_only_after_authentication_witness :
  exists username password,
    credentials_posted (bob_request "correct") username password
    /\ outcome (try_login Example.conf staff_directory username password) = Return tt
    /\ outcome (LdapUser_init Example.conf staff_directory
                  (session_user site_with_bob username))
       = Return (mkLdapUser Example.bob ["staff"] false true).
Proof.
  apply (login_only_after_authentication Example.conf staff_directory site_with_bob
           (bob_request "correct") (mkLdapUser Example.bob ["staff"] false true)).
  vm_compute. tauto.
Defined.
